(** * NvPipe decode side (src/decode.c): a shallow embedding

    The decoder of NvPipe drives NVIDIA's cuvid parser and decoder, the CUDA
    runtime and a colour-conversion kernel.  All of these are external; the
    code under verification is the sizing and resubmission logic around them.

    The embedding therefore has three parts:
    - the C data ([nvp_decoder] and the cuvid structures the callbacks read),
      with [size_t], [int] and [unsigned] arithmetic written out on [Z];
    - the outside world as a deterministic oracle [hardware]: every external
      call is appended to a log, and the oracle answers from the log so far
      (which holds the arguments of the call being answered);
    - the functions of decode.c in a state monad over the decoder struct, the
      log of external calls and the list of diagnostics, with two more
      outcomes for the ways the process stops: a failed [assert], and a
      read through a null object pointer. *)

From Stdlib Require Import ZArith List String Bool Lia.
Import ListNotations.
Open Scope Z_scope.

(** ** Machine integers *)

(** [size_t] is 64 bits wide on the platforms the CUDA video SDK supports. *)
Definition size_t_modulus : Z := 2 ^ 64.
Definition to_size_t (z : Z) : Z := z mod size_t_modulus.

(** A C [int] result, wrapped to 32 bits two's complement. *)
Definition to_int (z : Z) : Z := (z + 2 ^ 31) mod 2 ^ 32 - 2 ^ 31.

(** A C [unsigned] result. *)
Definition to_unsigned (z : Z) : Z := z mod 2 ^ 32.

(** ** Constants *)

Definition MAX_WIDTH : Z := 4096.
Definition MAX_HEIGHT : Z := 4096.

(** Status codes are integers: [nvp_cuvid_decode] returns [CUresult] and
    [cudaError_t] values through its [nvp_err_t] result unchanged.  The
    function's own documentation fixes "NVPIPE_SUCCESS on success, nonzero on
    error"; the CUDA success codes are 0 as well. *)
Definition nvp_err_t := Z.
Definition CUresult := Z.
Definition cudaError_t := Z.
Definition NVPIPE_SUCCESS : nvp_err_t := 0.
Definition CUDA_SUCCESS : CUresult := 0.
Definition cudaSuccess : cudaError_t := 0.

(** [enum objtype] of internal-api.h, the tag in [nvp_impl_t]. *)
Inductive objtype := ENCODER | DECODER.

Definition is_DECODER (t : objtype) : bool :=
  match t with DECODER => true | ENCODER => false end.

(** The two cuvid enumerations [dec_sequence] inspects. *)
Inductive cudaVideoChromaFormat :=
| cudaVideoChromaFormat_Monochrome
| cudaVideoChromaFormat_420
| cudaVideoChromaFormat_422
| cudaVideoChromaFormat_444.

Inductive cudaVideoCodec :=
| cudaVideoCodec_MPEG1
| cudaVideoCodec_MPEG2
| cudaVideoCodec_MPEG4
| cudaVideoCodec_VC1
| cudaVideoCodec_H264
| cudaVideoCodec_JPEG
| cudaVideoCodec_HEVC.

Definition is_420 (c : cudaVideoChromaFormat) : bool :=
  match c with cudaVideoChromaFormat_420 => true | _ => false end.

Definition is_H264 (c : cudaVideoCodec) : bool :=
  match c with cudaVideoCodec_H264 => true | _ => false end.

(** ** Structures handed to the callbacks *)

(** The fields of [CUVIDEOFORMAT] that [dec_sequence] reads. *)
Record CUVIDEOFORMAT := {
  codec : cudaVideoCodec;
  progressive_sequence : Z;
  bit_depth_luma_minus8 : Z;
  coded_height : Z;
  display_area_left : Z;
  display_area_top : Z;
  display_area_right : Z;
  display_area_bottom : Z;
  chroma_format : cudaVideoChromaFormat
}.

(** The fields of [CUVIDPICPARAMS] that [dec_ode] reads (both C [int]). *)
Record CUVIDPICPARAMS := {
  PicWidthInMbs : Z;
  FrameHeightInMbs : Z
}.

Record CUVIDPARSERDISPINFO := {
  picture_index : Z
}.

(** ** The decoder object *)

(** [nvp->d]: the sizes (1) to (3) of the file's header comment. *)
Record dims := {
  wi : Z;
  hi : Z;
  wdst : Z;
  hdst : Z;
  wsrc : Z;
  hsrc : Z
}.

(** [struct nvp_decoder].  Handles and pointers are integers, 0 being NULL;
    [reorg] records whether the pointer is non-null. *)
Record nvp_decoder := {
  impl_type : objtype;
  initialized : bool;
  decoder : Z;
  parser : Z;
  ready : Z;
  hbuf : Z;
  hbuf_sz : Z;
  d : dims;
  rgb : Z;
  empty : bool;
  reorg : bool;
  idx : Z
}.

Definition set_initialized (b : bool) (n : nvp_decoder) : nvp_decoder :=
  {| impl_type := impl_type n; initialized := b; decoder := decoder n;
     parser := parser n; ready := ready n; hbuf := hbuf n;
     hbuf_sz := hbuf_sz n; d := d n; rgb := rgb n; empty := empty n;
     reorg := reorg n; idx := idx n |}.

Definition set_decoder (h : Z) (n : nvp_decoder) : nvp_decoder :=
  {| impl_type := impl_type n; initialized := initialized n; decoder := h;
     parser := parser n; ready := ready n; hbuf := hbuf n;
     hbuf_sz := hbuf_sz n; d := d n; rgb := rgb n; empty := empty n;
     reorg := reorg n; idx := idx n |}.

Definition set_parser (h : Z) (n : nvp_decoder) : nvp_decoder :=
  {| impl_type := impl_type n; initialized := initialized n;
     decoder := decoder n; parser := h; ready := ready n; hbuf := hbuf n;
     hbuf_sz := hbuf_sz n; d := d n; rgb := rgb n; empty := empty n;
     reorg := reorg n; idx := idx n |}.

Definition set_hbuf (p sz : Z) (n : nvp_decoder) : nvp_decoder :=
  {| impl_type := impl_type n; initialized := initialized n;
     decoder := decoder n; parser := parser n; ready := ready n; hbuf := p;
     hbuf_sz := sz; d := d n; rgb := rgb n; empty := empty n;
     reorg := reorg n; idx := idx n |}.

Definition set_d (x : dims) (n : nvp_decoder) : nvp_decoder :=
  {| impl_type := impl_type n; initialized := initialized n;
     decoder := decoder n; parser := parser n; ready := ready n;
     hbuf := hbuf n; hbuf_sz := hbuf_sz n; d := x; rgb := rgb n;
     empty := empty n; reorg := reorg n; idx := idx n |}.

Definition set_rgb (p : Z) (n : nvp_decoder) : nvp_decoder :=
  {| impl_type := impl_type n; initialized := initialized n;
     decoder := decoder n; parser := parser n; ready := ready n;
     hbuf := hbuf n; hbuf_sz := hbuf_sz n; d := d n; rgb := p;
     empty := empty n; reorg := reorg n; idx := idx n |}.

Definition set_empty (b : bool) (n : nvp_decoder) : nvp_decoder :=
  {| impl_type := impl_type n; initialized := initialized n;
     decoder := decoder n; parser := parser n; ready := ready n;
     hbuf := hbuf n; hbuf_sz := hbuf_sz n; d := d n; rgb := rgb n;
     empty := b; reorg := reorg n; idx := idx n |}.

Definition set_idx (i : Z) (n : nvp_decoder) : nvp_decoder :=
  {| impl_type := impl_type n; initialized := initialized n;
     decoder := decoder n; parser := parser n; ready := ready n;
     hbuf := hbuf n; hbuf_sz := hbuf_sz n; d := d n; rgb := rgb n;
     empty := empty n; reorg := reorg n; idx := i |}.

(** [nvp->d.wi = ...; nvp->d.hi = ...] *)
Definition set_input_dims (w h : Z) (n : nvp_decoder) : nvp_decoder :=
  set_d {| wi := w; hi := h; wdst := wdst (d n); hdst := hdst (d n);
           wsrc := wsrc (d n); hsrc := hsrc (d n) |} n.

(** [nvp->d.wdst = ...; nvp->d.hdst = ...] *)
Definition set_target_dims (w h : Z) (n : nvp_decoder) : nvp_decoder :=
  set_d {| wi := wi (d n); hi := hi (d n); wdst := w; hdst := h;
           wsrc := wsrc (d n); hsrc := hsrc (d n) |} n.

(** [nvp->d.wsrc = ...; nvp->d.hsrc = ...] *)
Definition set_source_dims (w h : Z) (n : nvp_decoder) : nvp_decoder :=
  set_d {| wi := wi (d n); hi := hi (d n); wdst := wdst (d n);
           hdst := hdst (d n); wsrc := w; hsrc := h |} n.

(** ** The outside world *)

(** One constructor per external function decode.c calls while decoding,
    with the arguments that vary. *)
Inductive hw_op :=
| CreateDecoder (ulWidth ulHeight ulTargetWidth ulTargetHeight : Z)
| DestroyDecoder (h : Z)
| Free (p : Z)
| Malloc (nbytes : Z)
| CreateVideoParser
| PointerGetAttributes (p : Z)
| Realloc (p sz : Z)
| Memcpy (dst src n : Z)
| ParseVideoData (h payload payload_size : Z)
| DecodePicture (h : Z) (pic : CUVIDPICPARAMS)
| MapVideoFrame (h i : Z)
| EventRecord (ev : Z)
| StreamWaitEvent (ev : Z)
| ReorgSubmit (nv12 width height dst pitch : Z)
| MemcpyAsync (dst src n : Z)
| ReorgSync
| UnmapVideoFrame (h data : Z).

(** What [cuvidParseVideoData] does with one packet: it invokes the three
    registered callbacks any number of times, reacting to what each returns,
    and finally returns a [CUresult]. *)
Inductive parse_script :=
| ParseDone (r : CUresult)
| CallSequence (fmt : CUVIDEOFORMAT) (k : Z -> parse_script)
| CallDecode (pic : CUVIDPICPARAMS) (k : Z -> parse_script)
| CallDisplay (dinfo : CUVIDPARSERDISPINFO) (k : Z -> parse_script).

(** The log of external calls, newest first. *)
Definition hw_log := list hw_op.

(** The oracle.  Each field answers the call at the head of the log it is
    given.  Results that come back through out-parameters are paired with
    the status. *)
Record hardware := {
  cuvidCreateDecoder : hw_log -> CUresult * Z;
  cuvidDestroyDecoder : hw_log -> CUresult;
  cudaFree : hw_log -> cudaError_t;
  cudaMalloc : hw_log -> cudaError_t * Z;
  cuvidCreateVideoParser : hw_log -> CUresult * Z;
  cudaPointerGetAttributes : hw_log -> cudaError_t * Z;
  realloc : hw_log -> Z;
  cudaMemcpy : hw_log -> cudaError_t;
  cuvidParseVideoData : hw_log -> parse_script;
  cuvidDecodePicture : hw_log -> CUresult;
  cuvidMapVideoFrame : hw_log -> CUresult * (Z * Z);
  cudaEventRecord : hw_log -> cudaError_t;
  cudaStreamWaitEvent : hw_log -> cudaError_t;
  reorg_submit : hw_log -> cudaError_t;
  cudaMemcpyAsync : hw_log -> cudaError_t;
  reorg_sync : hw_log -> cudaError_t;
  cuvidUnmapVideoFrame : hw_log -> CUresult
}.

(** Diagnostics: the [ERR], [WARN] and [TRACE] macros on channel [dec], and
    the NVTX profiling ranges. *)
Inductive level := L_ERR | L_WARN | L_TRACE.

Inductive message :=
| Msg (l : level) (text : string)
| NvtxRangePush (name : string)
| NvtxRangePop.

Record world := {
  nvp : nvp_decoder;
  hwlog : hw_log;
  diag : list message
}.

Definition with_nvp (n : nvp_decoder) (w : world) : world :=
  {| nvp := n; hwlog := hwlog w; diag := diag w |}.

Definition with_hwlog (l : hw_log) (w : world) : world :=
  {| nvp := nvp w; hwlog := l; diag := diag w |}.

Definition with_diag (m : message) (w : world) : world :=
  {| nvp := nvp w; hwlog := hwlog w; diag := m :: diag w |}.

(** ** The monad *)

(** A computation either yields a value, or stops the process: in a failed
    [assert], or reading through a null pointer. *)
Inductive outcome (A : Type) :=
| Done (a : A)
| Aborted
| Faulted.
Arguments Done {A} a.
Arguments Aborted {A}.
Arguments Faulted {A}.

Definition M (A : Type) : Type := world -> outcome A * world.

Definition ret {A} (a : A) : M A := fun w => (Done a, w).

Definition bind {A B} (m : M A) (f : A -> M B) : M B :=
  fun w =>
    match m w with
    | (Done a, w') => f a w'
    | (Aborted, w') => (Aborted, w')
    | (Faulted, w') => (Faulted, w')
    end.

Notation "x <- m ;; k" := (bind m (fun x => k))
  (at level 61, m at next level, right associativity).
Notation "m ;; k" := (bind m (fun _ => k))
  (at level 61, right associativity).

Definition get : M nvp_decoder := fun w => (Done (nvp w), w).

Definition modify (f : nvp_decoder -> nvp_decoder) : M unit :=
  fun w => (Done tt, with_nvp (f (nvp w)) w).

Definition emit (m : message) : M unit := fun w => (Done tt, with_diag m w).

(** [p->member], where [live] tells whether the pointer [p] is non-null:
    reading through a null pointer stops the process. *)
Definition deref (live : bool) : M unit :=
  fun w => if live then (Done tt, w) else (Faulted, w).

Definition ERR (text : string) : M unit := emit (Msg L_ERR text).
Definition WARN (text : string) : M unit := emit (Msg L_WARN text).
Definition TRACE (text : string) : M unit := emit (Msg L_TRACE text).
Definition nvtxRangePush (name : string) : M unit := emit (NvtxRangePush name).
Definition nvtxRangePop : M unit := emit NvtxRangePop.

(** [if(c) { body }] with no else branch. *)
Definition when (c : bool) (body : M unit) : M unit :=
  if c then body else ret tt.

Definition neqb (a b : Z) : bool := negb (a =? b).

(** ** The outside world at teardown *)

(** [nvp->reorg = NULL] *)
Definition set_reorg (b : bool) (n : nvp_decoder) : nvp_decoder :=
  {| impl_type := impl_type n; initialized := initialized n;
     decoder := decoder n; parser := parser n; ready := ready n;
     hbuf := hbuf n; hbuf_sz := hbuf_sz n; d := d n; rgb := rgb n;
     empty := empty n; reorg := b; idx := idx n |}.

(** The external functions [nvp_cuvid_destroy] calls: the two cuvid
    destructors, [cudaFree], the [destroy] member of the reorganization
    object, [cudaEventDestroy] and libc's [free]. *)
Inductive teardown_op :=
| TdDestroyDecoder (h : Z)
| TdDestroyVideoParser (h : Z)
| TdFree (p : Z)
| TdReorgDestroy
| TdEventDestroy (ev : Z)
| TdHostFree (p : Z).

(** The oracle for the calls whose status [nvp_cuvid_destroy] looks at; as
    in [hardware], each field answers the call at the head of the log. *)
Record teardown_hw := {
  td_cuvidDestroyDecoder : list teardown_op -> CUresult;
  td_cuvidDestroyVideoParser : list teardown_op -> CUresult;
  td_cudaFree : list teardown_op -> cudaError_t;
  td_cudaEventDestroy : list teardown_op -> cudaError_t
}.

Record teardown := {
  td_nvp : nvp_decoder;
  td_log : list teardown_op;
  td_diag : list message
}.

(** Make a call whose status is looked at. *)
Definition td_call (thw : teardown_hw) (op : teardown_op)
           (answer : teardown_hw -> list teardown_op -> Z) (s : teardown)
  : Z * teardown :=
  let l := op :: td_log s in
  (answer thw l, {| td_nvp := td_nvp s; td_log := l; td_diag := td_diag s |}).

(** Make a call that returns nothing. *)
Definition td_do (op : teardown_op) (s : teardown) : teardown :=
  {| td_nvp := td_nvp s; td_log := op :: td_log s; td_diag := td_diag s |}.

Definition td_warn (text : string) (s : teardown) : teardown :=
  {| td_nvp := td_nvp s; td_log := td_log s;
     td_diag := Msg L_WARN text :: td_diag s |}.

Definition td_set (f : nvp_decoder -> nvp_decoder) (s : teardown) : teardown :=
  {| td_nvp := f (td_nvp s); td_log := td_log s; td_diag := td_diag s |}.

Definition is_warning (m : message) : bool :=
  match m with Msg L_WARN _ => true | _ => false end.

(** ** Sample environments

    Concrete oracles and a concrete decoder object, on which the functions
    below can be run. *)

(** The object [nvp_create_decoder] returns: zeroed memory, the type tag,
    the synchronization event and the reorganization object. *)
Definition created_decoder : nvp_decoder :=
  {| impl_type := DECODER; initialized := false; decoder := 0; parser := 0;
     ready := 1; hbuf := 0; hbuf_sz := 0;
     d := {| wi := 0; hi := 0; wdst := 0; hdst := 0; wsrc := 0; hsrc := 0 |};
     rgb := 0; empty := false; reorg := true; idx := 0 |}.

Definition initial_world : world :=
  {| nvp := created_decoder; hwlog := []; diag := [] |}.

(** A 640x480 progressive 4:2:0 H.264 stream, 40x30 macroblocks. *)
Definition fmt_640x480 : CUVIDEOFORMAT :=
  {| codec := cudaVideoCodec_H264; progressive_sequence := 1;
     bit_depth_luma_minus8 := 0; coded_height := 480;
     display_area_left := 0; display_area_top := 0;
     display_area_right := 640; display_area_bottom := 480;
     chroma_format := cudaVideoChromaFormat_420 |}.

Definition pic_640x480 : CUVIDPICPARAMS :=
  {| PicWidthInMbs := 40; FrameHeightInMbs := 30 |}.

(** A packet holding a sequence header and one picture.  The parser is
    created with [ulErrorThreshold = 100], so it goes on whatever the
    callbacks return. *)
Definition one_picture : parse_script :=
  CallSequence fmt_640x480 (fun _ =>
  CallDecode pic_640x480 (fun _ =>
  CallDisplay {| picture_index := 0 |} (fun _ =>
  ParseDone CUDA_SUCCESS))).

(** A packet holding stream metadata only: no callback fires. *)
Definition metadata_only : parse_script := ParseDone CUDA_SUCCESS.

(** An environment in which everything succeeds, but for the knobs:
    [script] is what the parser does with each packet, [create] the status of
    each [cuvidCreateDecoder], [device] tells which pointers are device
    memory, [grow] is what [realloc] returns, and [memcpy], [submit] and
    [unmap] are the statuses of [cudaMemcpy], of the conversion kernel and of
    [cuvidUnmapVideoFrame].  [cuvidDecodePicture] fails on a null decoder. *)
Definition sample_hw (script : hw_log -> parse_script)
           (create : hw_log -> CUresult) (device : Z -> bool)
           (grow : Z) (memcpy submit unmap : Z) : hardware :=
  {| cuvidCreateDecoder := fun l => (create l, 7);
     cuvidDestroyDecoder := fun _ => CUDA_SUCCESS;
     cudaFree := fun _ => cudaSuccess;
     cudaMalloc := fun _ => (cudaSuccess, 4096);
     cuvidCreateVideoParser := fun _ => (CUDA_SUCCESS, 5);
     cudaPointerGetAttributes := fun l =>
       match l with
       | PointerGetAttributes p :: _ =>
           if device p then (cudaSuccess, p) else (cudaSuccess, 0)
       | _ => (1, 0)
       end;
     realloc := fun _ => grow;
     cudaMemcpy := fun _ => memcpy;
     cuvidParseVideoData := script;
     cuvidDecodePicture := fun l =>
       match l with
       | DecodePicture h _ :: _ => if h =? 0 then 1 else CUDA_SUCCESS
       | _ => 1
       end;
     cuvidMapVideoFrame := fun _ => (CUDA_SUCCESS, (8192, 1024));
     cudaEventRecord := fun _ => cudaSuccess;
     cudaStreamWaitEvent := fun _ => cudaSuccess;
     reorg_submit := fun _ => submit;
     cudaMemcpyAsync := fun _ => cudaSuccess;
     reorg_sync := fun _ => cudaSuccess;
     cuvidUnmapVideoFrame := fun _ => unmap |}.

(** Host input and output, every packet a picture, nothing fails. *)
Definition hw_ok : hardware :=
  sample_hw (fun _ => one_picture) (fun _ => CUDA_SUCCESS) (fun _ => false)
            0 cudaSuccess cudaSuccess CUDA_SUCCESS.

(** Every packet is stream metadata. *)
Definition hw_metadata : hardware :=
  sample_hw (fun _ => metadata_only) (fun _ => CUDA_SUCCESS) (fun _ => false)
            0 cudaSuccess cudaSuccess CUDA_SUCCESS.

Definition is_CreateDecoder (op : hw_op) : bool :=
  match op with CreateDecoder _ _ _ _ => true | _ => false end.

Definition is_DestroyDecoder (op : hw_op) : bool :=
  match op with DestroyDecoder _ => true | _ => false end.

Definition is_Free (op : hw_op) : bool :=
  match op with Free _ => true | _ => false end.

Definition is_Malloc (op : hw_op) : bool :=
  match op with Malloc _ => true | _ => false end.

(** How many calls in a log satisfy [f]. *)
Definition count (f : hw_op -> bool) (l : hw_log) : nat :=
  List.length (filter f l).

(** As [hw_ok], but the second [cuvidCreateDecoder] of the session fails
    (status 2, out of memory). *)
Definition hw_create_fails_once : hardware :=
  sample_hw (fun _ => one_picture)
            (fun l => if Nat.eqb (count is_CreateDecoder l) 2 then 2
                      else CUDA_SUCCESS)
            (fun _ => false) 0 cudaSuccess cudaSuccess CUDA_SUCCESS.

(** The input lives on the device (every pointer does); [realloc] returns
    [grow] and the copy to the host has status [memcpy]. *)
Definition hw_device (grow memcpy : Z) : hardware :=
  sample_hw (fun _ => one_picture) (fun _ => CUDA_SUCCESS) (fun _ => true)
            grow memcpy cudaSuccess CUDA_SUCCESS.



(** The conversion kernel fails with status 9 and the unmap with status 4. *)
Definition hw_convert_fails : hardware :=
  sample_hw (fun _ => one_picture) (fun _ => CUDA_SUCCESS) (fun _ => false)
            0 cudaSuccess 9 4.

(** An object of the encoder implementation handed to the decoder's entry
    point. *)
Definition foreign_world : world :=
  {| nvp := {| impl_type := ENCODER; initialized := false; decoder := 0;
               parser := 0; ready := 1; hbuf := 0; hbuf_sz := 0;
               d := {| wi := 0; hi := 0; wdst := 0; hdst := 0;
                       wsrc := 0; hsrc := 0 |};
               rgb := 0; empty := false; reorg := true; idx := 0 |};
     hwlog := []; diag := [] |}.

(** A decoder that already holds decode resource 7. *)
Definition running_world : world :=
  {| nvp := set_decoder 7 created_decoder; hwlog := []; diag := [] |}.

(** The same decoder after [nvp_cuvid_destroy], which nulls [reorg] and
    leaves the handles as they are. *)
Definition released_world : world :=
  {| nvp := set_reorg false (set_decoder 7 created_decoder);
     hwlog := []; diag := [] |}.

(** The world a finished call leaves. *)
Definition world_after (r : option (outcome nvp_err_t * world)) : world :=
  match r with
  | Some (_, w) => w
  | None => initial_world
  end.

(** Environments that differ from another one in a single call. *)
Definition with_parser_creation (f : hw_log -> CUresult * Z) (h : hardware) : hardware :=
  {| cuvidCreateDecoder := cuvidCreateDecoder h;
     cuvidDestroyDecoder := cuvidDestroyDecoder h;
     cudaFree := cudaFree h;
     cudaMalloc := cudaMalloc h;
     cuvidCreateVideoParser := f;
     cudaPointerGetAttributes := cudaPointerGetAttributes h;
     realloc := realloc h;
     cudaMemcpy := cudaMemcpy h;
     cuvidParseVideoData := cuvidParseVideoData h;
     cuvidDecodePicture := cuvidDecodePicture h;
     cuvidMapVideoFrame := cuvidMapVideoFrame h;
     cudaEventRecord := cudaEventRecord h;
     cudaStreamWaitEvent := cudaStreamWaitEvent h;
     reorg_submit := reorg_submit h;
     cudaMemcpyAsync := cudaMemcpyAsync h;
     reorg_sync := reorg_sync h;
     cuvidUnmapVideoFrame := cuvidUnmapVideoFrame h |}.

Definition with_map (f : hw_log -> CUresult * (Z * Z)) (h : hardware) : hardware :=
  {| cuvidCreateDecoder := cuvidCreateDecoder h;
     cuvidDestroyDecoder := cuvidDestroyDecoder h;
     cudaFree := cudaFree h;
     cudaMalloc := cudaMalloc h;
     cuvidCreateVideoParser := cuvidCreateVideoParser h;
     cudaPointerGetAttributes := cudaPointerGetAttributes h;
     realloc := realloc h;
     cudaMemcpy := cudaMemcpy h;
     cuvidParseVideoData := cuvidParseVideoData h;
     cuvidDecodePicture := cuvidDecodePicture h;
     cuvidMapVideoFrame := f;
     cudaEventRecord := cudaEventRecord h;
     cudaStreamWaitEvent := cudaStreamWaitEvent h;
     reorg_submit := reorg_submit h;
     cudaMemcpyAsync := cudaMemcpyAsync h;
     reorg_sync := reorg_sync h;
     cuvidUnmapVideoFrame := cuvidUnmapVideoFrame h |}.

Definition with_event_record (f : hw_log -> cudaError_t) (h : hardware) : hardware :=
  {| cuvidCreateDecoder := cuvidCreateDecoder h;
     cuvidDestroyDecoder := cuvidDestroyDecoder h;
     cudaFree := cudaFree h;
     cudaMalloc := cudaMalloc h;
     cuvidCreateVideoParser := cuvidCreateVideoParser h;
     cudaPointerGetAttributes := cudaPointerGetAttributes h;
     realloc := realloc h;
     cudaMemcpy := cudaMemcpy h;
     cuvidParseVideoData := cuvidParseVideoData h;
     cuvidDecodePicture := cuvidDecodePicture h;
     cuvidMapVideoFrame := cuvidMapVideoFrame h;
     cudaEventRecord := f;
     cudaStreamWaitEvent := cudaStreamWaitEvent h;
     reorg_submit := reorg_submit h;
     cudaMemcpyAsync := cudaMemcpyAsync h;
     reorg_sync := reorg_sync h;
     cuvidUnmapVideoFrame := cuvidUnmapVideoFrame h |}.

(** No parser can be created (status 1). *)
Definition hw_no_parser : hardware :=
  with_parser_creation (fun _ => (1, 0)) hw_ok.

(** The parser rejects every packet (status 1) without firing a callback. *)
Definition hw_parse_fails : hardware :=
  sample_hw (fun _ => ParseDone 1) (fun _ => CUDA_SUCCESS) (fun _ => false)
            0 cudaSuccess cudaSuccess CUDA_SUCCESS.

(** Mapping a frame fails (status 3); recording the event fails (status
    4). *)
Definition hw_map_fails : hardware :=
  with_map (fun _ => (3, (0, 0))) hw_ok.

Definition hw_event_fails : hardware :=
  with_event_record (fun _ => 4) hw_ok.

(** No decode resource can be created (status 2), and the parser fires no
    callback. *)
Definition hw_never_creates : hardware :=
  sample_hw (fun _ => metadata_only) (fun _ => 2) (fun _ => false)
            0 cudaSuccess cudaSuccess CUDA_SUCCESS.

(** The stream has grown to 1280x720 (80x45 macroblocks), and the second
    [cuvidCreateDecoder] of the session fails. *)
Definition pic_1280x720 : CUVIDPICPARAMS :=
  {| PicWidthInMbs := 80; FrameHeightInMbs := 45 |}.

Definition hw_stream_grows : hardware :=
  sample_hw (fun _ => CallDecode pic_1280x720 (fun _ =>
                      CallDisplay {| picture_index := 0 |} (fun _ =>
                      ParseDone CUDA_SUCCESS)))
            (fun l => if Nat.eqb (count is_CreateDecoder l) 2 then 2
                      else CUDA_SUCCESS)
            (fun _ => false) 0 cudaSuccess cudaSuccess CUDA_SUCCESS.

(** A teardown in which every call that reports a status fails. *)
Definition td_hw_failing : teardown_hw :=
  {| td_cuvidDestroyDecoder := fun _ => 1;
     td_cuvidDestroyVideoParser := fun _ => 1;
     td_cudaFree := fun _ => 1;
     td_cudaEventDestroy := fun _ => 1 |}.

(** A decoder in use, about to be torn down. *)
Definition td_in_use : teardown :=
  {| td_nvp := {| impl_type := DECODER; initialized := true; decoder := 7;
                  parser := 5; ready := 1; hbuf := 64; hbuf_sz := 10;
                  d := {| wi := 640; hi := 480; wdst := 640; hdst := 480;
                          wsrc := 640; hsrc := 480 |};
                  rgb := 4096; empty := false; reorg := true; idx := 0 |};
     td_log := []; td_diag := [] |}.

(** ** decode.c *)

Section Decode.

(** Whether the translation unit is compiled with [NDEBUG], which turns
    every [assert] into nothing. *)
Variable NDEBUG : bool.

(** The error members of [nvp_err_t] used here; nvpipe.h gives them their
    values. *)
Variables NVPIPE_EINVAL NVPIPE_ENOMEM NVPIPE_EDECODE : nvp_err_t.

Variable hw : hardware.

(** [assert(c)]: nothing under [NDEBUG], else [abort()] when [c] is false. *)
Definition assert (c : bool) : M unit :=
  fun w => if NDEBUG || c then (Done tt, w) else (Aborted, w).

(** Perform an external call: log it, and take the oracle's answer. *)
Definition hw_call {A} (op : hw_op) (answer : hardware -> hw_log -> A)
  : M A :=
  fun w => let l := op :: hwlog w in (Done (answer hw l), with_hwlog l w).

(** The conversion-buffer part of [dec_initialize] from the [cudaMalloc]
    on (lines 148-156). *)
Definition allocate_rgb (dstwidth dstheight : Z) : M bool :=
  let nb_rgb := to_size_t (to_size_t (dstwidth * dstheight) * 3) in
  merr <- hw_call (Malloc nb_rgb) cudaMalloc ;;
  if neqb cudaSuccess (fst merr) then
    ERR "could not allocate temporary RGB buffer: %d" ;;
    modify (set_rgb 0) ;;
    ret false
  else
    modify (set_rgb (snd merr)) ;;
    modify (set_target_dims dstwidth dstheight) ;;
    ret true.

(** Lines 105-161.  [wi] and [hi] are stored before the decode resource is
    created; the handle is stored when the creation succeeds. *)
Definition dec_initialize (iwidth iheight dstwidth dstheight : Z) : M bool :=
  assert ((0 <? iwidth) && (0 <? iheight)) ;;
  assert ((0 <? dstwidth) && (0 <? dstheight)) ;;
  n <- get ;;
  assert (decoder n =? 0) ;;
  modify (set_input_dims iwidth iheight) ;;
  crt <- hw_call (CreateDecoder iwidth iheight dstwidth dstheight)
                 cuvidCreateDecoder ;;
  if neqb (fst crt) CUDA_SUCCESS then
    ERR "decoder creation failed" ;;
    ret false
  else
    modify (set_decoder (snd crt)) ;;
    n <- get ;;
    ok <- (if neqb dstwidth (wdst (d n)) || neqb dstheight (hdst (d n)) then
             if neqb (rgb n) 0 then
               frerr <- hw_call (Free (rgb n)) cudaFree ;;
               if neqb cudaSuccess frerr then
                 ERR "Could not free internal RGB buffer: %d" ;;
                 ret false
               else
                 modify (set_rgb 0) ;;
                 allocate_rgb dstwidth dstheight
             else
               allocate_rgb dstwidth dstheight
           else ret true) ;;
    if ok then
      modify (set_initialized true) ;;
      ret true
    else ret false.

(** Lines 164-172.  The result of [dec_initialize] is dropped. *)
Definition resize (width height dstwidth dstheight : Z) : M unit :=
  n <- get ;;
  when (neqb (decoder n) 0)
       (r <- hw_call (DestroyDecoder (decoder n)) cuvidDestroyDecoder ;;
        when (neqb r CUDA_SUCCESS) (ERR "Error destroying decoder")) ;;
  modify (set_decoder 0) ;;
  _ <- dec_initialize width height dstwidth dstheight ;;
  ret tt.

(** Lines 200-236, cuvid's sequence callback.  The display area holds C
    [int]s: the differences are [int] results, converted to [size_t]. *)
Definition dec_sequence (fmt : CUVIDEOFORMAT) : M Z :=
  when ((MAX_WIDTH <? to_size_t (display_area_right fmt))
        || (MAX_HEIGHT <? to_size_t (display_area_bottom fmt)))
       (WARN "Video stream exceeds (%zux%zu) limits.") ;;
  if neqb (bit_depth_luma_minus8 fmt) 0 then
    WARN "Unhandled bit depth (%d).  Was the frame compressed by a different version of this library?" ;;
    ret 0
  else
    assert (is_420 (chroma_format fmt)) ;;
    assert (is_H264 (codec fmt)) ;;
    assert (progressive_sequence fmt =? 1) ;;
    let w := to_size_t (to_int (display_area_right fmt
                                - display_area_left fmt)) in
    let h := to_size_t (to_int (display_area_bottom fmt
                                - display_area_top fmt)) in
    when (neqb (coded_height fmt) h)
         (TRACE "coded height (%u) does not correspond to height (%zu).") ;;
    n <- get ;;
    if negb (initialized n) then
      ok <- dec_initialize w h w h ;;
      if negb ok then ret 0 else ret 1
    else ret 1.

(** Lines 238-253, cuvid's decode callback.  The macroblock counts are C
    [int]s: each product is an [int] result, converted to [size_t]. *)
Definition dec_ode (pic : CUVIDPICPARAMS) : M Z :=
  n <- get ;;
  nvtxRangePush "cuvid DecodePicture" ;;
  dec <- hw_call (DecodePicture (decoder n) pic) cuvidDecodePicture ;;
  nvtxRangePop ;;
  if neqb CUDA_SUCCESS dec then
    WARN "Error %d decoding frame" ;;
    ret 0
  else
    modify (set_source_dims (to_size_t (to_int (PicWidthInMbs pic * 16)))
                            (to_size_t (to_int (FrameHeightInMbs pic * 16)))) ;;
    ret 1.

(** Lines 258-263, cuvid's display callback. *)
Definition dec_display (dinfo : CUVIDPARSERDISPINFO) : M Z :=
  modify (set_idx (to_unsigned (picture_index dinfo))) ;;
  ret 1.

(** Lines 265-285. *)
Definition initialize_parser : M nvp_err_t :=
  prs <- hw_call CreateVideoParser cuvidCreateVideoParser ;;
  if neqb (fst prs) CUDA_SUCCESS then
    ERR "failed creating video parser." ;;
    ret NVPIPE_EDECODE
  else
    modify (set_parser (snd prs)) ;;
    ret NVPIPE_SUCCESS.

(** Lines 288-293: the status of [cudaPointerGetAttributes] and the
    [devicePointer] attribute it fills in. *)
Definition is_device_ptr (ptr : Z) : M bool :=
  attr <- hw_call (PointerGetAttributes ptr) cudaPointerGetAttributes ;;
  ret ((fst attr =? cudaSuccess) && neqb (snd attr) 0).

(** The copy of [source_data] (lines 315-322). *)
Definition stage_copy (ibuf ibuf_sz : Z) : M Z :=
  n <- get ;;
  assert (ibuf_sz <=? hbuf_sz n) ;;
  hcpy <- hw_call (Memcpy (hbuf n) ibuf ibuf_sz) cudaMemcpy ;;
  if neqb hcpy cudaSuccess then
    ERR "copy to temp host buffer failed: %d" ;;
    ret 0
  else ret (hbuf n).

(** Lines 302-326.  The result is the host pointer to parse from, 0 for
    NULL. *)
Definition source_data (ibuf ibuf_sz : Z) : M Z :=
  dev <- is_device_ptr ibuf ;;
  if dev then
    n <- get ;;
    if hbuf_sz n <? ibuf_sz then
      buf <- hw_call (Realloc (hbuf n) ibuf_sz) realloc ;;
      if buf =? 0 then
        ERR "allocation failure of %zu-byte temp host buffer" ;;
        ret 0
      else
        modify (set_hbuf buf ibuf_sz) ;;
        stage_copy ibuf ibuf_sz
    else stage_copy ibuf ibuf_sz
  else ret ibuf.

(** The end of [reorganize] (lines 360-366): [nvp->reorg->sync]. *)
Definition reorganize_sync : M nvp_err_t :=
  n <- get ;;
  deref (reorg n) ;;
  synch <- hw_call ReorgSync reorg_sync ;;
  if neqb cudaSuccess synch then
    ERR "reorganization sync failed: %d" ;;
    ret synch
  else ret NVPIPE_SUCCESS.

(** Lines 329-367.  [is_device_ptr(obuf)] is asked twice, as in the
    source, and [nvp->reorg] is read through at lines 340, 353 and 360. *)
Definition reorganize (nv12 width height obuf pitch : Z) : M nvp_err_t :=
  n <- get ;;
  dev <- is_device_ptr obuf ;;
  let dstbuf := if dev then obuf else rgb n in
  assert (reorg n) ;;
  deref (reorg n) ;;
  sub <- hw_call (ReorgSubmit nv12 width height dstbuf pitch) reorg_submit ;;
  if neqb cudaSuccess sub then
    ERR "reorganization kernel failed: %d" ;;
    ret sub
  else
    dev' <- is_device_ptr obuf ;;
    if negb dev' then
      let nb_rgb := to_size_t (to_size_t (wdst (d n) * hdst (d n)) * 3) in
      deref (reorg n) ;;
      hcopy <- hw_call (MemcpyAsync obuf dstbuf nb_rgb) cudaMemcpyAsync ;;
      if neqb cudaSuccess hcopy then
        ERR "async DtoH failed: %d" ;;
        ret hcopy
      else reorganize_sync
    else reorganize_sync.

(** Running the callbacks [cuvidParseVideoData] fires, in the order and
    with the arguments the library chooses, feeding it what they return. *)
Fixpoint run_callbacks (s : parse_script) : M CUresult :=
  match s with
  | ParseDone r => ret r
  | CallSequence fmt k => r <- dec_sequence fmt ;; run_callbacks (k r)
  | CallDecode pic k => r <- dec_ode pic ;; run_callbacks (k r)
  | CallDisplay dinfo k => r <- dec_display dinfo ;; run_callbacks (k r)
  end.

(** How one activation of [nvp_cuvid_decode] ends: with a status, or in
    the tail call [return nvp_cuvid_decode(cdc, ibuf, ibuf_sz, obuf, width,
    height)] on its own arguments. *)
Inductive flow :=
| Return (e : nvp_err_t)
| Resubmit.

(** Lines 406-411: the parser is created on first use. *)
Definition lazy_parser : M nvp_err_t :=
  n <- get ;;
  if parser n =? 0 then initialize_parser else ret NVPIPE_SUCCESS.

(** Lines 388-429: the argument checks, the lazy parser, staging and the
    parse.  [Some e] is an early [return e]; [None] falls through. *)
Definition decode_submit (ibuf ibuf_sz obuf width height : Z)
  : M (option nvp_err_t) :=
  n <- get ;;
  if negb (is_DECODER (impl_type n)) then
    ERR "backend implementation configuration error" ;;
    ret (Some NVPIPE_EINVAL)
  else if ibuf_sz =? 0 then
    ERR "input buffer size is 0." ;;
    ret (Some NVPIPE_EINVAL)
  else if (width =? 0) || (height =? 0) || (Z.land height 1 =? 1) then
    ERR "invalid width or height" ;;
    ret (Some NVPIPE_EINVAL)
  else
    assert (neqb ibuf 0) ;;
    assert (neqb obuf 0) ;;
    perr <- lazy_parser ;;
    if neqb NVPIPE_SUCCESS perr then ret (Some perr)
    else
      srcbuf <- source_data ibuf ibuf_sz ;;
      if srcbuf =? 0 then ret (Some NVPIPE_ENOMEM)
      else
        n <- get ;;
        nvtxRangePush "cuvid parse video data" ;;
        s <- hw_call (ParseVideoData (parser n) srcbuf ibuf_sz)
                     cuvidParseVideoData ;;
        parse <- run_callbacks s ;;
        nvtxRangePop ;;
        if neqb CUDA_SUCCESS parse then
          ERR "parsing video data failed" ;;
          ret (Some NVPIPE_EDECODE)
        else ret None.

(** Lines 456-496: map the frame, order the streams, convert, unmap.  The
    stream to wait in is [nvp->reorg->strm] (line 478). *)
Definition decode_deliver (obuf width height : Z) : M nvp_err_t :=
  n <- get ;;
  assert (neqb (decoder n) 0) ;;
  mrs <- hw_call (MapVideoFrame (decoder n) (idx n)) cuvidMapVideoFrame ;;
  let data := fst (snd mrs) in
  let pitch := snd (snd mrs) in
  if neqb CUDA_SUCCESS (fst mrs) then
    ERR "Failed mapping frame: %d" ;;
    ret (fst mrs)
  else
    evt <- hw_call (EventRecord (ready n)) cudaEventRecord ;;
    if neqb cudaSuccess evt then
      ERR "could not record synchronization event: %d" ;;
      ret evt
    else
      deref (reorg n) ;;
      evwait <- hw_call (StreamWaitEvent (ready n)) cudaStreamWaitEvent ;;
      if neqb cudaSuccess evwait then
        ERR "could not synchronize streams via event: %d" ;;
        ret evwait
      else
        nvtxRangePush "reorganize" ;;
        orgerr <- reorganize data width height obuf pitch ;;
        nvtxRangePop ;;
        n <- get ;;
        maperr <- hw_call (UnmapVideoFrame (decoder n) data)
                          cuvidUnmapVideoFrame ;;
        when (neqb CUDA_SUCCESS maperr)
             (WARN "Unmapping frame failed: %d") ;;
        ret orgerr.

(** Lines 431-497: what the activation does once the parse has returned
    successfully. *)
Definition decode_reconcile (obuf width height : Z) : M flow :=
  n <- get ;;
  if (wsrc (d n) =? 0) || (hsrc (d n) =? 0) then
    if empty n then
      ERR "Input is just stream metadata!" ;;
      ret (Return NVPIPE_EINVAL)
    else
      modify (set_empty true) ;;
      ret Resubmit
  else
    modify (set_empty false) ;;
    n <- get ;;
    if neqb (wsrc (d n)) (wi (d n)) || neqb (hsrc (d n)) (hi (d n))
       || neqb (wdst (d n)) width || neqb (hdst (d n)) height then
      resize (wsrc (d n)) (hsrc (d n)) width height ;;
      ret Resubmit
    else
      e <- decode_deliver obuf width height ;;
      ret (Return e).

(** One activation of [nvp_cuvid_decode]. *)
Definition decode_call (ibuf ibuf_sz obuf width height : Z) : M flow :=
  early <- decode_submit ibuf ibuf_sz obuf width height ;;
  match early with
  | Some e => ret (Return e)
  | None => decode_reconcile obuf width height
  end.

(** [nvp_cuvid_decode]: activations until one returns.  The C function
    recurses without a bound; [fuel] is the number of activations allowed,
    and [None] means they were all used up. *)
Fixpoint nvp_cuvid_decode (fuel : nat) (ibuf ibuf_sz obuf width height : Z)
         (w : world) : option (outcome nvp_err_t * world) :=
  match fuel with
  | O => None
  | S fuel' =>
      match decode_call ibuf ibuf_sz obuf width height w with
      | (Done (Return e), w') => Some (Done e, w')
      | (Done Resubmit, w') =>
          nvp_cuvid_decode fuel' ibuf ibuf_sz obuf width height w'
      | (Aborted, w') => Some (Aborted, w')
      | (Faulted, w') => Some (Faulted, w')
      end
  end.

(** Lines 500-515.  The decoder can't encode; the arguments are all
    unused. *)
Definition nvp_cuvid_encode (ibuf ibuf_sz obuf obuf_sz width height : Z)
           (format : Z) : M nvp_err_t :=
  ERR "Decoder cannot encode; create an encoder instead." ;;
  assert false ;;
  ret NVPIPE_EINVAL.

(** Lines 517-524. *)
Definition nvp_cuvid_bitrate (br : Z) : M nvp_err_t :=
  ERR "Bitrate is encoded into the stream; you can only change it on the encode side." ;;
  assert false ;;
  ret NVPIPE_EINVAL.

(** Lines 174-198, [nvp_cuvid_destroy], one definition per statement. *)

(** Lines 179-181. *)
Definition destroy_decoder (thw : teardown_hw) (s : teardown) : teardown :=
  if neqb (decoder (td_nvp s)) 0 then
    let (r, s1) := td_call thw (TdDestroyDecoder (decoder (td_nvp s)))
                           td_cuvidDestroyDecoder s in
    if neqb r CUDA_SUCCESS then td_warn "Error destroying decoder" s1 else s1
  else s.

(** Lines 182-184. *)
Definition destroy_parser (thw : teardown_hw) (s : teardown) : teardown :=
  if neqb (parser (td_nvp s)) 0 then
    let (r, s1) := td_call thw (TdDestroyVideoParser (parser (td_nvp s)))
                           td_cuvidDestroyVideoParser s in
    if neqb r CUDA_SUCCESS then td_warn "Error destroying parser." s1 else s1
  else s.

(** Lines 185-187: the buffer is freed whether its pointer is null or not. *)
Definition free_rgb (thw : teardown_hw) (s : teardown) : teardown :=
  let (r, s1) := td_call thw (TdFree (rgb (td_nvp s))) td_cudaFree s in
  if neqb cudaSuccess r
  then td_warn "Error freeing decode temporary buffer." s1
  else s1.

(** Lines 188-191. *)
Definition destroy_reorg (s : teardown) : teardown :=
  if reorg (td_nvp s)
  then td_set (set_reorg false) (td_do TdReorgDestroy s)
  else s.

(** Lines 192-194. *)
Definition destroy_event (thw : teardown_hw) (s : teardown) : teardown :=
  let (r, s1) := td_call thw (TdEventDestroy (ready (td_nvp s)))
                         td_cudaEventDestroy s in
  if neqb cudaSuccess r then td_warn "Error destroying sync event." s1
  else s1.

(** Lines 196-197. *)
Definition free_hbuf (s : teardown) : teardown :=
  td_set (fun n => set_hbuf (hbuf n) 0 n)
         (td_do (TdHostFree (hbuf (td_nvp s))) s).

Definition nvp_cuvid_destroy (thw : teardown_hw) (s : teardown)
  : outcome unit * teardown :=
  if NDEBUG || is_DECODER (impl_type (td_nvp s)) then
    (Done tt,
     free_hbuf
       (destroy_event thw
          (destroy_reorg
             (free_rgb thw (destroy_parser thw (destroy_decoder thw s))))))
  else (Aborted, s).

(** A teardown step: what it does to the object, the calls it adds, and
    nothing but warnings added to the diagnostics. *)
Definition td_step (f : nvp_decoder -> nvp_decoder) (ops : list teardown_op)
           (s s' : teardown) : Prop :=
  td_nvp s' = f (td_nvp s)
  /\ td_log s' = ops ++ td_log s
  /\ exists warnings,
      td_diag s' = warnings ++ td_diag s
      /\ forallb is_warning warnings = true.

(** ** Reasoning support *)

(** [m] relates every world it is run in to the world it leaves, whatever
    its outcome. *)
Definition maintains {A} (R : world -> world -> Prop) (m : M A) : Prop :=
  forall w, R w (snd (m w)).

(** What [m] returns, when it returns, satisfies [P]. *)
Definition yields {A} (m : M A) (P : A -> Prop) : Prop :=
  forall w, match fst (m w) with Done a => P a | _ => True end.

(** A relation between worlds that steps of a computation can be chained
    along, and that emitting a diagnostic respects. *)
Class Frame (R : world -> world -> Prop) : Prop := {
  frame_refl : forall w, R w w;
  frame_trans : forall a b c, R a b -> R b c -> R a c;
  frame_diag : forall m w, R w (with_diag m w)
}.

(** The decoder object is left as it was. *)
Definition same_nvp (w w' : world) : Prop := nvp w' = nvp w.

(** The empty-submission flag is left as it was. *)
Definition same_empty (w w' : world) : Prop :=
  empty (nvp w') = empty (nvp w).

(** The external calls made are all of kind [P]. *)
Definition only_ops (P : hw_op -> bool) (w w' : world) : Prop :=
  exists l, hwlog w' = l ++ hwlog w /\ forallb P l = true.

(** Calls that create or release the decode resource or the conversion
    buffer. *)
Definition is_resource_op (op : hw_op) : bool :=
  is_CreateDecoder op || is_DestroyDecoder op || is_Free op || is_Malloc op.

Definition not_resource_op (op : hw_op) : bool := negb (is_resource_op op).

(** The dimensions agree: what the stream reports is what the decode
    resource was created for, and what the caller asks for is what the
    resource and the conversion buffer were sized for. *)
Definition reconciled (width height : Z) (n : nvp_decoder) : Prop :=
  wi (d n) = wsrc (d n) /\ hi (d n) = hsrc (d n)
  /\ wdst (d n) = width /\ hdst (d n) = height.



(** *** What a whole call keeps *)

(** The type tag, the event and the reorganization object are left as they
    were. *)
Definition keeps_identity (w w' : world) : Prop :=
  impl_type (nvp w') = impl_type (nvp w)
  /\ ready (nvp w') = ready (nvp w)
  /\ reorg (nvp w') = reorg (nvp w).

(** The capacity of the host staging buffer does not shrink. *)
Definition grows_hbuf (w w' : world) : Prop :=
  hbuf_sz (nvp w) <= hbuf_sz (nvp w').

Definition is_CreateVideoParser (op : hw_op) : bool :=
  match op with CreateVideoParser => true | _ => false end.

Definition not_CreateVideoParser (op : hw_op) : bool :=
  negb (is_CreateVideoParser op).

(** An existing parser is kept, and no other one is created. *)
Definition keeps_parser (w w' : world) : Prop :=
  parser (nvp w) <> 0 ->
  parser (nvp w') = parser (nvp w) /\ only_ops not_CreateVideoParser w w'.

(** Once the decoder is initialized: it stays so, the sizes the decode
    resource and the conversion buffer were made for, the resource handle
    and the buffer stay as they are, and no resource call is made. *)
Definition settled (w w' : world) : Prop :=
  initialized (nvp w) = true ->
  initialized (nvp w') = true
  /\ (wi (d (nvp w')), hi (d (nvp w'))) = (wi (d (nvp w)), hi (d (nvp w)))
  /\ (wdst (d (nvp w')), hdst (d (nvp w')))
     = (wdst (d (nvp w)), hdst (d (nvp w)))
  /\ decoder (nvp w') = decoder (nvp w)
  /\ rgb (nvp w') = rgb (nvp w)
  /\ only_ops not_resource_op w w'.

(** The log from the most recent [cudaMalloc] back, with the size asked
    for. *)
Fixpoint since_malloc (l : hw_log) : option (Z * hw_log) :=
  match l with
  | [] => None
  | Malloc n :: _ => Some (n, l)
  | _ :: l' => since_malloc l'
  end.

(** A non-null conversion buffer is the block the most recent [cudaMalloc]
    returned, that call succeeded, and it asked for [wdst*hdst*3] bytes. *)
Definition buffer_sized (w : world) : Prop :=
  rgb (nvp w) <> 0 ->
  exists l,
    since_malloc (hwlog w)
    = Some (to_size_t (to_size_t (wdst (d (nvp w)) * hdst (d (nvp w))) * 3), l)
    /\ cudaMalloc hw l = (cudaSuccess, rgb (nvp w)).

Definition keeps_buffer_sized (w w' : world) : Prop :=
  buffer_sized w -> buffer_sized w'.

(** A destroy or a free of something that exists. *)
Definition guarded_release (op : hw_op) : bool :=
  match op with
  | DestroyDecoder h => neqb h 0
  | Free p => neqb p 0
  | _ => true
  end.

(** The external calls made are added to the log. *)
Definition log_grows (w w' : world) : Prop := only_ops (fun _ => true) w w'.

(** The arguments pass the checks at the head of [nvp_cuvid_decode], and its
    two assertions. *)
Definition valid_request (ibuf ibuf_sz obuf width height : Z) : Prop :=
  ibuf_sz <> 0 /\ width <> 0 /\ height <> 0 /\ Z.odd height = false
  /\ NDEBUG || (neqb ibuf 0 && neqb obuf 0) = true.

Ltac unfold_m :=
  unfold bind, ret, get, modify, emit, ERR, WARN, TRACE, nvtxRangePush,
    nvtxRangePop, when, assert, deref, hw_call in *.

(** *** Integer facts *)

Lemma neqb_false (a b : Z) : neqb a b = false <-> a = b.
Proof.
  unfold neqb. rewrite negb_false_iff. apply Z.eqb_eq.
Qed.

Lemma neqb_true (a b : Z) : neqb a b = true <-> a <> b.
Proof.
  unfold neqb. rewrite negb_true_iff. apply Z.eqb_neq.
Qed.

Lemma land_1_odd (h : Z) : Z.odd h = true -> Z.land h 1 = 1.
Proof.
  intro Hodd. change 1 with (Z.ones 1) at 1.
  rewrite Z.land_ones by lia. change (2 ^ 1) with 2.
  rewrite Zmod_odd, Hodd. reflexivity.
Qed.

Lemma divide_16_mod (a m : Z) : (16 | m) -> (16 | a) -> (16 | a mod m).
Proof.
  intros Hm Ha. destruct (Z.eq_dec m 0) as [->|Hm0].
  - rewrite Z.mod_0_r. exact Ha.
  - rewrite Z.mod_eq by exact Hm0.
    apply Z.divide_sub_r; [exact Ha|]. apply Z.divide_mul_l. exact Hm.
Qed.

Lemma macroblocks_divide (x : Z) : (16 | to_size_t (to_int (x * 16))).
Proof.
  unfold to_size_t, to_int, size_t_modulus.
  apply divide_16_mod; [exists (2 ^ 60); reflexivity|].
  apply Z.divide_sub_r; [|exists (2 ^ 27); reflexivity].
  apply divide_16_mod; [exists (2 ^ 28); reflexivity|].
  apply Z.divide_add_r; [exists x; lia | exists (2 ^ 27); reflexivity].
Qed.

Lemma macroblocks_exact (x : Z) :
  0 <= x < 2 ^ 27 -> to_size_t (to_int (x * 16)) = x * 16.
Proof.
  intro Hx. unfold to_size_t, to_int, size_t_modulus.
  assert (H27 : 2 ^ 27 = 134217728) by reflexivity.
  rewrite H27 in Hx.
  change (2 ^ 31) with 2147483648. change (2 ^ 32) with 4294967296.
  change (2 ^ 64) with 18446744073709551616.
  rewrite (Z.mod_small (x * 16 + 2147483648)) by lia.
  rewrite Z.mod_small by lia. lia.
Qed.

(** ** The entry points that always fail *)

(** C10.  A decode call on an object whose implementation type is not
    DECODER returns invalid-argument at once: the world it leaves is the
    one it found plus the single configuration-error diagnostic, so no
    argument check, parser, staging or hardware work has happened. *)
Theorem decode_rejects_foreign_object
        (fuel : nat) (ibuf ibuf_sz obuf width height : Z) (w : world) :
  impl_type (nvp w) <> DECODER ->
  nvp_cuvid_decode (S fuel) ibuf ibuf_sz obuf width height w
  = Some (Done NVPIPE_EINVAL,
          with_diag (Msg L_ERR "backend implementation configuration error")
                    w).
Proof.
  intro Htype. cbn [nvp_cuvid_decode].
  unfold decode_call, decode_submit. unfold_m.
  destruct (impl_type (nvp w)); [reflexivity | contradiction].
Qed.

(** C4.  A decode call with input length zero, requested width zero,
    requested height zero or an odd requested height returns
    invalid-argument, and neither the log of external calls nor the decoder
    object has changed when it does. *)
Theorem decode_rejects_bad_arguments
        (fuel : nat) (ibuf ibuf_sz obuf width height : Z) (w : world) :
  ibuf_sz = 0 \/ width = 0 \/ height = 0 \/ Z.odd height = true ->
  exists w',
    nvp_cuvid_decode (S fuel) ibuf ibuf_sz obuf width height w
    = Some (Done NVPIPE_EINVAL, w')
    /\ hwlog w' = hwlog w /\ nvp w' = nvp w.
Proof.
  intro Hbad. cbn [nvp_cuvid_decode].
  unfold decode_call, decode_submit. unfold_m.
  destruct (is_DECODER (impl_type (nvp w))); cbn;
    [| eexists; split; [reflexivity | split; reflexivity]].
  destruct (ibuf_sz =? 0) eqn:Hsz; cbn;
    [eexists; split; [reflexivity | split; reflexivity] |].
  assert (Hargs : (width =? 0) || (height =? 0) || (Z.land height 1 =? 1)
                  = true).
  { destruct Hbad as [H | [H | [H | H]]].
    - apply Z.eqb_neq in Hsz. contradiction.
    - subst width. reflexivity.
    - subst height. rewrite orb_true_r. reflexivity.
    - rewrite (land_1_odd _ H). rewrite orb_true_r. reflexivity. }
  rewrite Hargs. cbn.
  eexists; split; [reflexivity | split; reflexivity].
Qed.

(** C9 (as amended).  The encode and bitrate entry points of a decoder,
    with any arguments, emit their diagnostic and then either return
    invalid-argument (assertions compiled out) or stop in [assert(false)]
    (assertions compiled in); either way the decoder object and the log of
    external calls are untouched. *)
Theorem encode_and_bitrate_always_fail
        (ibuf ibuf_sz obuf obuf_sz width height format br : Z) (w : world) :
  nvp_cuvid_encode ibuf ibuf_sz obuf obuf_sz width height format w
  = (if NDEBUG then Done NVPIPE_EINVAL else Aborted,
     with_diag (Msg L_ERR "Decoder cannot encode; create an encoder instead.")
               w)
  /\ nvp_cuvid_bitrate br w
     = (if NDEBUG then Done NVPIPE_EINVAL else Aborted,
        with_diag (Msg L_ERR "Bitrate is encoded into the stream; you can only change it on the encode side.")
                  w).
Proof.
  unfold nvp_cuvid_encode, nvp_cuvid_bitrate. unfold_m.
  destruct NDEBUG; split; reflexivity.
Qed.

(** ** The callbacks *)

(** C8.  In the decode-submission callback, when [cuvidDecodePicture]
    succeeds the callback returns 1 and the stored source dimensions become
    [PicWidthInMbs*16] and [FrameHeightInMbs*16] as C computes them, which
    are multiples of 16 and, for macroblock counts in [0, 2^27), the exact
    products; nothing else in the decoder object changes.  When it fails
    the callback returns 0, warns, and leaves the decoder object as it
    was. *)
Theorem dec_ode_records_source_dims (pic : CUVIDPICPARAMS) (w : world) :
  let status :=
    cuvidDecodePicture hw (DecodePicture (decoder (nvp w)) pic :: hwlog w) in
  let w' := snd (dec_ode pic w) in
  (status = CUDA_SUCCESS ->
   fst (dec_ode pic w) = Done 1
   /\ nvp w'
      = set_source_dims (to_size_t (to_int (PicWidthInMbs pic * 16)))
                        (to_size_t (to_int (FrameHeightInMbs pic * 16)))
                        (nvp w)
   /\ (16 | wsrc (d (nvp w'))) /\ (16 | hsrc (d (nvp w')))
   /\ (0 <= PicWidthInMbs pic < 2 ^ 27 ->
       wsrc (d (nvp w')) = PicWidthInMbs pic * 16)
   /\ (0 <= FrameHeightInMbs pic < 2 ^ 27 ->
       hsrc (d (nvp w')) = FrameHeightInMbs pic * 16))
  /\ (status <> CUDA_SUCCESS ->
      fst (dec_ode pic w) = Done 0
      /\ nvp w' = nvp w
      /\ In (Msg L_WARN "Error %d decoding frame") (diag w')).
Proof.
  cbv zeta. unfold dec_ode. unfold_m. cbn.
  destruct (neqb CUDA_SUCCESS
                 (cuvidDecodePicture hw
                    (DecodePicture (decoder (nvp w)) pic :: hwlog w)))
    eqn:Hst; cbn.
  - apply neqb_true in Hst. split.
    + intro H. symmetry in H. contradiction.
    + intros _. split; [reflexivity|]. split; [reflexivity|].
      left. reflexivity.
  - apply neqb_false in Hst. split.
    + intros _. split; [reflexivity|]. split; [reflexivity|].
      split; [apply macroblocks_divide|].
      split; [apply macroblocks_divide|].
      split; apply macroblocks_exact.
    + intro H. symmetry in Hst. contradiction.
Qed.


(** ** Staging *)

(** C6 (as amended).  Staging asks once whether the input is device
    memory.  A host pointer is returned unchanged and nothing else happens.
    For device input the host buffer is reallocated only when its capacity
    is below the input length, and exactly the input length is copied.  A
    failed growth and a failed copy each emit their own diagnostic and make
    staging return null after that single attempt; the decode call reports
    a null from staging as out-of-memory in both cases. *)
Theorem staging_contract (ibuf ibuf_sz : Z) (w : world) :
  let n := nvp w in
  let l1 := PointerGetAttributes ibuf :: hwlog w in
  let attr := cudaPointerGetAttributes hw l1 in
  let device := (fst attr =? cudaSuccess) && neqb (snd attr) 0 in
  let grows := hbuf_sz n <? ibuf_sz in
  let l2 := if grows then Realloc (hbuf n) ibuf_sz :: l1 else l1 in
  let buf := if grows then realloc hw l2 else hbuf n in
  let n' := if grows then set_hbuf buf ibuf_sz n else n in
  let l3 := Memcpy buf ibuf ibuf_sz :: l2 in
  (device = false ->
   source_data ibuf ibuf_sz w = (Done ibuf, with_hwlog l1 w))
  /\ (device = true -> grows = true -> buf = 0 ->
      source_data ibuf ibuf_sz w
      = (Done 0,
         with_diag (Msg L_ERR "allocation failure of %zu-byte temp host buffer")
                   (with_hwlog l2 w)))
  /\ (device = true -> (grows = true -> buf <> 0) ->
      cudaMemcpy hw l3 <> cudaSuccess ->
      source_data ibuf ibuf_sz w
      = (Done 0,
         with_diag (Msg L_ERR "copy to temp host buffer failed: %d")
                   (with_hwlog l3 (with_nvp n' w))))
  /\ (device = true -> (grows = true -> buf <> 0) ->
      cudaMemcpy hw l3 = cudaSuccess ->
      source_data ibuf ibuf_sz w
      = (Done buf, with_hwlog l3 (with_nvp n' w)))
  /\ (forall (fuel : nat) (obuf width height : Z) (w0 : world),
         impl_type (nvp w0) = DECODER ->
         ibuf_sz <> 0 -> width <> 0 -> height <> 0 -> Z.odd height = false ->
         NDEBUG || (neqb ibuf 0 && neqb obuf 0) = true ->
         lazy_parser w0 = (Done NVPIPE_SUCCESS, w) ->
         fst (source_data ibuf ibuf_sz w) = Done 0 ->
         nvp_cuvid_decode (S fuel) ibuf ibuf_sz obuf width height w0
         = Some (Done NVPIPE_ENOMEM, snd (source_data ibuf ibuf_sz w))).
Proof.
  cbv zeta. repeat split.
  - intro Hdev. unfold source_data, is_device_ptr. unfold_m. cbn.
    rewrite Hdev. reflexivity.
  - intros Hdev Hg Hbuf. rewrite Hg in Hbuf.
    unfold source_data, is_device_ptr. unfold_m. cbn.
    rewrite Hdev. cbn. rewrite Hg. cbn. rewrite Hbuf. reflexivity.
  - intros Hdev Hbuf Hcpy. apply neqb_true in Hcpy.
    unfold source_data, is_device_ptr, stage_copy. unfold_m. cbn.
    rewrite Hdev. cbn.
    destruct (hbuf_sz (nvp w) <? ibuf_sz) eqn:Hg; cbn.
    + specialize (Hbuf eq_refl). apply Z.eqb_neq in Hbuf.
      rewrite Hbuf. cbn. rewrite Z.leb_refl, orb_true_r. cbn.
      rewrite Hcpy. reflexivity.
    + assert (Hle : (ibuf_sz <=? hbuf_sz (nvp w)) = true)
        by (apply Z.leb_le; apply Z.ltb_ge in Hg; exact Hg).
      rewrite Hle, orb_true_r. cbn. rewrite Hcpy.
      destruct w; reflexivity.
  - intros Hdev Hbuf Hcpy.
    assert (Hcpy' : forall l, cudaMemcpy hw l = cudaSuccess ->
                              neqb (cudaMemcpy hw l) cudaSuccess = false)
      by (intros l Hl; apply neqb_false; exact Hl).
    unfold source_data, is_device_ptr, stage_copy. unfold_m. cbn.
    rewrite Hdev. cbn.
    destruct (hbuf_sz (nvp w) <? ibuf_sz) eqn:Hg; cbn.
    + specialize (Hbuf eq_refl). apply Z.eqb_neq in Hbuf.
      rewrite Hbuf. cbn. rewrite Z.leb_refl, orb_true_r. cbn.
      rewrite (Hcpy' _ Hcpy). reflexivity.
    + assert (Hle : (ibuf_sz <=? hbuf_sz (nvp w)) = true)
        by (apply Z.leb_le; apply Z.ltb_ge in Hg; exact Hg).
      rewrite Hle, orb_true_r. cbn. rewrite (Hcpy' _ Hcpy).
      destruct w; reflexivity.
  - intros fuel obuf width height w0 Htype Hsz Hw Hh Hodd Hassert Hparser
           Hnull.
    cbn [nvp_cuvid_decode]. unfold decode_call, decode_submit.
    unfold bind at 1. unfold bind at 1. unfold get at 1.
    rewrite Htype. cbn [is_DECODER negb].
    apply Z.eqb_neq in Hsz, Hw, Hh. rewrite Hsz, Hw, Hh.
    assert (Hl : (Z.land height 1 =? 1) = false).
    { apply Z.eqb_neq. change 1 with (Z.ones 1) at 1.
      rewrite Z.land_ones by lia. change (2 ^ 1) with 2.
      rewrite Zmod_odd, Hodd. discriminate. }
    rewrite Hl. cbn [orb].
    assert (Ha : assert (neqb ibuf 0) w0 = (Done tt, w0)
                 /\ assert (neqb obuf 0) w0 = (Done tt, w0)).
    { unfold assert. destruct NDEBUG; cbn in *; [split; reflexivity|].
      apply andb_true_iff in Hassert. destruct Hassert as [-> ->].
      split; reflexivity. }
    destruct Ha as [Ha1 Ha2].
    unfold bind at 1. rewrite Ha1.
    unfold bind at 1. rewrite Ha2.
    unfold bind at 1. rewrite Hparser. cbn [neqb Z.eqb NVPIPE_SUCCESS negb].
    unfold bind at 1.
    destruct (source_data ibuf ibuf_sz w) as [[srcbuf| |] w1] eqn:Hsrc;
      cbn in Hnull; [|discriminate..].
    injection Hnull as ->. cbn. reflexivity.
Qed.

(** ** Frames *)

Lemma maintains_ret R `{Frame R} {A} (a : A) : maintains R (ret a).
Proof. intro w. apply frame_refl. Qed.

Lemma maintains_get R `{Frame R} : maintains R get.
Proof. intro w. apply frame_refl. Qed.

Lemma maintains_assert R `{Frame R} (c : bool) : maintains R (assert c).
Proof. intro w. unfold assert. destruct (NDEBUG || c); apply frame_refl. Qed.

Lemma maintains_deref R `{Frame R} (live : bool) : maintains R (deref live).
Proof. intro w. unfold deref. destruct live; apply frame_refl. Qed.

Lemma maintains_emit R `{Frame R} (m : message) : maintains R (emit m).
Proof. intro w. apply frame_diag. Qed.

Lemma maintains_bind R `{Frame R} {A B} (m : M A) (f : A -> M B) :
  maintains R m -> (forall a, maintains R (f a)) -> maintains R (bind m f).
Proof.
  intros Hm Hf w. unfold bind. specialize (Hm w).
  destruct (m w) as [[a| |] w1]; cbn in *.
  - eapply frame_trans; [exact Hm | apply Hf].
  - exact Hm.
  - exact Hm.
Qed.

Lemma maintains_when R `{Frame R} (c : bool) (body : M unit) :
  maintains R body -> maintains R (when c body).
Proof.
  intros Hb. unfold when. destruct c; [exact Hb | apply maintains_ret; assumption].
Qed.

#[local] Instance same_nvp_frame : Frame same_nvp.
Proof.
  split; unfold same_nvp.
  - reflexivity.
  - intros a b c Hab Hbc. congruence.
  - reflexivity.
Qed.

#[local] Instance same_empty_frame : Frame same_empty.
Proof.
  split; unfold same_empty.
  - reflexivity.
  - intros a b c Hab Hbc. congruence.
  - reflexivity.
Qed.

#[local] Instance only_ops_frame (P : hw_op -> bool) : Frame (only_ops P).
Proof.
  split; unfold only_ops.
  - intro w. exists []. split; reflexivity.
  - intros a b c [l1 [H1 F1]] [l2 [H2 F2]]. exists (l2 ++ l1). split.
    + rewrite H2, H1. apply app_assoc.
    + rewrite forallb_app, F1, F2. reflexivity.
  - intros m w. exists []. split; reflexivity.
Qed.

(** Decompose a goal [maintains R m] along the structure of [m]; [prim]
    closes the primitive steps that depend on [R]. *)
Ltac frame_with prim :=
  unfold ERR, WARN, TRACE, nvtxRangePush, nvtxRangePop;
  repeat first
    [ apply maintains_ret; solve [typeclasses eauto]
    | apply maintains_get; solve [typeclasses eauto]
    | apply maintains_assert; solve [typeclasses eauto]
    | apply maintains_deref; solve [typeclasses eauto]
    | apply maintains_emit; solve [typeclasses eauto]
    | apply maintains_when; [typeclasses eauto |]
    | apply maintains_bind; [typeclasses eauto | | intro]
    | match goal with
      | |- maintains _ (if ?c then _ else _) => destruct c
      | |- maintains _ (match ?c with _ => _ end) => destruct c
      end
    | progress cbv zeta
    | prim ].

Ltac same_prim := solve [intro; reflexivity].

Ltac ops_prim :=
  solve [ intro; exists []; split; reflexivity
        | intro; eexists [_]; split; reflexivity ].

Lemma is_device_ptr_same_nvp (p : Z) : maintains same_nvp (is_device_ptr p).
Proof. unfold is_device_ptr. frame_with same_prim. Qed.

Lemma reorganize_sync_same_nvp : maintains same_nvp reorganize_sync.
Proof. unfold reorganize_sync. frame_with same_prim. Qed.

Lemma reorganize_same_nvp (nv12 width height obuf pitch : Z) :
  maintains same_nvp (reorganize nv12 width height obuf pitch).
Proof.
  unfold reorganize.
  frame_with ltac:(first [ apply is_device_ptr_same_nvp
                         | apply reorganize_sync_same_nvp
                         | same_prim ]).
Qed.

Lemma decode_deliver_same_nvp (obuf width height : Z) :
  maintains same_nvp (decode_deliver obuf width height).
Proof.
  unfold decode_deliver.
  frame_with ltac:(first [ apply reorganize_same_nvp | same_prim ]).
Qed.

Lemma is_device_ptr_ops (p : Z) :
  maintains (only_ops not_resource_op) (is_device_ptr p).
Proof. unfold is_device_ptr. frame_with ops_prim. Qed.

Lemma reorganize_sync_ops :
  maintains (only_ops not_resource_op) reorganize_sync.
Proof. unfold reorganize_sync. frame_with ops_prim. Qed.

Lemma reorganize_ops (nv12 width height obuf pitch : Z) :
  maintains (only_ops not_resource_op)
            (reorganize nv12 width height obuf pitch).
Proof.
  unfold reorganize.
  frame_with ltac:(first [ apply is_device_ptr_ops
                         | apply reorganize_sync_ops
                         | ops_prim ]).
Qed.

Lemma decode_deliver_ops (obuf width height : Z) :
  maintains (only_ops not_resource_op) (decode_deliver obuf width height).
Proof.
  unfold decode_deliver.
  frame_with ltac:(first [ apply reorganize_ops | ops_prim ]).
Qed.

Lemma allocate_rgb_same_empty (w h : Z) :
  maintains same_empty (allocate_rgb w h).
Proof. unfold allocate_rgb. frame_with same_prim. Qed.

Lemma dec_initialize_same_empty (iw ih dw dh : Z) :
  maintains same_empty (dec_initialize iw ih dw dh).
Proof.
  unfold dec_initialize.
  frame_with ltac:(first [ apply allocate_rgb_same_empty | same_prim ]).
Qed.

Lemma dec_sequence_same_empty (fmt : CUVIDEOFORMAT) :
  maintains same_empty (dec_sequence fmt).
Proof.
  unfold dec_sequence.
  frame_with ltac:(first [ apply dec_initialize_same_empty | same_prim ]).
Qed.

Lemma dec_ode_same_empty (pic : CUVIDPICPARAMS) :
  maintains same_empty (dec_ode pic).
Proof. unfold dec_ode. frame_with same_prim. Qed.

Lemma dec_display_same_empty (dinfo : CUVIDPARSERDISPINFO) :
  maintains same_empty (dec_display dinfo).
Proof. unfold dec_display. frame_with same_prim. Qed.

Lemma run_callbacks_same_empty (s : parse_script) :
  maintains same_empty (run_callbacks s).
Proof.
  induction s as [r | fmt k IH | pic k IH | dinfo k IH]; cbn [run_callbacks].
  - apply maintains_ret. typeclasses eauto.
  - apply maintains_bind; [typeclasses eauto | | intro; apply IH].
    apply dec_sequence_same_empty.
  - apply maintains_bind; [typeclasses eauto | | intro; apply IH].
    apply dec_ode_same_empty.
  - apply maintains_bind; [typeclasses eauto | | intro; apply IH].
    apply dec_display_same_empty.
Qed.

Lemma source_data_same_empty (ibuf ibuf_sz : Z) :
  maintains same_empty (source_data ibuf ibuf_sz).
Proof.
  unfold source_data, stage_copy, is_device_ptr. frame_with same_prim.
Qed.

Lemma lazy_parser_same_empty : maintains same_empty lazy_parser.
Proof. unfold lazy_parser, initialize_parser. frame_with same_prim. Qed.

Lemma decode_submit_same_empty (ibuf ibuf_sz obuf width height : Z) :
  maintains same_empty (decode_submit ibuf ibuf_sz obuf width height).
Proof.
  unfold decode_submit.
  frame_with ltac:(first [ apply lazy_parser_same_empty
                         | apply source_data_same_empty
                         | apply run_callbacks_same_empty
                         | same_prim ]).
Qed.

(** ** Returned values *)

Lemma yields_ret {A} (a : A) (P : A -> Prop) : P a -> yields (ret a) P.
Proof. intros Ha w. exact Ha. Qed.

Lemma yields_bind {A B} (m : M A) (f : A -> M B) (P : B -> Prop) :
  (forall a, yields (f a) P) -> yields (bind m f) P.
Proof.
  intros Hf w. unfold bind. destruct (m w) as [[a| |] w1].
  - apply Hf.
  - exact I.
  - exact I.
Qed.

(** An early return of [decode_submit] is never the success status. *)
Lemma decode_submit_early_is_error (ibuf ibuf_sz obuf width height : Z) :
  NVPIPE_EINVAL <> NVPIPE_SUCCESS ->
  NVPIPE_ENOMEM <> NVPIPE_SUCCESS ->
  NVPIPE_EDECODE <> NVPIPE_SUCCESS ->
  yields (decode_submit ibuf ibuf_sz obuf width height)
         (fun early => forall e, early = Some e -> e <> NVPIPE_SUCCESS).
Proof.
  intros Hinval Hnomem Hdecode. unfold decode_submit.
  apply yields_bind; intro n.
  destruct (negb (is_DECODER (impl_type n))).
  { apply yields_bind; intros _. apply yields_ret. congruence. }
  destruct (ibuf_sz =? 0).
  { apply yields_bind; intros _. apply yields_ret. congruence. }
  destruct ((width =? 0) || (height =? 0) || (Z.land height 1 =? 1)).
  { apply yields_bind; intros _. apply yields_ret. congruence. }
  apply yields_bind; intros _. apply yields_bind; intros _.
  apply yields_bind; intro perr.
  destruct (neqb NVPIPE_SUCCESS perr) eqn:Hperr.
  { apply yields_ret. intros e He. injection He as <-.
    apply neqb_true in Hperr. congruence. }
  apply yields_bind; intro srcbuf.
  destruct (srcbuf =? 0).
  { apply yields_ret. congruence. }
  apply yields_bind; intro n'. apply yields_bind; intros _.
  apply yields_bind; intro s. apply yields_bind; intro parse.
  apply yields_bind; intros _.
  destruct (neqb CUDA_SUCCESS parse).
  - apply yields_bind; intros _. apply yields_ret. congruence.
  - apply yields_ret. discriminate.
Qed.

Lemma decode_reconcile_success (obuf width height : Z) (w w' : world) :
  NVPIPE_EINVAL <> NVPIPE_SUCCESS ->
  decode_reconcile obuf width height w = (Done (Return NVPIPE_SUCCESS), w') ->
  reconciled width height (nvp w').
Proof.
  intros Hinval. unfold decode_reconcile.
  unfold bind at 1. unfold get at 1.
  destruct ((wsrc (d (nvp w)) =? 0) || (hsrc (d (nvp w)) =? 0)).
  { destruct (empty (nvp w)); unfold_m; cbn; intro H; inversion H.
    congruence. }
  unfold bind at 1. unfold modify at 1.
  unfold bind at 1. unfold get at 1.
  set (w1 := with_nvp (set_empty false (nvp w)) w).
  destruct (neqb (wsrc (d (nvp w1))) (wi (d (nvp w1)))) eqn:H1; cbn [orb].
  { unfold bind, ret.
    destruct (resize _ _ _ _ w1) as [[[]| |] w2]; intro H; inversion H. }
  destruct (neqb (hsrc (d (nvp w1))) (hi (d (nvp w1)))) eqn:H2; cbn [orb].
  { unfold bind, ret.
    destruct (resize _ _ _ _ w1) as [[[]| |] w2]; intro H; inversion H. }
  destruct (neqb (wdst (d (nvp w1))) width) eqn:H3; cbn [orb].
  { unfold bind, ret.
    destruct (resize _ _ _ _ w1) as [[[]| |] w2]; intro H; inversion H. }
  destruct (neqb (hdst (d (nvp w1))) height) eqn:H4.
  { unfold bind, ret.
    destruct (resize _ _ _ _ w1) as [[[]| |] w2]; intro H; inversion H. }
  unfold bind, ret.
  pose proof (decode_deliver_same_nvp obuf width height w1) as Hsame.
  destruct (decode_deliver obuf width height w1) as [[e| |] w2];
    intro H; inversion H; subst.
  unfold same_nvp in Hsame. cbn [snd] in Hsame. rewrite Hsame.
  apply neqb_false in H1, H2, H3, H4.
  unfold reconciled. repeat split; congruence.
Qed.

Lemma decode_call_success (ibuf ibuf_sz obuf width height : Z) (w w' : world) :
  NVPIPE_EINVAL <> NVPIPE_SUCCESS ->
  NVPIPE_ENOMEM <> NVPIPE_SUCCESS ->
  NVPIPE_EDECODE <> NVPIPE_SUCCESS ->
  decode_call ibuf ibuf_sz obuf width height w
  = (Done (Return NVPIPE_SUCCESS), w') ->
  reconciled width height (nvp w').
Proof.
  intros Hinval Hnomem Hdecode. unfold decode_call, bind.
  pose proof (decode_submit_early_is_error ibuf ibuf_sz obuf width height
                Hinval Hnomem Hdecode w) as Hearly.
  destruct (decode_submit ibuf ibuf_sz obuf width height w)
    as [[[e|]| |] w1]; cbn [fst] in Hearly.
  - unfold ret. intro H. inversion H. subst.
    exfalso. exact (Hearly _ eq_refl eq_refl).
  - apply decode_reconcile_success. exact Hinval.
  - discriminate.
  - discriminate.
Qed.

(** C1.  Whenever a decode call returns success, the decoder object it
    leaves has [(wi,hi) = (wsrc,hsrc)] and [(wdst,hdst) = (width,height)],
    the size the caller asked for.  (The error members of [nvp_err_t] are
    nonzero, as the function's documentation says.) *)
Theorem decode_success_reconciles
        (fuel : nat) (ibuf ibuf_sz obuf width height : Z) (w w' : world) :
  NVPIPE_EINVAL <> NVPIPE_SUCCESS ->
  NVPIPE_ENOMEM <> NVPIPE_SUCCESS ->
  NVPIPE_EDECODE <> NVPIPE_SUCCESS ->
  nvp_cuvid_decode fuel ibuf ibuf_sz obuf width height w
  = Some (Done NVPIPE_SUCCESS, w') ->
  (wi (d (nvp w')), hi (d (nvp w'))) = (wsrc (d (nvp w')), hsrc (d (nvp w')))
  /\ (wdst (d (nvp w')), hdst (d (nvp w'))) = (width, height).
Proof.
  intros Hinval Hnomem Hdecode. revert w.
  induction fuel as [|fuel IH]; intros w; cbn [nvp_cuvid_decode].
  - discriminate.
  - destruct (decode_call ibuf ibuf_sz obuf width height w)
      as [[[e|]| |] w1] eqn:Hcall.
    + intro H. inversion H. subst.
      destruct (decode_call_success _ _ _ _ _ _ _ Hinval Hnomem Hdecode Hcall)
        as (Ha & Hb & Hc & Hd).
      rewrite Ha, Hb, Hc, Hd. split; reflexivity.
    + apply IH.
    + discriminate.
    + discriminate.
Qed.

(** ** The metadata-only branch *)

Lemma resize_same_empty (width height dstwidth dstheight : Z) :
  maintains same_empty (resize width height dstwidth dstheight).
Proof.
  unfold resize.
  frame_with ltac:(first [ apply dec_initialize_same_empty | same_prim ]).
Qed.

Lemma decode_deliver_same_empty (obuf width height : Z) :
  maintains same_empty (decode_deliver obuf width height).
Proof.
  intro w. unfold same_empty.
  rewrite (decode_deliver_same_nvp obuf width height w). reflexivity.
Qed.

Lemma decode_reconcile_no_picture (obuf width height : Z) (w : world) :
  wsrc (d (nvp w)) = 0 \/ hsrc (d (nvp w)) = 0 ->
  decode_reconcile obuf width height w
  = if empty (nvp w)
    then (Done (Return NVPIPE_EINVAL),
          with_diag (Msg L_ERR "Input is just stream metadata!") w)
    else (Done Resubmit, with_nvp (set_empty true (nvp w)) w).
Proof.
  intro Hzero.
  assert (Hc : (wsrc (d (nvp w)) =? 0) || (hsrc (d (nvp w)) =? 0) = true).
  { destruct Hzero as [-> | ->]; [|rewrite orb_true_r]; reflexivity. }
  unfold decode_reconcile. unfold_m. rewrite Hc.
  destruct (empty (nvp w)); reflexivity.
Qed.

Lemma decode_reconcile_picture_clears (obuf width height : Z) (w : world) :
  wsrc (d (nvp w)) <> 0 -> hsrc (d (nvp w)) <> 0 ->
  empty (nvp (snd (decode_reconcile obuf width height w))) = false.
Proof.
  intros Hw Hh. apply Z.eqb_neq in Hw, Hh.
  unfold decode_reconcile.
  unfold bind at 1. unfold get at 1. rewrite Hw, Hh. cbn [orb].
  unfold bind at 1. unfold modify at 1.
  unfold bind at 1. unfold get at 1.
  set (w1 := with_nvp (set_empty false (nvp w)) w).
  assert (Hrest : forall m : M flow,
             maintains same_empty m -> empty (nvp (snd (m w1))) = false).
  { intros m Hm. rewrite (Hm w1). reflexivity. }
  apply Hrest.
  frame_with ltac:(first [ apply resize_same_empty
                         | apply decode_deliver_same_empty
                         | same_prim ]).
Qed.

(** C2.  Take a decode call whose parse returns successfully into world
    [w1].  If the source dimensions are still zero there, then: with the
    empty-submission flag already set the call returns invalid-argument;
    with the flag clear the activation sets the flag, changes nothing else,
    and resubmits the identical arguments once, and if that second parse
    again leaves the source dimensions zero the call returns
    invalid-argument from the second activation, so this recursion is two
    deep at most.  If the source dimensions are nonzero, the activation
    leaves the flag cleared. *)
Theorem metadata_only_recursion
        (fuel : nat) (ibuf ibuf_sz obuf width height : Z) (w w1 : world) :
  decode_submit ibuf ibuf_sz obuf width height w = (Done None, w1) ->
  (wsrc (d (nvp w1)) = 0 \/ hsrc (d (nvp w1)) = 0 ->
   (empty (nvp w) = true ->
    nvp_cuvid_decode (S fuel) ibuf ibuf_sz obuf width height w
    = Some (Done NVPIPE_EINVAL,
            with_diag (Msg L_ERR "Input is just stream metadata!") w1))
   /\ (empty (nvp w) = false ->
       let w1' := with_nvp (set_empty true (nvp w1)) w1 in
       decode_call ibuf ibuf_sz obuf width height w = (Done Resubmit, w1')
       /\ nvp_cuvid_decode (S fuel) ibuf ibuf_sz obuf width height w
          = nvp_cuvid_decode fuel ibuf ibuf_sz obuf width height w1'
       /\ forall w2,
           decode_submit ibuf ibuf_sz obuf width height w1' = (Done None, w2) ->
           wsrc (d (nvp w2)) = 0 \/ hsrc (d (nvp w2)) = 0 ->
           nvp_cuvid_decode (S (S fuel)) ibuf ibuf_sz obuf width height w
           = Some (Done NVPIPE_EINVAL,
                   with_diag (Msg L_ERR "Input is just stream metadata!") w2)))
  /\ (wsrc (d (nvp w1)) <> 0 -> hsrc (d (nvp w1)) <> 0 ->
      empty (nvp (snd (decode_call ibuf ibuf_sz obuf width height w))) = false).
Proof.
  intro Hsubmit.
  assert (Hcall : decode_call ibuf ibuf_sz obuf width height w
                  = decode_reconcile obuf width height w1).
  { unfold decode_call, bind. rewrite Hsubmit. reflexivity. }
  assert (Hflag : empty (nvp w1) = empty (nvp w)).
  { pose proof (decode_submit_same_empty ibuf ibuf_sz obuf width height w)
      as H. rewrite Hsubmit in H. exact H. }
  split; [intro Hzero; split|].
  - intro Hset. cbn [nvp_cuvid_decode]. rewrite Hcall.
    rewrite (decode_reconcile_no_picture _ _ _ _ Hzero), Hflag, Hset.
    reflexivity.
  - intro Hclear. cbv zeta.
    assert (Hstep : decode_call ibuf ibuf_sz obuf width height w
                    = (Done Resubmit, with_nvp (set_empty true (nvp w1)) w1)).
    { rewrite Hcall, (decode_reconcile_no_picture _ _ _ _ Hzero), Hflag,
        Hclear. reflexivity. }
    split; [exact Hstep | split].
    + cbn [nvp_cuvid_decode]. rewrite Hstep. reflexivity.
    + intros w2 Hsubmit2 Hzero2.
      change (nvp_cuvid_decode (S (S fuel)) ibuf ibuf_sz obuf width height w)
        with (match decode_call ibuf ibuf_sz obuf width height w with
              | (Done (Return e), w') => Some (Done e, w')
              | (Done Resubmit, w') =>
                  nvp_cuvid_decode (S fuel) ibuf ibuf_sz obuf width height w'
              | (Aborted, w') => Some (Aborted, w')
              | (Faulted, w') => Some (Faulted, w')
              end).
      rewrite Hstep. cbn [nvp_cuvid_decode].
      unfold decode_call at 1. unfold bind at 1. rewrite Hsubmit2.
      rewrite (decode_reconcile_no_picture _ _ _ _ Hzero2).
      pose proof (decode_submit_same_empty ibuf ibuf_sz obuf width height
                    (with_nvp (set_empty true (nvp w1)) w1)) as Hkeep.
      rewrite Hsubmit2 in Hkeep. unfold same_empty in Hkeep.
      cbn in Hkeep. rewrite Hkeep. reflexivity.
  - intros Hw Hh. rewrite Hcall.
    apply decode_reconcile_picture_clears; assumption.
Qed.

(** ** Delivery *)

(** [reorganize] returns only on an object that has its reorganization
    object. *)
Lemma reorganize_returns (nv12 width height obuf pitch : Z) (w w' : world)
      (e : nvp_err_t) :
  reorganize nv12 width height obuf pitch w = (Done e, w') ->
  reorg (nvp w) = true.
Proof.
  destruct (reorg (nvp w)) eqn:Hr; [reflexivity|].
  unfold reorganize. unfold bind at 1, get at 1. unfold bind at 1.
  destruct (is_device_ptr obuf w) as [[dev| |] w1]; try discriminate.
  rewrite Hr. cbv zeta. unfold bind at 1, assert at 1.
  destruct NDEBUG; cbn [orb]; [|discriminate].
  unfold bind at 1, deref at 1. discriminate.
Qed.

Lemma decode_deliver_unmaps (obuf width height : Z) (w w3 : world)
      (orgerr : nvp_err_t) :
  let n := nvp w in
  let lm := MapVideoFrame (decoder n) (idx n) :: hwlog w in
  let mrs := cuvidMapVideoFrame hw lm in
  let data := fst (snd mrs) in
  let pitch := snd (snd mrs) in
  let le := EventRecord (ready n) :: lm in
  let lw := StreamWaitEvent (ready n) :: le in
  NDEBUG || neqb (decoder n) 0 = true ->
  fst mrs = CUDA_SUCCESS ->
  cudaEventRecord hw le = cudaSuccess ->
  cudaStreamWaitEvent hw lw = cudaSuccess ->
  reorganize data width height obuf pitch
             (with_diag (NvtxRangePush "reorganize") (with_hwlog lw w))
  = (Done orgerr, w3) ->
  let lu := UnmapVideoFrame (decoder n) data :: hwlog w3 in
  let maperr := cuvidUnmapVideoFrame hw lu in
  decode_deliver obuf width height w
  = (Done orgerr,
     {| nvp := n; hwlog := lu;
        diag := (if neqb CUDA_SUCCESS maperr
                 then [Msg L_WARN "Unmapping frame failed: %d"]
                 else [])
                ++ NvtxRangePop :: diag w3 |}).
Proof.
  intros n lm mrs data pitch le lw Hdec Hmap Hrec Hwait Horg lu maperr.
  pose proof (reorganize_same_nvp data width height obuf pitch
                (with_diag (NvtxRangePush "reorganize") (with_hwlog lw w)))
    as Hsame.
  rewrite Horg in Hsame. unfold same_nvp in Hsame. cbn in Hsame.
  assert (Hreorg : reorg n = true)
    by exact (reorganize_returns _ _ _ _ _ _ _ _ Horg).
  unfold decode_deliver.
  unfold bind at 1. unfold get at 1.
  unfold bind at 1. unfold assert at 1. fold n. rewrite Hdec.
  unfold bind at 1. unfold hw_call at 1. cbv zeta. fold lm. fold mrs.
  rewrite Hmap. cbn [neqb Z.eqb CUDA_SUCCESS negb].
  unfold bind at 1. unfold hw_call at 1. cbv zeta.
  cbn [hwlog with_hwlog]. fold le. rewrite Hrec.
  cbn [neqb Z.eqb cudaSuccess negb].
  unfold bind at 1. unfold deref at 1. rewrite Hreorg.
  unfold bind at 1. unfold hw_call at 1. cbv zeta.
  cbn [hwlog with_hwlog]. fold lw. rewrite Hwait.
  cbn [neqb Z.eqb cudaSuccess negb].
  unfold bind at 1. unfold nvtxRangePush at 1, emit at 1.
  unfold bind at 1.
  change (with_diag (NvtxRangePush "reorganize")
            (with_hwlog lw (with_hwlog le (with_hwlog lm w))))
    with (with_diag (NvtxRangePush "reorganize") (with_hwlog lw w)).
  fold data. fold pitch. rewrite Horg.
  unfold_m. unfold emit, ret.
  cbn [nvp hwlog diag with_diag with_hwlog with_nvp].
  rewrite Hsame. fold n. fold lu. fold maperr.
  destruct (neqb CUDA_SUCCESS maperr);
    unfold with_diag, with_hwlog;
    cbn [nvp hwlog diag app]; rewrite Hsame; reflexivity.
Qed.

(** C7.  Take a decode call whose parse returns successfully with all
    dimensions reconciled, whose [cuvidMapVideoFrame] succeeds, and in which
    the two stream-ordering calls succeed, so that [reorganize] runs and
    returns [orgerr].  Then the call returns exactly [orgerr], be it success
    or an error, and the last external call it made is the
    [cuvidUnmapVideoFrame] of the mapped frame; a failed unmap adds a warning
    and nothing else.  (An activation reached by resubmission is itself a
    call of the function on the same arguments, whose result the outer call
    returns.) *)
Theorem unmap_after_conversion
        (fuel : nat) (ibuf ibuf_sz obuf width height : Z)
        (w0 w1 w3 : world) (orgerr : nvp_err_t) :
  let w := with_nvp (set_empty false (nvp w1)) w1 in
  let n := nvp w in
  let lm := MapVideoFrame (decoder n) (idx n) :: hwlog w in
  let mrs := cuvidMapVideoFrame hw lm in
  let data := fst (snd mrs) in
  let pitch := snd (snd mrs) in
  let le := EventRecord (ready n) :: lm in
  let lw := StreamWaitEvent (ready n) :: le in
  decode_submit ibuf ibuf_sz obuf width height w0 = (Done None, w1) ->
  wsrc (d n) <> 0 -> hsrc (d n) <> 0 ->
  (wi (d n), hi (d n)) = (wsrc (d n), hsrc (d n)) ->
  (wdst (d n), hdst (d n)) = (width, height) ->
  NDEBUG || neqb (decoder n) 0 = true ->
  fst mrs = CUDA_SUCCESS ->
  cudaEventRecord hw le = cudaSuccess ->
  cudaStreamWaitEvent hw lw = cudaSuccess ->
  reorganize data width height obuf pitch
             (with_diag (NvtxRangePush "reorganize") (with_hwlog lw w))
  = (Done orgerr, w3) ->
  let lu := UnmapVideoFrame (decoder n) data :: hwlog w3 in
  let maperr := cuvidUnmapVideoFrame hw lu in
  nvp_cuvid_decode (S fuel) ibuf ibuf_sz obuf width height w0
  = Some (Done orgerr,
          {| nvp := n; hwlog := lu;
             diag := (if neqb CUDA_SUCCESS maperr
                      then [Msg L_WARN "Unmapping frame failed: %d"]
                      else [])
                     ++ NvtxRangePop :: diag w3 |}).
Proof.
  intros w n lm mrs data pitch le lw Hsubmit Hw Hh Hin Hout Hdec Hmap Hrec
         Hwait Horg lu maperr.
  cbn [nvp_cuvid_decode]. unfold decode_call. unfold bind at 1.
  rewrite Hsubmit. unfold decode_reconcile.
  unfold bind at 1. unfold get at 1.
  assert (Hpic : (wsrc (d (nvp w1)) =? 0) || (hsrc (d (nvp w1)) =? 0) = false).
  { apply orb_false_iff. split; apply Z.eqb_neq; assumption. }
  rewrite Hpic.
  unfold bind at 1. unfold modify at 1.
  unfold bind at 1. unfold get at 1. fold w. fold n.
  injection Hin as Hin1 Hin2. injection Hout as Hout1 Hout2.
  assert (Hstable : neqb (wsrc (d n)) (wi (d n))
                    || neqb (hsrc (d n)) (hi (d n))
                    || neqb (wdst (d n)) width
                    || neqb (hdst (d n)) height = false).
  { repeat (apply orb_false_iff; split); apply neqb_false;
      first [assumption | symmetry; assumption]. }
  rewrite Hstable.
  unfold bind at 1.
  rewrite (decode_deliver_unmaps obuf width height w w3 orgerr
             Hdec Hmap Hrec Hwait Horg).
  reflexivity.
Qed.

(** ** Reconciliation *)

Lemma assert_holds (c : bool) (w : world) :
  c = true -> assert c w = (Done tt, w).
Proof. intros ->. unfold assert. rewrite orb_true_r. reflexivity. Qed.

Lemma log_nil (l : hw_log) : l = [] ++ l.
Proof. reflexivity. Qed.

Lemma log_cons (op : hw_op) (l ops rest : hw_log) :
  l = ops ++ rest -> op :: l = (op :: ops) ++ rest.
Proof. intros ->. reflexivity. Qed.

Ltac split_log := repeat first [ apply log_nil | apply log_cons ].

Lemma target_differs (dw dh : Z) (n : nvp_decoder) :
  neqb dw (wdst (d n)) || neqb dh (hdst (d n)) = true ->
  (wdst (d n), hdst (d n)) <> (dw, dh).
Proof.
  intros H Heq. injection Heq as H1 H2.
  apply orb_true_iff in H. destruct H as [H|H]; apply neqb_true in H;
    congruence.
Qed.

(** What [dec_initialize] does in a world whose decoder handle is null, as
    [resize] leaves it. *)
Lemma dec_initialize_shape (iw ih dw dh : Z) (w : world) :
  let n := nvp w in
  let nb_rgb := to_size_t (to_size_t (dw * dh) * 3) in
  0 < iw -> 0 < ih -> 0 < dw -> 0 < dh -> decoder n = 0 ->
  exists buffer_ops ok w',
    dec_initialize iw ih dw dh w = (Done ok, w')
    /\ hwlog w' = buffer_ops ++ CreateDecoder iw ih dw dh :: hwlog w
    /\ (wi (d (nvp w')), hi (d (nvp w'))) = (iw, ih)
    /\ (buffer_ops <> [] -> (wdst (d n), hdst (d n)) <> (dw, dh))
    /\ (forall op, In op buffer_ops ->
                   (op = Free (rgb n) /\ rgb n <> 0) \/ op = Malloc nb_rgb)
    /\ (In (Malloc nb_rgb) buffer_ops -> rgb n <> 0 ->
        buffer_ops = [Malloc nb_rgb; Free (rgb n)])
    /\ (In (Malloc nb_rgb) buffer_ops ->
        (wdst (d (nvp w')), hdst (d (nvp w'))) = (dw, dh)
        \/ rgb (nvp w') = 0).
Proof.
  intros n nb_rgb Hiw Hih Hdw Hdh Hnull.
  unfold dec_initialize.
  unfold bind at 1. rewrite assert_holds
    by (apply andb_true_iff; split; apply Z.ltb_lt; assumption).
  unfold bind at 1. rewrite assert_holds
    by (apply andb_true_iff; split; apply Z.ltb_lt; assumption).
  unfold bind at 1. unfold get at 1.
  unfold bind at 1. rewrite assert_holds
    by (fold n; rewrite Hnull; reflexivity).
  unfold allocate_rgb. unfold_m. unfold emit, ret.
  cbn -[to_size_t Z.mul].
  repeat (match goal with
          | |- context [if ?c then _ else _] => destruct c eqn:?
          end; cbn -[to_size_t Z.mul]).
  all: do 3 eexists; (split; [reflexivity|]); cbn -[to_size_t Z.mul].
  all: (split; [split_log|]).
  all: subst n nb_rgb; split; [reflexivity|].
  all: split;
    [ first [ intros Hne; exfalso; apply Hne; reflexivity
            | intros _; apply target_differs; assumption ] |].
  all: split;
    [ intros op Hin; cbn in Hin;
      repeat (destruct Hin as [<- | Hin]); try contradiction;
      first [ right; reflexivity
            | left; split; [reflexivity | apply neqb_true; assumption] ] |].
  all: split;
    [ intros Hin Hrgb; cbn in Hin;
      repeat (destruct Hin as [Heq | Hin]); try contradiction;
      try discriminate;
      first [ reflexivity
            | exfalso; apply Hrgb; apply neqb_false; assumption ] |].
  all: intros Hin; cbn in Hin;
    repeat (destruct Hin as [Heq | Hin]); try contradiction;
    try discriminate;
    first [ left; reflexivity | right; reflexivity ].
Qed.


Lemma mismatch_bool (width height : Z) (n : nvp_decoder) :
  (wsrc (d n), hsrc (d n)) <> (wi (d n), hi (d n))
  \/ (wdst (d n), hdst (d n)) <> (width, height) ->
  neqb (wsrc (d n)) (wi (d n)) || neqb (hsrc (d n)) (hi (d n))
  || neqb (wdst (d n)) width || neqb (hdst (d n)) height = true.
Proof.
  intro H.
  destruct (neqb (wsrc (d n)) (wi (d n))) eqn:H1; [reflexivity|].
  destruct (neqb (hsrc (d n)) (hi (d n))) eqn:H2; [reflexivity|].
  destruct (neqb (wdst (d n)) width) eqn:H3; [reflexivity|].
  destruct (neqb (hdst (d n)) height) eqn:H4; [reflexivity|].
  apply neqb_false in H1, H2, H3, H4.
  destruct H as [H | H]; exfalso; apply H; congruence.
Qed.

(** * Beyond the claims *)

(** ** What a whole call keeps *)

(** As [frame_with], with the lemmas [lem] about called functions tried
    before a function is looked into. *)
Ltac frame_calls lem prim :=
  unfold ERR, WARN, TRACE, nvtxRangePush, nvtxRangePop;
  repeat first
    [ lem
    | apply maintains_ret; solve [typeclasses eauto]
    | apply maintains_get; solve [typeclasses eauto]
    | apply maintains_assert; solve [typeclasses eauto]
    | apply maintains_deref; solve [typeclasses eauto]
    | apply maintains_emit; solve [typeclasses eauto]
    | apply maintains_when; [typeclasses eauto |]
    | apply maintains_bind; [typeclasses eauto | | intro]
    | match goal with
      | |- maintains _ (if ?c then _ else _) => destruct c
      | |- maintains _ (match ?c with _ => _ end) => destruct c
      end
    | progress cbv zeta
    | prim ].

Lemma run_callbacks_maintains R `{Frame R} :
  (forall fmt, maintains R (dec_sequence fmt)) ->
  (forall pic, maintains R (dec_ode pic)) ->
  (forall dinfo, maintains R (dec_display dinfo)) ->
  forall s, maintains R (run_callbacks s).
Proof.
  intros Hseq Hode Hdisp s.
  induction s as [r | fmt k IH | pic k IH | dinfo k IH]; cbn [run_callbacks].
  - apply maintains_ret. assumption.
  - apply maintains_bind; [assumption | apply Hseq | intro; apply IH].
  - apply maintains_bind; [assumption | apply Hode | intro; apply IH].
  - apply maintains_bind; [assumption | apply Hdisp | intro; apply IH].
Qed.

Lemma decode_call_maintains R `{Frame R}
      (ibuf ibuf_sz obuf width height : Z) :
  maintains R (decode_submit ibuf ibuf_sz obuf width height) ->
  maintains R (decode_reconcile obuf width height) ->
  maintains R (decode_call ibuf ibuf_sz obuf width height).
Proof.
  intros Hsubmit Hreconcile. unfold decode_call.
  apply maintains_bind; [assumption | exact Hsubmit |].
  intros [e|]; [apply maintains_ret; assumption | exact Hreconcile].
Qed.

(** What every activation maintains, the whole call maintains. *)
Lemma decode_whole R `{Frame R} (ibuf ibuf_sz obuf width height : Z) :
  maintains R (decode_call ibuf ibuf_sz obuf width height) ->
  forall fuel w o w',
    nvp_cuvid_decode fuel ibuf ibuf_sz obuf width height w = Some (o, w') ->
    R w w'.
Proof.
  intros Hcall fuel.
  induction fuel as [|fuel IH]; intros w o w'; cbn [nvp_cuvid_decode].
  - discriminate.
  - pose proof (Hcall w) as Hstep.
    destruct (decode_call ibuf ibuf_sz obuf width height w)
      as [[[e|]| |] w1]; cbn [snd] in Hstep.
    + intro Heq. injection Heq as _ <-. exact Hstep.
    + intro Hrest. eapply frame_trans; [exact Hstep | eapply IH; exact Hrest].
    + intro Heq. injection Heq as _ <-. exact Hstep.
    + intro Heq. injection Heq as _ <-. exact Hstep.
Qed.

#[local] Instance keeps_identity_frame : Frame keeps_identity.
Proof.
  split; unfold keeps_identity.
  - intro w. repeat split.
  - intros a b c (H1 & H2 & H3) (H4 & H5 & H6). repeat split; congruence.
  - intros m w. repeat split.
Qed.

Ltac identity_prim := solve [intro; repeat split].

Lemma decode_call_keeps_identity (ibuf ibuf_sz obuf width height : Z) :
  maintains keeps_identity (decode_call ibuf ibuf_sz obuf width height).
Proof.
  assert (Hinit : forall iw ih dw dh,
             maintains keeps_identity (dec_initialize iw ih dw dh)).
  { intros. unfold dec_initialize, allocate_rgb.
    frame_calls fail identity_prim. }
  apply decode_call_maintains; [typeclasses eauto | |].
  - unfold decode_submit, lazy_parser, initialize_parser, source_data,
      stage_copy, is_device_ptr.
    frame_calls
      ltac:(apply run_callbacks_maintains;
            [ typeclasses eauto
            | intro; unfold dec_sequence;
              frame_calls ltac:(apply Hinit) identity_prim
            | intro; unfold dec_ode; frame_calls fail identity_prim
            | intro; unfold dec_display; frame_calls fail identity_prim ])
      identity_prim.
  - unfold decode_reconcile, resize, decode_deliver, reorganize,
      reorganize_sync, is_device_ptr.
    frame_calls ltac:(apply Hinit) identity_prim.
Qed.

(** X1.  Whatever a decode call does and however it ends, the object's type
    tag, its synchronization event and its reorganization object are the
    ones it started with. *)
Theorem decode_keeps_identity
        (fuel : nat) (ibuf ibuf_sz obuf width height : Z)
        (w w' : world) (o : outcome nvp_err_t) :
  nvp_cuvid_decode fuel ibuf ibuf_sz obuf width height w = Some (o, w') ->
  impl_type (nvp w') = impl_type (nvp w)
  /\ ready (nvp w') = ready (nvp w)
  /\ reorg (nvp w') = reorg (nvp w).
Proof.
  intro Hrun.
  exact (decode_whole keeps_identity ibuf ibuf_sz obuf width height
           (decode_call_keeps_identity ibuf ibuf_sz obuf width height)
           fuel w o w' Hrun).
Qed.

#[local] Instance grows_hbuf_frame : Frame grows_hbuf.
Proof.
  split; unfold grows_hbuf.
  - intro w. apply Z.le_refl.
  - intros a b c Hab Hbc. eapply Z.le_trans; eassumption.
  - intros m w. apply Z.le_refl.
Qed.

Ltac hbuf_prim := solve [intro; apply Z.le_refl].

Lemma source_data_grows_hbuf (ibuf ibuf_sz : Z) :
  maintains grows_hbuf (source_data ibuf ibuf_sz).
Proof.
  intro w. unfold grows_hbuf, source_data, is_device_ptr, stage_copy.
  unfold_m. cbn.
  repeat (match goal with
          | |- context [if ?c then _ else _] => destruct c eqn:?
          end; cbn);
    try apply Z.le_refl;
    match goal with
    | H : (_ <? _) = true |- _ => apply Z.ltb_lt in H; lia
    end.
Qed.

Lemma decode_call_grows_hbuf (ibuf ibuf_sz obuf width height : Z) :
  maintains grows_hbuf (decode_call ibuf ibuf_sz obuf width height).
Proof.
  assert (Hinit : forall iw ih dw dh,
             maintains grows_hbuf (dec_initialize iw ih dw dh)).
  { intros. unfold dec_initialize, allocate_rgb.
    frame_calls fail hbuf_prim. }
  apply decode_call_maintains; [typeclasses eauto | |].
  - unfold decode_submit, lazy_parser, initialize_parser.
    frame_calls
      ltac:(first
              [ apply source_data_grows_hbuf
              | apply run_callbacks_maintains;
                [ typeclasses eauto
                | intro; unfold dec_sequence;
                  frame_calls ltac:(apply Hinit) hbuf_prim
                | intro; unfold dec_ode; frame_calls fail hbuf_prim
                | intro; unfold dec_display; frame_calls fail hbuf_prim ] ])
      hbuf_prim.
  - unfold decode_reconcile, resize, decode_deliver, reorganize,
      reorganize_sync, is_device_ptr.
    frame_calls ltac:(apply Hinit) hbuf_prim.
Qed.

(** X2.  The host staging buffer is grow-only: however a decode call ends,
    the recorded capacity [hbuf_sz] is at least what it was before the
    call. *)
Theorem staging_buffer_never_shrinks
        (fuel : nat) (ibuf ibuf_sz obuf width height : Z)
        (w w' : world) (o : outcome nvp_err_t) :
  nvp_cuvid_decode fuel ibuf ibuf_sz obuf width height w = Some (o, w') ->
  hbuf_sz (nvp w) <= hbuf_sz (nvp w').
Proof.
  intro Hrun.
  exact (decode_whole grows_hbuf ibuf ibuf_sz obuf width height
           (decode_call_grows_hbuf ibuf ibuf_sz obuf width height)
           fuel w o w' Hrun).
Qed.

#[local] Instance keeps_parser_frame : Frame keeps_parser.
Proof.
  split; unfold keeps_parser.
  - intros w _. split; [reflexivity | apply frame_refl].
  - intros a b c Hab Hbc Ha. destruct (Hab Ha) as [Hpb Hob].
    destruct Hbc as [Hpc Hoc]; [congruence|].
    split; [congruence | eapply frame_trans; eassumption].
  - intros m w _. split; [reflexivity | apply frame_diag].
Qed.

Ltac parser_prim :=
  solve [ intros ? _; split;
          [ reflexivity
          | first [ exists []; split; reflexivity
                  | eexists [_]; split; reflexivity ] ] ].

Lemma lazy_parser_keeps_parser : maintains keeps_parser lazy_parser.
Proof.
  intros w Hp. apply Z.eqb_neq in Hp.
  unfold lazy_parser. unfold_m. rewrite Hp. cbn.
  split; [reflexivity | apply frame_refl].
Qed.

Lemma decode_call_keeps_parser (ibuf ibuf_sz obuf width height : Z) :
  maintains keeps_parser (decode_call ibuf ibuf_sz obuf width height).
Proof.
  assert (Hinit : forall iw ih dw dh,
             maintains keeps_parser (dec_initialize iw ih dw dh)).
  { intros. unfold dec_initialize, allocate_rgb.
    frame_calls fail parser_prim. }
  apply decode_call_maintains; [typeclasses eauto | |].
  - unfold decode_submit, source_data, stage_copy, is_device_ptr.
    frame_calls
      ltac:(first
              [ apply lazy_parser_keeps_parser
              | apply run_callbacks_maintains;
                [ typeclasses eauto
                | intro; unfold dec_sequence;
                  frame_calls ltac:(apply Hinit) parser_prim
                | intro; unfold dec_ode; frame_calls fail parser_prim
                | intro; unfold dec_display; frame_calls fail parser_prim ] ])
      parser_prim.
  - unfold decode_reconcile, resize, decode_deliver, reorganize,
      reorganize_sync, is_device_ptr.
    frame_calls ltac:(apply Hinit) parser_prim.
Qed.

(** X3.  The parser outlives everything a decode call does: on an object
    that has a parser, the call keeps that handle, resizes included, and
    makes no [cuvidCreateVideoParser] call. *)
Theorem parser_created_once
        (fuel : nat) (ibuf ibuf_sz obuf width height : Z)
        (w w' : world) (o : outcome nvp_err_t) :
  parser (nvp w) <> 0 ->
  nvp_cuvid_decode fuel ibuf ibuf_sz obuf width height w = Some (o, w') ->
  parser (nvp w') = parser (nvp w)
  /\ exists ops,
      hwlog w' = ops ++ hwlog w
      /\ forallb not_CreateVideoParser ops = true.
Proof.
  intros Hparser Hrun.
  exact (decode_whole keeps_parser ibuf ibuf_sz obuf width height
           (decode_call_keeps_parser ibuf ibuf_sz obuf width height)
           fuel w o w' Hrun Hparser).
Qed.

(** The head of [decode_submit] on a decoder object and a valid request. *)
Lemma decode_submit_valid (ibuf ibuf_sz obuf width height : Z) (w : world) :
  impl_type (nvp w) = DECODER ->
  valid_request ibuf ibuf_sz obuf width height ->
  decode_submit ibuf ibuf_sz obuf width height w
  = (perr <- lazy_parser ;;
     if neqb NVPIPE_SUCCESS perr then ret (Some perr)
     else
       srcbuf <- source_data ibuf ibuf_sz ;;
       if srcbuf =? 0 then ret (Some NVPIPE_ENOMEM)
       else
         n <- get ;;
         nvtxRangePush "cuvid parse video data" ;;
         s <- hw_call (ParseVideoData (parser n) srcbuf ibuf_sz)
                      cuvidParseVideoData ;;
         parse <- run_callbacks s ;;
         nvtxRangePop ;;
         if neqb CUDA_SUCCESS parse then
           ERR "parsing video data failed" ;;
           ret (Some NVPIPE_EDECODE)
         else ret None) w.
Proof.
  intros Htype (Hsz & Hw & Hh & Hodd & Hassert).
  unfold decode_submit.
  unfold bind at 1. unfold get at 1.
  rewrite Htype. cbn [is_DECODER negb].
  apply Z.eqb_neq in Hsz, Hw, Hh. rewrite Hsz, Hw, Hh.
  assert (Hl : (Z.land height 1 =? 1) = false).
  { apply Z.eqb_neq. change 1 with (Z.ones 1) at 1.
    rewrite Z.land_ones by lia. change (2 ^ 1) with 2.
    rewrite Zmod_odd, Hodd. discriminate. }
  rewrite Hl. cbn [orb].
  assert (Ha : assert (neqb ibuf 0) w = (Done tt, w)
               /\ assert (neqb obuf 0) w = (Done tt, w)).
  { unfold assert. destruct NDEBUG; cbn in *; [split; reflexivity|].
    apply andb_true_iff in Hassert. destruct Hassert as [-> ->].
    split; reflexivity. }
  destruct Ha as [Ha1 Ha2].
  unfold bind at 1. rewrite Ha1.
  unfold bind at 1. rewrite Ha2.
  reflexivity.
Qed.

(** X4.  The parser is created lazily and a failure is not remembered: on an
    object without a parser, a decode call with a valid request calls
    [cuvidCreateVideoParser] first; if that fails the call returns
    [NVPIPE_EDECODE] having done nothing else but emit a diagnostic, and the
    parser handle is still null, so that the next call tries again. *)
Theorem parser_creation_failure
        (fuel : nat) (ibuf ibuf_sz obuf width height : Z) (w : world) :
  impl_type (nvp w) = DECODER ->
  valid_request ibuf ibuf_sz obuf width height ->
  parser (nvp w) = 0 ->
  NVPIPE_EDECODE <> NVPIPE_SUCCESS ->
  fst (cuvidCreateVideoParser hw (CreateVideoParser :: hwlog w))
  <> CUDA_SUCCESS ->
  nvp_cuvid_decode (S fuel) ibuf ibuf_sz obuf width height w
  = Some (Done NVPIPE_EDECODE,
          with_diag (Msg L_ERR "failed creating video parser.")
                    (with_hwlog (CreateVideoParser :: hwlog w) w)).
Proof.
  intros Htype Hvalid Hnull Hcode Hfail.
  apply neqb_true in Hfail.
  assert (Hcode' : neqb NVPIPE_SUCCESS NVPIPE_EDECODE = true)
    by (apply neqb_true; congruence).
  cbn [nvp_cuvid_decode]. unfold decode_call. unfold bind at 1.
  rewrite (decode_submit_valid _ _ _ _ _ _ Htype Hvalid).
  unfold bind at 1. unfold lazy_parser, initialize_parser. unfold_m.
  rewrite Hnull. cbn [Z.eqb]. cbv zeta. cbn [fst snd hwlog with_hwlog].
  rewrite Hfail. unfold emit, ret. cbv beta iota. rewrite Hcode'.
  reflexivity.
Qed.

(** ** Stepping through a computation *)

Lemma neqb_true_sym (a b : Z) : a <> b -> neqb b a = true.
Proof. intro H. apply neqb_true. congruence. Qed.

Lemma neqb_false_sym (a b : Z) : a = b -> neqb b a = false.
Proof. intro H. apply neqb_false. congruence. Qed.


Lemma bind_ret {A B} (a : A) (k : A -> M B) (w : world) :
  bind (ret a) k w = k a w.
Proof. reflexivity. Qed.

Lemma bind_get {B} (k : nvp_decoder -> M B) (w : world) :
  bind get k w = k (nvp w) w.
Proof. reflexivity. Qed.

Lemma bind_modify {B} (f : nvp_decoder -> nvp_decoder) (k : unit -> M B)
      (w : world) :
  bind (modify f) k w = k tt (with_nvp (f (nvp w)) w).
Proof. reflexivity. Qed.

Lemma bind_emit {B} (m : message) (k : unit -> M B) (w : world) :
  bind (emit m) k w = k tt (with_diag m w).
Proof. reflexivity. Qed.

Lemma bind_hw_call {A B} (op : hw_op) (answer : hardware -> hw_log -> A)
      (k : A -> M B) (w : world) :
  bind (hw_call op answer) k w
  = k (answer hw (op :: hwlog w)) (with_hwlog (op :: hwlog w) w).
Proof. reflexivity. Qed.

Lemma bind_assert {B} (c : bool) (k : unit -> M B) (w : world) :
  NDEBUG || c = true -> bind (assert c) k w = k tt w.
Proof. intro H. unfold bind, assert. rewrite H. reflexivity. Qed.

Lemma bind_deref {B} (k : unit -> M B) (w : world) :
  bind (deref true) k w = k tt w.
Proof. reflexivity. Qed.

Lemma bind_deref_null {B} (k : unit -> M B) (w : world) :
  bind (deref false) k w = (Faulted, w).
Proof. reflexivity. Qed.

Lemma bind_bind {A B C} (m : M A) (f : A -> M B) (g : B -> M C) (w : world) :
  bind (bind m f) g w = bind m (fun a => bind (f a) g) w.
Proof. unfold bind. destruct (m w) as [[a| |] w1]; reflexivity. Qed.

(** Run the steps at the head of a computation applied to a world, deciding
    conditions with the equations in the context. *)
Ltac mstep :=
  unfold ERR, WARN, TRACE, nvtxRangePush, nvtxRangePop, when;
  repeat first
    [ rewrite bind_bind
    | rewrite bind_ret
    | rewrite bind_get
    | rewrite bind_modify
    | rewrite bind_emit
    | rewrite bind_hw_call
    | rewrite bind_assert by assumption
    | rewrite bind_deref
    | rewrite bind_deref_null
    | progress cbn [fst snd nvp hwlog diag with_nvp with_hwlog with_diag
                    negb]
    | match goal with
      | H : ?c = true |- context [if ?c then _ else _] => rewrite H
      | H : ?c = false |- context [if ?c then _ else _] => rewrite H
      | H : ?c = true |- context [deref ?c] => rewrite H
      | H : ?c = false |- context [deref ?c] => rewrite H
      end ].

(** ** Errors on the way *)

(** X5.  A failed parse ends the call at once: when [cuvidParseVideoData]
    returns an error, whatever the callbacks it fired have done (world
    [w3]), the call returns [NVPIPE_EDECODE] from that world, with no
    reconciliation and no frame mapped. *)
Theorem parse_failure
        (fuel : nat) (ibuf ibuf_sz obuf width height : Z)
        (w w1 w2 w3 : world) (srcbuf : Z) (r : CUresult) :
  let lp := ParseVideoData (parser (nvp w2)) srcbuf ibuf_sz :: hwlog w2 in
  impl_type (nvp w) = DECODER ->
  valid_request ibuf ibuf_sz obuf width height ->
  lazy_parser w = (Done NVPIPE_SUCCESS, w1) ->
  source_data ibuf ibuf_sz w1 = (Done srcbuf, w2) ->
  srcbuf <> 0 ->
  run_callbacks (cuvidParseVideoData hw lp)
                (with_hwlog lp
                   (with_diag (NvtxRangePush "cuvid parse video data") w2))
  = (Done r, w3) ->
  r <> CUDA_SUCCESS ->
  nvp_cuvid_decode (S fuel) ibuf ibuf_sz obuf width height w
  = Some (Done NVPIPE_EDECODE,
          with_diag (Msg L_ERR "parsing video data failed")
                    (with_diag NvtxRangePop w3)).
Proof.
  intros lp Htype Hvalid Hparser Hstage Hsrc Hrun Hr.
  apply Z.eqb_neq in Hsrc.
  assert (Hr' : neqb CUDA_SUCCESS r = true)
    by (apply neqb_true; congruence).
  cbn [nvp_cuvid_decode]. unfold decode_call. unfold bind at 1.
  rewrite (decode_submit_valid _ _ _ _ _ _ Htype Hvalid).
  unfold bind at 1. rewrite Hparser.
  cbn [neqb Z.eqb NVPIPE_SUCCESS negb].
  unfold bind at 1. rewrite Hstage. rewrite Hsrc.
  unfold bind at 1. unfold get at 1.
  unfold bind at 1. unfold nvtxRangePush at 1, emit at 1.
  unfold bind at 1. unfold hw_call at 1. cbv zeta.
  cbn [hwlog with_diag nvp].
  unfold bind at 1.
  change (with_hwlog (ParseVideoData (parser (nvp w2)) srcbuf ibuf_sz
                                     :: hwlog w2)
            (with_diag (NvtxRangePush "cuvid parse video data") w2))
    with (with_hwlog lp
            (with_diag (NvtxRangePush "cuvid parse video data") w2)).
  fold lp. rewrite Hrun.
  unfold_m. unfold emit, ret. cbv beta iota. rewrite Hr'. reflexivity.
Qed.

(** X6.  Delivery stops at the first failure, and only a finished
    conversion is followed by an unmap.  A failed map returns its status
    after that single call.  When the map has succeeded and
    [cudaEventRecord] fails, or the object has its reorganization object
    and [cudaStreamWaitEvent] fails, the status of the failing call is
    returned and it is the last external call made: the mapped frame is not
    unmapped.  On an object without a reorganization object the process
    stops reading [nvp->reorg->strm], after the event was recorded and
    before any [cudaStreamWaitEvent] call, with the frame still mapped. *)
Theorem deliver_failures (obuf width height : Z) (w : world) :
  let n := nvp w in
  let lm := MapVideoFrame (decoder n) (idx n) :: hwlog w in
  let mrs := fst (cuvidMapVideoFrame hw lm) in
  let le := EventRecord (ready n) :: lm in
  let evt := cudaEventRecord hw le in
  let lw := StreamWaitEvent (ready n) :: le in
  let evwait := cudaStreamWaitEvent hw lw in
  NDEBUG || neqb (decoder n) 0 = true ->
  (mrs <> CUDA_SUCCESS ->
   decode_deliver obuf width height w
   = (Done mrs,
      with_diag (Msg L_ERR "Failed mapping frame: %d") (with_hwlog lm w)))
  /\ (mrs = CUDA_SUCCESS -> evt <> cudaSuccess ->
      decode_deliver obuf width height w
      = (Done evt,
         with_diag (Msg L_ERR "could not record synchronization event: %d")
                   (with_hwlog le w)))
  /\ (mrs = CUDA_SUCCESS -> evt = cudaSuccess -> reorg n = true ->
      evwait <> cudaSuccess ->
      decode_deliver obuf width height w
      = (Done evwait,
         with_diag (Msg L_ERR "could not synchronize streams via event: %d")
                   (with_hwlog lw w)))
  /\ (mrs = CUDA_SUCCESS -> evt = cudaSuccess -> reorg n = false ->
      decode_deliver obuf width height w = (Faulted, with_hwlog le w)).
Proof.
  intros n lm mrs le evt lw evwait Hdec.
  subst mrs evt evwait lw le lm n.
  split; [|split; [|split]].
  - intro Hmap. apply neqb_true_sym in Hmap.
    unfold decode_deliver. mstep. reflexivity.
  - intros Hmap Hrec.
    apply neqb_false_sym in Hmap. apply neqb_true_sym in Hrec.
    unfold decode_deliver. mstep. reflexivity.
  - intros Hmap Hrec Hreorg Hwait.
    apply neqb_false_sym in Hmap, Hrec. apply neqb_true_sym in Hwait.
    unfold decode_deliver. mstep. reflexivity.
  - intros Hmap Hrec Hreorg.
    apply neqb_false_sym in Hmap, Hrec.
    unfold decode_deliver. mstep. reflexivity.
Qed.

(** X7.  The conversion step, on an object that has its reorganization
    object.  The kernel writes into the caller's buffer when that is device
    memory and into the internal buffer otherwise; when the caller's buffer
    is host memory one copy of [wdst*hdst*3] bytes follows; then the stream
    is synchronized.  The first step that fails gives the status and ends
    the function, and [NVPIPE_SUCCESS] is returned only after a successful
    synchronization.  On an object without a reorganization object nothing
    is converted: after the first pointer query the process stops, in
    [assert(nvp->reorg)] or, with assertions compiled out, reading
    [nvp->reorg->submit]. *)
Theorem reorganize_contract (nv12 width height obuf pitch : Z) (w : world) :
  let n := nvp w in
  let l1 := PointerGetAttributes obuf :: hwlog w in
  let a1 := cudaPointerGetAttributes hw l1 in
  let dst := if (fst a1 =? cudaSuccess) && neqb (snd a1) 0
             then obuf else rgb n in
  let l2 := ReorgSubmit nv12 width height dst pitch :: l1 in
  let sub := reorg_submit hw l2 in
  let l3 := PointerGetAttributes obuf :: l2 in
  let a2 := cudaPointerGetAttributes hw l3 in
  let device := (fst a2 =? cudaSuccess) && neqb (snd a2) 0 in
  let nb_rgb := to_size_t (to_size_t (wdst (d n) * hdst (d n)) * 3) in
  let l4 := if device then l3 else MemcpyAsync obuf dst nb_rgb :: l3 in
  let hcopy := if device then cudaSuccess else cudaMemcpyAsync hw l4 in
  let l5 := ReorgSync :: l4 in
  let synch := reorg_sync hw l5 in
  (reorg n = true ->
   (sub <> cudaSuccess ->
    reorganize nv12 width height obuf pitch w
    = (Done sub,
       with_diag (Msg L_ERR "reorganization kernel failed: %d")
                 (with_hwlog l2 w)))
   /\ (sub = cudaSuccess -> hcopy <> cudaSuccess ->
       reorganize nv12 width height obuf pitch w
       = (Done hcopy,
          with_diag (Msg L_ERR "async DtoH failed: %d") (with_hwlog l4 w)))
   /\ (sub = cudaSuccess -> hcopy = cudaSuccess -> synch <> cudaSuccess ->
       reorganize nv12 width height obuf pitch w
       = (Done synch,
          with_diag (Msg L_ERR "reorganization sync failed: %d")
                    (with_hwlog l5 w)))
   /\ (sub = cudaSuccess -> hcopy = cudaSuccess -> synch = cudaSuccess ->
       reorganize nv12 width height obuf pitch w
       = (Done NVPIPE_SUCCESS, with_hwlog l5 w)))
  /\ (reorg n = false ->
      reorganize nv12 width height obuf pitch w
      = (if NDEBUG then Faulted else Aborted, with_hwlog l1 w)).
Proof.
  intros n l1 a1 dst l2 sub l3 a2 device nb_rgb l4 hcopy l5 synch.
  split; cycle 1.
  { intro Hnull. unfold reorganize.
    unfold bind at 1. unfold get at 1.
    unfold bind at 1. unfold is_device_ptr at 1.
    unfold bind at 1. unfold hw_call at 1. cbv zeta. unfold ret at 1.
    fold l1. cbv beta iota. fold n. rewrite Hnull.
    unfold bind at 1. unfold assert at 1. rewrite orb_false_r.
    destruct NDEBUG; reflexivity. }
  intro Hreorg.
  assert (Hsym : forall a : Z, a <> cudaSuccess -> neqb cudaSuccess a = true)
    by (intros a Ha; apply neqb_true; congruence).
  assert (Hstart :
            reorganize nv12 width height obuf pitch w
            = (if neqb cudaSuccess sub
               then ERR "reorganization kernel failed: %d" ;; ret sub
               else
                 dev' <- is_device_ptr obuf ;;
                 if negb dev' then
                   deref true ;;
                   hcopy <- hw_call (MemcpyAsync obuf dst nb_rgb)
                                    cudaMemcpyAsync ;;
                   if neqb cudaSuccess hcopy then
                     ERR "async DtoH failed: %d" ;; ret hcopy
                   else reorganize_sync
                 else reorganize_sync) (with_hwlog l2 w)).
  { unfold reorganize.
    unfold bind at 1. unfold get at 1.
    unfold bind at 1. unfold is_device_ptr at 1.
    unfold bind at 1. unfold hw_call at 1. cbv zeta. unfold ret at 1.
    fold l1. fold a1. cbv beta iota. fold n. fold dst. rewrite Hreorg.
    unfold bind at 1. unfold assert at 1. rewrite orb_true_r.
    rewrite bind_deref.
    unfold bind at 1. unfold hw_call at 1. cbv zeta.
    cbn [hwlog with_hwlog]. fold l2. fold sub. reflexivity. }
  rewrite Hstart. clear Hstart.
  assert (Hsync : forall l,
             reorganize_sync (with_hwlog l w)
             = (if neqb cudaSuccess (reorg_sync hw (ReorgSync :: l))
                then (Done (reorg_sync hw (ReorgSync :: l)),
                      with_diag (Msg L_ERR "reorganization sync failed: %d")
                                (with_hwlog (ReorgSync :: l) w))
                else (Done NVPIPE_SUCCESS, with_hwlog (ReorgSync :: l) w))).
  { intro l. unfold reorganize_sync. rewrite bind_get.
    cbn [nvp with_hwlog]. fold n. rewrite Hreorg, bind_deref.
    unfold_m. unfold emit, ret. cbn.
    destruct (neqb cudaSuccess (reorg_sync hw (ReorgSync :: l)));
      reflexivity. }
  assert (Hcopy :
            sub = cudaSuccess ->
            (if neqb cudaSuccess sub
             then ERR "reorganization kernel failed: %d" ;; ret sub
             else
               dev' <- is_device_ptr obuf ;;
               if negb dev' then
                 deref true ;;
                 hcopy <- hw_call (MemcpyAsync obuf dst nb_rgb)
                                  cudaMemcpyAsync ;;
                 if neqb cudaSuccess hcopy then
                   ERR "async DtoH failed: %d" ;; ret hcopy
                 else reorganize_sync
               else reorganize_sync) (with_hwlog l2 w)
            = if neqb cudaSuccess hcopy
              then (Done hcopy,
                    with_diag (Msg L_ERR "async DtoH failed: %d")
                              (with_hwlog l4 w))
              else reorganize_sync (with_hwlog l4 w)).
  { intro Hsub. rewrite Hsub. cbn [neqb Z.eqb cudaSuccess negb].
    unfold bind at 1. unfold is_device_ptr at 1.
    unfold bind at 1. unfold hw_call at 1. cbv zeta. unfold ret at 1.
    cbn [hwlog with_hwlog]. fold l3. fold a2. cbv beta iota. fold device.
    subst hcopy l4. destruct device; cbn [negb].
    - reflexivity.
    - rewrite bind_deref.
      unfold bind at 1. unfold hw_call at 1. cbv zeta.
      cbn [hwlog with_hwlog].
      destruct (neqb cudaSuccess
                     (cudaMemcpyAsync hw (MemcpyAsync obuf dst nb_rgb :: l3)));
        reflexivity. }
  split; [|split; [|split]].
  - intro Hsub. rewrite (Hsym _ Hsub). reflexivity.
  - intros Hsub Hcp. rewrite (Hcopy Hsub).
    rewrite (Hsym _ Hcp). reflexivity.
  - intros Hsub Hcp Hsy. rewrite (Hcopy Hsub). rewrite Hcp.
    cbn [neqb Z.eqb cudaSuccess negb]. rewrite Hsync. fold l5. fold synch.
    rewrite (Hsym _ Hsy). reflexivity.
  - intros Hsub Hcp Hsy. rewrite (Hcopy Hsub). rewrite Hcp.
    cbn [neqb Z.eqb cudaSuccess negb]. rewrite Hsync. fold l5. fold synch.
    rewrite Hsy. reflexivity.
Qed.

(** ** After initialization *)

#[local] Instance settled_frame : Frame settled.
Proof.
  split; unfold settled.
  - intros w Hi. repeat split; try assumption. apply frame_refl.
  - intros a b c Hab Hbc Ha.
    destruct (Hab Ha) as (Hb & H1 & H2 & H3 & H4 & H5).
    destruct (Hbc Hb) as (Hc & H6 & H7 & H8 & H9 & H10).
    split; [exact Hc|]. split; [congruence|]. split; [congruence|].
    split; [congruence|]. split; [congruence|].
    eapply frame_trans; eassumption.
  - intros m w Hi. repeat split; try assumption. apply frame_diag.
Qed.

Ltac settled_prim :=
  solve [ intros ? Hi; split; [exact Hi|];
          split; [reflexivity|]; split; [reflexivity|];
          split; [reflexivity|]; split; [reflexivity|];
          first [ exists []; split; reflexivity
                | eexists [_]; split; reflexivity ] ].

(** On an initialized decoder the sequence callback only looks and
    reports. *)
Lemma dec_sequence_settled (fmt : CUVIDEOFORMAT) :
  maintains settled (dec_sequence fmt).
Proof.
  intros w Hi.
  assert (Hsame : nvp (snd (dec_sequence fmt w)) = nvp w
                  /\ hwlog (snd (dec_sequence fmt w)) = hwlog w).
  { unfold dec_sequence. unfold_m. unfold emit, ret. cbn.
    repeat (first [ rewrite Hi
                  | match goal with
                    | |- context [if ?c then _ else _] => destruct c
                    end ]; cbn);
      split; reflexivity. }
  destruct Hsame as [Hn Hl]. rewrite Hn.
  repeat split; try assumption.
  exists []. split; [exact Hl | reflexivity].
Qed.

Lemma decode_submit_settled (ibuf ibuf_sz obuf width height : Z) :
  maintains settled (decode_submit ibuf ibuf_sz obuf width height).
Proof.
  unfold decode_submit, lazy_parser, initialize_parser, source_data,
    stage_copy, is_device_ptr.
  frame_calls
    ltac:(apply run_callbacks_maintains;
          [ typeclasses eauto
          | apply dec_sequence_settled
          | intro; unfold dec_ode; frame_calls fail settled_prim
          | intro; unfold dec_display; frame_calls fail settled_prim ])
    settled_prim.
Qed.

(** X8.  Once the decoder is initialized, the first half of a decode call
    (argument checks, lazy parser, staging, and every callback the parse
    fires, sequence callbacks with a new format included) makes no
    [cuvidCreateDecoder], [cuvidDestroyDecoder], [cudaFree] or [cudaMalloc]
    call and leaves the decode resource, the conversion buffer and the
    stored input and target sizes alone, however it ends. *)
Theorem parse_keeps_resources
        (ibuf ibuf_sz obuf width height : Z) (w : world) :
  let w1 := snd (decode_submit ibuf ibuf_sz obuf width height w) in
  initialized (nvp w) = true ->
  initialized (nvp w1) = true
  /\ (wi (d (nvp w1)), hi (d (nvp w1))) = (wi (d (nvp w)), hi (d (nvp w)))
  /\ (wdst (d (nvp w1)), hdst (d (nvp w1)))
     = (wdst (d (nvp w)), hdst (d (nvp w)))
  /\ decoder (nvp w1) = decoder (nvp w)
  /\ rgb (nvp w1) = rgb (nvp w)
  /\ exists ops,
      hwlog w1 = ops ++ hwlog w /\ forallb not_resource_op ops = true.
Proof.
  intros w1 Hi.
  exact (decode_submit_settled ibuf ibuf_sz obuf width height w Hi).
Qed.

Lemma stable_call
        (fuel : nat) (ibuf ibuf_sz obuf width height : Z) (w w1 : world) :
  initialized (nvp w) = true ->
  (wi (d (nvp w)), hi (d (nvp w))) = (wsrc (d (nvp w)), hsrc (d (nvp w))) ->
  (wdst (d (nvp w)), hdst (d (nvp w))) = (width, height) ->
  decode_submit ibuf ibuf_sz obuf width height w = (Done None, w1) ->
  (wsrc (d (nvp w1)), hsrc (d (nvp w1)))
  = (wsrc (d (nvp w)), hsrc (d (nvp w))) ->
  wsrc (d (nvp w)) <> 0 -> hsrc (d (nvp w)) <> 0 ->
  exists o w',
    nvp_cuvid_decode (S fuel) ibuf ibuf_sz obuf width height w = Some (o, w')
    /\ d (nvp w') = d (nvp w)
    /\ decoder (nvp w') = decoder (nvp w)
    /\ rgb (nvp w') = rgb (nvp w)
    /\ exists ops,
        hwlog w' = ops ++ hwlog w /\ forallb not_resource_op ops = true.
Proof.
  intros Hi Hin Hout Hsubmit Hsrc Hws Hhs.
  pose proof (decode_submit_settled ibuf ibuf_sz obuf width height w Hi)
    as Hkeep.
  rewrite Hsubmit in Hkeep. cbn [snd] in Hkeep.
  destruct Hkeep as (_ & Hin1 & Hout1 & Hdec1 & Hrgb1 & Hops1).
  injection Hin as Hin_w Hin_h. injection Hout as Hout_w Hout_h.
  injection Hsrc as Hsrc_w Hsrc_h.
  injection Hin1 as Hin1_w Hin1_h. injection Hout1 as Hout1_w Hout1_h.
  assert (Hd : d (nvp w1) = d (nvp w)).
  { destruct (d (nvp w1)), (d (nvp w)). cbn in *. congruence. }
  set (w2 := with_nvp (set_empty false (nvp w1)) w1).
  assert (Hcall : decode_call ibuf ibuf_sz obuf width height w
                  = (e <- decode_deliver obuf width height ;;
                     ret (Return e)) w2).
  { unfold decode_call. unfold bind at 1. rewrite Hsubmit.
    unfold decode_reconcile.
    assert (E1 : (wsrc (d (nvp w1)) =? 0) || (hsrc (d (nvp w1)) =? 0)
                 = false).
    { apply orb_false_iff. split; apply Z.eqb_neq; congruence. }
    assert (E2 : neqb (wsrc (d (nvp w1))) (wi (d (nvp w1)))
                 || neqb (hsrc (d (nvp w1))) (hi (d (nvp w1)))
                 || neqb (wdst (d (nvp w1))) width
                 || neqb (hdst (d (nvp w1))) height = false).
    { repeat (apply orb_false_iff; split); apply neqb_false; congruence. }
    rewrite bind_get. rewrite E1. rewrite bind_modify. rewrite bind_get.
    cbn [nvp with_nvp set_empty d]. rewrite E2. reflexivity. }
  pose proof (decode_deliver_same_nvp obuf width height w2) as Hsame.
  pose proof (decode_deliver_ops obuf width height w2) as Hops2.
  unfold same_nvp in Hsame.
  cbn [nvp_cuvid_decode]. rewrite Hcall. unfold bind, ret.
  destruct (decode_deliver obuf width height w2) as [[e| |] w3];
    cbn [snd] in Hsame, Hops2;
    do 2 eexists; (split; [reflexivity|]);
    rewrite Hsame; subst w2; cbn [nvp with_nvp set_empty d decoder rgb];
    (split; [exact Hd|]); (split; [exact Hdec1|]); (split; [exact Hrgb1|]);
    exact (frame_trans _ _ _ Hops1 Hops2).
Qed.

(** X9.  A stable call is a single activation.  On an initialized decoder
    whose sizes are reconciled with the request, a call whose parse succeeds
    and reports the source size already stored goes straight to delivery: it
    ends within one activation, makes no create, destroy, free or malloc
    call, and leaves the decode resource, the conversion buffer and all six
    stored sizes as they were. *)
Theorem stable_call_single_activation
        (fuel : nat) (ibuf ibuf_sz obuf width height : Z) (w w1 : world) :
  initialized (nvp w) = true ->
  (wi (d (nvp w)), hi (d (nvp w))) = (wsrc (d (nvp w)), hsrc (d (nvp w))) ->
  (wdst (d (nvp w)), hdst (d (nvp w))) = (width, height) ->
  decode_submit ibuf ibuf_sz obuf width height w = (Done None, w1) ->
  (wsrc (d (nvp w1)), hsrc (d (nvp w1)))
  = (wsrc (d (nvp w)), hsrc (d (nvp w))) ->
  wsrc (d (nvp w)) <> 0 -> hsrc (d (nvp w)) <> 0 ->
  exists o w',
    nvp_cuvid_decode (S fuel) ibuf ibuf_sz obuf width height w = Some (o, w')
    /\ d (nvp w') = d (nvp w)
    /\ decoder (nvp w') = decoder (nvp w)
    /\ rgb (nvp w') = rgb (nvp w)
    /\ exists ops,
        hwlog w' = ops ++ hwlog w /\ forallb not_resource_op ops = true.
Proof.
  apply stable_call.
Qed.

(** ** Initialization and resize *)

Lemma target_same (dw dh : Z) (n : nvp_decoder) :
  neqb dw (wdst (d n)) || neqb dh (hdst (d n)) = false ->
  (wdst (d n), hdst (d n)) = (dw, dh).
Proof.
  intro H. apply orb_false_iff in H. destruct H as [H1 H2].
  apply neqb_false in H1, H2. congruence.
Qed.

Lemma dec_initialize_result (iw ih dw dh : Z) (w w' : world) (ok : bool) :
  let crt := cuvidCreateDecoder hw (CreateDecoder iw ih dw dh :: hwlog w) in
  dec_initialize iw ih dw dh w = (Done ok, w') ->
  (wi (d (nvp w')), hi (d (nvp w'))) = (iw, ih)
  /\ (wsrc (d (nvp w')), hsrc (d (nvp w')))
     = (wsrc (d (nvp w)), hsrc (d (nvp w)))
  /\ (exists ops, hwlog w' = ops ++ CreateDecoder iw ih dw dh :: hwlog w)
  /\ (ok = true ->
      fst crt = CUDA_SUCCESS
      /\ decoder (nvp w') = snd crt
      /\ initialized (nvp w') = true
      /\ (wdst (d (nvp w')), hdst (d (nvp w'))) = (dw, dh))
  /\ (ok = false ->
      initialized (nvp w') = initialized (nvp w)
      /\ (wdst (d (nvp w')), hdst (d (nvp w')))
         = (wdst (d (nvp w)), hdst (d (nvp w)))).
Proof.
  cbv zeta. unfold dec_initialize, allocate_rgb. unfold_m. unfold emit, ret.
  cbn -[to_size_t Z.mul].
  repeat (match goal with
          | |- context [if ?c then _ else _] => destruct c eqn:?
          end; cbn -[to_size_t Z.mul]);
    intro Hrun; inversion Hrun; subst; clear Hrun;
    cbn -[to_size_t Z.mul].
  all: split; [reflexivity|]; split; [reflexivity|].
  all: split; [eexists; split_log|].
  all: split; intro Hok; try discriminate Hok.
  all: repeat split;
    try reflexivity;
    try (apply neqb_false; assumption);
    try (apply target_same; assumption).
Qed.

(** X10.  What [dec_initialize] leaves behind.  Whenever it returns, it has
    called [cuvidCreateDecoder] exactly once, before any buffer call, and
    has already stored the input size in [(wi,hi)], also when it reports
    failure.  If it returns true, the creation succeeded, the handle is the
    one created, the decoder is marked initialized and [(wdst,hdst)] is the
    requested target size.  If it returns false, the initialized mark and
    [(wdst,hdst)] are as before. *)
Theorem dec_initialize_outcome
        (iw ih dw dh : Z) (w w' : world) (ok : bool) :
  let crt := cuvidCreateDecoder hw (CreateDecoder iw ih dw dh :: hwlog w) in
  dec_initialize iw ih dw dh w = (Done ok, w') ->
  (wi (d (nvp w')), hi (d (nvp w'))) = (iw, ih)
  /\ (exists ops,
         hwlog w' = ops ++ CreateDecoder iw ih dw dh :: hwlog w
         /\ forallb (fun op => negb (is_CreateDecoder op)) ops = true)
  /\ (ok = true ->
      fst crt = CUDA_SUCCESS
      /\ decoder (nvp w') = snd crt
      /\ initialized (nvp w') = true
      /\ (wdst (d (nvp w')), hdst (d (nvp w'))) = (dw, dh))
  /\ (ok = false ->
      initialized (nvp w') = initialized (nvp w)
      /\ (wdst (d (nvp w')), hdst (d (nvp w')))
         = (wdst (d (nvp w)), hdst (d (nvp w)))).
Proof.
  cbv zeta. intro Hrun.
  destruct (dec_initialize_result iw ih dw dh w w' ok Hrun)
    as (Hin & _ & _ & Htrue & Hfalse).
  split; [exact Hin|]. split; [|split; assumption].
  revert Hrun. unfold dec_initialize, allocate_rgb. unfold_m.
  unfold emit, ret. cbn -[to_size_t Z.mul].
  repeat (match goal with
          | |- context [if ?c then _ else _] => destruct c eqn:?
          end; cbn -[to_size_t Z.mul]);
    intro Hrun; inversion Hrun; subst; clear Hrun;
    cbn -[to_size_t Z.mul];
    eexists; (split; [split_log | reflexivity]).
Qed.

(** Decide the assertion at the head of the computation the goal's premise
    runs: either it holds, or the run has stopped there. *)
Ltac assert_step :=
  match goal with
  | |- context [bind (assert ?c) _ _] =>
      let E := fresh "Hassert" in
      destruct (NDEBUG || c) eqn:E;
      [ rewrite bind_assert by exact E
      | unfold bind at 1, assert at 1; rewrite E; discriminate ]
  end.

Lemma first_sequence (fmt : CUVIDEOFORMAT) (w w' : world) (r : Z) :
  let dw := to_size_t (to_int (display_area_right fmt
                               - display_area_left fmt)) in
  let dh := to_size_t (to_int (display_area_bottom fmt
                               - display_area_top fmt)) in
  initialized (nvp w) = false ->
  bit_depth_luma_minus8 fmt = 0 ->
  dec_sequence fmt w = (Done r, w') ->
  exists (ok : bool) (w0 : world),
    nvp w0 = nvp w /\ hwlog w0 = hwlog w
    /\ dec_initialize dw dh dw dh w0 = (Done ok, w')
    /\ r = (if ok then 1 else 0).
Proof.
  intros dw dh Hi Hbd. apply neqb_false in Hbd.
  unfold dec_sequence. fold dw. fold dh.
  destruct ((MAX_WIDTH <? to_size_t (display_area_right fmt))
            || (MAX_HEIGHT <? to_size_t (display_area_bottom fmt)));
    destruct (neqb (coded_height fmt) dh);
    mstep; repeat assert_step; mstep; rewrite Hi; cbn [negb];
    match goal with
    | |- bind (dec_initialize _ _ _ _) _ ?w0 = _ -> _ =>
        unfold bind at 1;
        destruct (dec_initialize dw dh dw dh w0) as [[ok| |] w1] eqn:Hinit;
        [| discriminate ..];
        destruct ok; cbn [negb]; unfold ret;
        intro Hrun; injection Hrun as <- <-;
        [exists true, w0 | exists false, w0];
        repeat split; exact Hinit
    end.
Qed.

(** X11.  The first sequence of an 8-bit stream initializes the decoder with
    the display size, right minus left by bottom minus top, as both its
    input and its target size.  The callback returns 1 exactly when that
    initialization succeeded, and then the decoder is initialized with
    [(wi,hi) = (wdst,hdst)] equal to the display size; when it returns 0 the
    decoder is still uninitialized. *)
Theorem first_sequence_initializes
        (fmt : CUVIDEOFORMAT) (w w' : world) (r : Z) :
  let dw := to_size_t (to_int (display_area_right fmt
                               - display_area_left fmt)) in
  let dh := to_size_t (to_int (display_area_bottom fmt
                               - display_area_top fmt)) in
  initialized (nvp w) = false ->
  bit_depth_luma_minus8 fmt = 0 ->
  dec_sequence fmt w = (Done r, w') ->
  (exists ops, hwlog w' = ops ++ CreateDecoder dw dh dw dh :: hwlog w)
  /\ (r = 1 ->
      initialized (nvp w') = true
      /\ (wi (d (nvp w')), hi (d (nvp w'))) = (dw, dh)
      /\ (wdst (d (nvp w')), hdst (d (nvp w'))) = (dw, dh))
  /\ (r <> 1 -> r = 0 /\ initialized (nvp w') = false).
Proof.
  intros dw dh Hi Hbd Hrun.
  destruct (first_sequence fmt w w' r Hi Hbd Hrun)
    as (ok & w0 & Hn & Hl & Hinit & Hr).
  destruct (dec_initialize_result dw dh dw dh w0 w' ok Hinit)
    as (Hin & _ & Hops & Htrue & Hfalse).
  rewrite Hl in Hops. rewrite Hn in Hfalse.
  split; [exact Hops|].
  destruct ok; subst r.
  - split; [|intro H; contradiction H; reflexivity].
    intros _. destruct (Htrue eq_refl) as (_ & _ & Hinit' & Hdst).
    split; [exact Hinit' | split; [exact Hin | exact Hdst]].
  - split; [discriminate|].
    intros _. split; [reflexivity|].
    destruct (Hfalse eq_refl) as [Hinit' _]. rewrite Hinit'. exact Hi.
Qed.

(** On hardware whose resource calls succeed, [dec_initialize] does. *)
Lemma dec_initialize_good (iw ih dw dh : Z) (w w' : world) (ok : bool) :
  (forall l, fst (cuvidCreateDecoder hw l) = CUDA_SUCCESS) ->
  (forall l, cudaFree hw l = cudaSuccess) ->
  (forall l, fst (cudaMalloc hw l) = cudaSuccess) ->
  dec_initialize iw ih dw dh w = (Done ok, w') ->
  ok = true.
Proof.
  intros Hcreate Hfree Hmalloc.
  unfold dec_initialize, allocate_rgb. unfold_m. unfold emit, ret.
  cbn -[to_size_t Z.mul].
  repeat (first [ rewrite Hcreate | rewrite Hfree | rewrite Hmalloc
                | match goal with
                  | |- context [if ?c then _ else _] => destruct c eqn:?
                  end ]; cbn -[to_size_t Z.mul]);
    intro Hrun; inversion Hrun; reflexivity.
Qed.

(** The mismatch branch of [decode_reconcile], on hardware whose resource
    calls succeed. *)
Lemma reconcile_mismatch_good (obuf width height : Z) (w : world) :
  let n := nvp w in
  let destroy := if decoder n =? 0 then [] else [DestroyDecoder (decoder n)] in
  (forall l, fst (cuvidCreateDecoder hw l) = CUDA_SUCCESS) ->
  (forall l, cudaFree hw l = cudaSuccess) ->
  (forall l, fst (cudaMalloc hw l) = cudaSuccess) ->
  0 < wsrc (d n) -> 0 < hsrc (d n) -> 0 < width -> 0 < height ->
  (wsrc (d n), hsrc (d n)) <> (wi (d n), hi (d n))
  \/ (wdst (d n), hdst (d n)) <> (width, height) ->
  exists buffer_ops w',
    decode_reconcile obuf width height w = (Done Resubmit, w')
    /\ hwlog w'
       = buffer_ops
           ++ CreateDecoder (wsrc (d n)) (hsrc (d n)) width height
           :: destroy ++ hwlog w
    /\ forallb (fun op => is_Free op || is_Malloc op) buffer_ops = true
    /\ initialized (nvp w') = true
    /\ (wi (d (nvp w')), hi (d (nvp w'))) = (wsrc (d n), hsrc (d n))
    /\ (wdst (d (nvp w')), hdst (d (nvp w'))) = (width, height)
    /\ (wsrc (d (nvp w')), hsrc (d (nvp w'))) = (wsrc (d n), hsrc (d n)).
Proof.
  intros n destroy Hcreate Hfree Hmalloc Hws Hhs Hwidth Hheight Hmis.
  apply mismatch_bool in Hmis. subst destroy n.
  assert (Hpic : (wsrc (d (nvp w)) =? 0) || (hsrc (d (nvp w)) =? 0) = false).
  { apply orb_false_iff. split; apply Z.eqb_neq; lia. }
  assert (Hdestroy :
            exists w2,
              decode_reconcile obuf width height w
              = (dec_initialize (wsrc (d (nvp w))) (hsrc (d (nvp w)))
                                width height ;;
                 ret Resubmit) w2
              /\ hwlog w2
                 = (if decoder (nvp w) =? 0 then []
                    else [DestroyDecoder (decoder (nvp w))]) ++ hwlog w
              /\ nvp w2 = set_decoder 0 (set_empty false (nvp w))).
  { destruct (decoder (nvp w) =? 0) eqn:Hnull.
    - assert (E : neqb (decoder (nvp w)) 0 = false)
        by (unfold neqb; rewrite Hnull; reflexivity).
      unfold decode_reconcile, resize.
      repeat (mstep; cbn [decoder set_empty d]).
      eexists. split; [reflexivity|]. split; reflexivity.
    - assert (E : neqb (decoder (nvp w)) 0 = true)
        by (unfold neqb; rewrite Hnull; reflexivity).
      destruct (neqb (cuvidDestroyDecoder hw
                        (DestroyDecoder (decoder (nvp w)) :: hwlog w))
                     CUDA_SUCCESS) eqn:Hr;
        unfold decode_reconcile, resize;
        repeat (mstep; cbn [decoder set_empty d]);
        (eexists; split; [reflexivity|]; split; reflexivity). }
  destruct Hdestroy as (w2 & Hrun & Hlog2 & Hnvp2).
  assert (Hnull2 : decoder (nvp w2) = 0) by (rewrite Hnvp2; reflexivity).
  destruct (dec_initialize_shape (wsrc (d (nvp w))) (hsrc (d (nvp w)))
              width height w2 Hws Hhs Hwidth Hheight Hnull2)
    as (ops & ok & w' & Hinit & Hlog & _ & _ & Hops & _).
  pose proof (dec_initialize_good _ _ _ _ _ _ _ Hcreate Hfree Hmalloc Hinit)
    as Hok.
  destruct (dec_initialize_result _ _ _ _ _ _ _ Hinit)
    as (Hin & Hsrc & _ & Htrue & _).
  destruct (Htrue Hok) as (_ & _ & Hinit' & Hdst).
  exists ops, w'. split.
  { rewrite Hrun. unfold bind. rewrite Hinit. reflexivity. }
  split; [rewrite Hlog, Hlog2; reflexivity|].
  split.
  { apply forallb_forall. intros op Hop.
    destruct (Hops op Hop) as [[-> _] | ->]; reflexivity. }
  split; [exact Hinit'|]. split; [exact Hin|]. split; [exact Hdst|].
  rewrite Hsrc, Hnvp2. reflexivity.
Qed.

(** X12.  One call, one resize.  On hardware whose [cuvidCreateDecoder],
    [cudaFree] and [cudaMalloc] calls succeed, take a call whose parse
    returns a picture whose size, or the requested size, does not match the
    stored sizes.  The first activation destroys the old decode resource if
    there is one, creates the new one, and resubmits.  If the parse of the
    resubmission succeeds and reports the same source size, the call ends
    in that second activation: between the first parse and the end there is
    exactly one [cuvidCreateDecoder], and the stored sizes end up
    reconciled with the stream and the request. *)
Theorem resize_then_deliver
        (fuel : nat) (ibuf ibuf_sz obuf width height : Z) (w0 w1 w2 : world) :
  let n := nvp w1 in
  let destroy := if decoder n =? 0 then [] else [DestroyDecoder (decoder n)] in
  let w1' := snd (decode_reconcile obuf width height w1) in
  (forall l, fst (cuvidCreateDecoder hw l) = CUDA_SUCCESS) ->
  (forall l, cudaFree hw l = cudaSuccess) ->
  (forall l, fst (cudaMalloc hw l) = cudaSuccess) ->
  decode_submit ibuf ibuf_sz obuf width height w0 = (Done None, w1) ->
  0 < wsrc (d n) -> 0 < hsrc (d n) -> 0 < width -> 0 < height ->
  (wsrc (d n), hsrc (d n)) <> (wi (d n), hi (d n))
  \/ (wdst (d n), hdst (d n)) <> (width, height) ->
  decode_submit ibuf ibuf_sz obuf width height w1' = (Done None, w2) ->
  (wsrc (d (nvp w2)), hsrc (d (nvp w2))) = (wsrc (d n), hsrc (d n)) ->
  decode_call ibuf ibuf_sz obuf width height w0 = (Done Resubmit, w1')
  /\ exists o w' buffer_ops later_ops,
      nvp_cuvid_decode (S (S fuel)) ibuf ibuf_sz obuf width height w0
      = Some (o, w')
      /\ hwlog w'
         = later_ops ++ buffer_ops
             ++ CreateDecoder (wsrc (d n)) (hsrc (d n)) width height
             :: destroy ++ hwlog w1
      /\ forallb (fun op => is_Free op || is_Malloc op) buffer_ops = true
      /\ forallb not_resource_op later_ops = true
      /\ (wi (d (nvp w')), hi (d (nvp w'))) = (wsrc (d n), hsrc (d n))
      /\ (wsrc (d (nvp w')), hsrc (d (nvp w'))) = (wsrc (d n), hsrc (d n))
      /\ (wdst (d (nvp w')), hdst (d (nvp w'))) = (width, height).
Proof.
  intros n destroy w1' Hcreate Hfree Hmalloc Hsubmit Hws Hhs Hwidth Hheight
         Hmis Hsubmit2 Hsame.
  destruct (reconcile_mismatch_good obuf width height w1 Hcreate Hfree
              Hmalloc Hws Hhs Hwidth Hheight Hmis)
    as (bops & wr & Hrec & Hlog & Hbops & Hinit & Hin & Hout & Hsrc).
  fold n in Hlog, Hin, Hsrc. fold destroy in Hlog.
  assert (Hw1' : w1' = wr) by (subst w1'; rewrite Hrec; reflexivity).
  rewrite Hw1' in *. clear Hw1' w1'.
  assert (Hfirst : decode_call ibuf ibuf_sz obuf width height w0
                   = (Done Resubmit, wr)).
  { unfold decode_call. unfold bind at 1. rewrite Hsubmit. exact Hrec. }
  split; [exact Hfirst|].
  destruct (stable_call fuel ibuf ibuf_sz obuf width height wr w2)
    as (o & w' & Hrun & Hd & _ & _ & lops & Hlog' & Hlops).
  - exact Hinit.
  - rewrite Hin, Hsrc. reflexivity.
  - exact Hout.
  - exact Hsubmit2.
  - rewrite Hsame, Hsrc. reflexivity.
  - injection Hsrc as -> _. lia.
  - injection Hsrc as _ ->. lia.
  - exists o, w', bops, lops.
    split.
    { change (nvp_cuvid_decode (S (S fuel)) ibuf ibuf_sz obuf width height w0)
        with (match decode_call ibuf ibuf_sz obuf width height w0 with
              | (Done (Return e), w') => Some (Done e, w')
              | (Done Resubmit, w') =>
                  nvp_cuvid_decode (S fuel) ibuf ibuf_sz obuf width height w'
              | (Aborted, w') => Some (Aborted, w')
              | (Faulted, w') => Some (Faulted, w')
              end).
      rewrite Hfirst. exact Hrun. }
    split; [rewrite Hlog', Hlog; reflexivity|].
    split; [exact Hbops|]. split; [exact Hlops|].
    rewrite Hd. split; [exact Hin | split; [exact Hsrc | exact Hout]].
Qed.

(** ** When the decode resource cannot be created *)

(** The mismatch branch of [decode_reconcile] up to the call of
    [dec_initialize]. *)
Lemma reconcile_mismatch_head (obuf width height : Z) (w : world) :
  wsrc (d (nvp w)) <> 0 -> hsrc (d (nvp w)) <> 0 ->
  (wsrc (d (nvp w)), hsrc (d (nvp w))) <> (wi (d (nvp w)), hi (d (nvp w)))
  \/ (wdst (d (nvp w)), hdst (d (nvp w))) <> (width, height) ->
  exists w2,
    decode_reconcile obuf width height w
    = (dec_initialize (wsrc (d (nvp w))) (hsrc (d (nvp w))) width height ;;
       ret Resubmit) w2
    /\ hwlog w2
       = (if decoder (nvp w) =? 0 then []
          else [DestroyDecoder (decoder (nvp w))]) ++ hwlog w
    /\ nvp w2 = set_decoder 0 (set_empty false (nvp w)).
Proof.
  intros Hws Hhs Hmis. apply mismatch_bool in Hmis.
  assert (Hpic : (wsrc (d (nvp w)) =? 0) || (hsrc (d (nvp w)) =? 0) = false).
  { apply orb_false_iff. split; apply Z.eqb_neq; assumption. }
  destruct (decoder (nvp w) =? 0) eqn:Hnull.
  - assert (E : neqb (decoder (nvp w)) 0 = false)
      by (unfold neqb; rewrite Hnull; reflexivity).
    unfold decode_reconcile, resize.
    repeat (mstep; cbn [decoder set_empty d]).
    eexists. split; [reflexivity|]. split; reflexivity.
  - assert (E : neqb (decoder (nvp w)) 0 = true)
      by (unfold neqb; rewrite Hnull; reflexivity).
    destruct (neqb (cuvidDestroyDecoder hw
                      (DestroyDecoder (decoder (nvp w)) :: hwlog w))
                   CUDA_SUCCESS) eqn:Hr;
      unfold decode_reconcile, resize;
      repeat (mstep; cbn [decoder set_empty d]);
      (eexists; split; [reflexivity|]; split; reflexivity).
Qed.

(** [dec_initialize] when the creation fails. *)
Lemma dec_initialize_create_fails (iw ih dw dh : Z) (w : world) :
  0 < iw -> 0 < ih -> 0 < dw -> 0 < dh -> decoder (nvp w) = 0 ->
  fst (cuvidCreateDecoder hw (CreateDecoder iw ih dw dh :: hwlog w))
  <> CUDA_SUCCESS ->
  dec_initialize iw ih dw dh w
  = (Done false,
     with_diag (Msg L_ERR "decoder creation failed")
               (with_hwlog (CreateDecoder iw ih dw dh :: hwlog w)
                           (with_nvp (set_input_dims iw ih (nvp w)) w))).
Proof.
  intros Hiw Hih Hdw Hdh Hnull Hfail. apply neqb_true in Hfail.
  assert (A1 : NDEBUG || ((0 <? iw) && (0 <? ih)) = true).
  { rewrite orb_true_iff. right. apply andb_true_iff.
    split; apply Z.ltb_lt; assumption. }
  assert (A2 : NDEBUG || ((0 <? dw) && (0 <? dh)) = true).
  { rewrite orb_true_iff. right. apply andb_true_iff.
    split; apply Z.ltb_lt; assumption. }
  assert (A3 : NDEBUG || (decoder (nvp w) =? 0) = true).
  { rewrite Hnull. apply orb_true_r. }
  unfold dec_initialize. mstep. reflexivity.
Qed.

Lemma reconcile_create_fails (obuf width height : Z) (w : world) :
  let n := nvp w in
  let destroy := if decoder n =? 0 then [] else [DestroyDecoder (decoder n)] in
  let create := CreateDecoder (wsrc (d n)) (hsrc (d n)) width height in
  0 < wsrc (d n) -> 0 < hsrc (d n) -> 0 < width -> 0 < height ->
  (wsrc (d n), hsrc (d n)) <> (wi (d n), hi (d n))
  \/ (wdst (d n), hdst (d n)) <> (width, height) ->
  fst (cuvidCreateDecoder hw (create :: destroy ++ hwlog w)) <> CUDA_SUCCESS ->
  exists w',
    decode_reconcile obuf width height w = (Done Resubmit, w')
    /\ hwlog w' = create :: destroy ++ hwlog w
    /\ nvp w'
       = set_input_dims (wsrc (d n)) (hsrc (d n))
                        (set_decoder 0 (set_empty false n))
    /\ In (Msg L_ERR "decoder creation failed") (diag w').
Proof.
  intros n destroy create Hws Hhs Hwidth Hheight Hmis Hfail.
  subst create destroy n.
  destruct (reconcile_mismatch_head obuf width height w)
    as (w2 & Hrun & Hlog2 & Hnvp2); [lia | lia | exact Hmis |].
  assert (Hnull2 : decoder (nvp w2) = 0) by (rewrite Hnvp2; reflexivity).
  rewrite <- Hlog2 in Hfail.
  rewrite Hrun. unfold bind.
  rewrite (dec_initialize_create_fails _ _ _ _ w2 Hws Hhs Hwidth Hheight
             Hnull2 Hfail).
  eexists. split; [reflexivity|].
  cbn [hwlog nvp diag with_diag with_hwlog with_nvp].
  rewrite Hlog2, Hnvp2.
  split; [reflexivity|]. split; [reflexivity|]. left. reflexivity.
Qed.

(** X13.  A failed creation is swallowed.  Take an activation whose parse
    returned a picture and that finds a mismatch.  If [cuvidCreateDecoder]
    fails, the activation still ends in a resubmission, not in an error
    status: the diagnostic is emitted, the decoder handle is null, the
    conversion buffer and [(wdst,hdst)] are untouched, and [(wi,hi)] has
    already been overwritten with the source size. *)
Theorem failed_creation_is_swallowed (obuf width height : Z) (w : world) :
  let n := nvp w in
  let destroy := if decoder n =? 0 then [] else [DestroyDecoder (decoder n)] in
  let create := CreateDecoder (wsrc (d n)) (hsrc (d n)) width height in
  0 < wsrc (d n) -> 0 < hsrc (d n) -> 0 < width -> 0 < height ->
  (wsrc (d n), hsrc (d n)) <> (wi (d n), hi (d n))
  \/ (wdst (d n), hdst (d n)) <> (width, height) ->
  fst (cuvidCreateDecoder hw (create :: destroy ++ hwlog w)) <> CUDA_SUCCESS ->
  exists w',
    decode_reconcile obuf width height w = (Done Resubmit, w')
    /\ hwlog w' = create :: destroy ++ hwlog w
    /\ nvp w'
       = set_input_dims (wsrc (d n)) (hsrc (d n))
                        (set_decoder 0 (set_empty false n))
    /\ In (Msg L_ERR "decoder creation failed") (diag w').
Proof.
  apply reconcile_create_fails.
Qed.

(** The first half of an activation when the input is host memory and the
    parser fires no callback. *)
Lemma decode_submit_quiet (ibuf ibuf_sz obuf width height : Z) (w : world) :
  (forall l, cuvidParseVideoData hw l = ParseDone CUDA_SUCCESS) ->
  (forall l, snd (cudaPointerGetAttributes hw l) = 0) ->
  impl_type (nvp w) = DECODER ->
  valid_request ibuf ibuf_sz obuf width height ->
  ibuf <> 0 ->
  parser (nvp w) <> 0 ->
  exists w1,
    decode_submit ibuf ibuf_sz obuf width height w = (Done None, w1)
    /\ nvp w1 = nvp w.
Proof.
  intros Hparse Hhost Htype Hvalid Hibuf Hparser.
  apply Z.eqb_neq in Hibuf, Hparser.
  rewrite (decode_submit_valid _ _ _ _ _ _ Htype Hvalid).
  unfold lazy_parser, source_data, is_device_ptr.
  mstep. unfold NVPIPE_SUCCESS. cbn [neqb Z.eqb negb].
  mstep. rewrite Hhost. cbn [neqb Z.eqb negb]. rewrite andb_false_r.
  mstep. rewrite Hparse. cbn [run_callbacks]. mstep.
  cbn [neqb Z.eqb negb CUDA_SUCCESS]. unfold ret.
  eexists. split; reflexivity.
Qed.

(** X14.  Nothing bounds the resubmissions after a failed resize.  Suppose
    every [cuvidCreateDecoder] fails, the input is host memory and the parser
    fires no callback.  Then a valid request whose size differs from the
    stored target size, on a decoder that has a parser and nonzero source
    dimensions, never returns: every activation ends in a resubmission,
    whatever number of activations is allowed. *)
Theorem creation_failure_never_returns
        (ibuf ibuf_sz obuf width height : Z) :
  (forall l, fst (cuvidCreateDecoder hw l) <> CUDA_SUCCESS) ->
  (forall l, cuvidParseVideoData hw l = ParseDone CUDA_SUCCESS) ->
  (forall l, snd (cudaPointerGetAttributes hw l) = 0) ->
  valid_request ibuf ibuf_sz obuf width height ->
  ibuf <> 0 -> 0 < width -> 0 < height ->
  forall (fuel : nat) (w : world),
    impl_type (nvp w) = DECODER ->
    parser (nvp w) <> 0 ->
    0 < wsrc (d (nvp w)) -> 0 < hsrc (d (nvp w)) ->
    (wdst (d (nvp w)), hdst (d (nvp w))) <> (width, height) ->
    nvp_cuvid_decode fuel ibuf ibuf_sz obuf width height w = None.
Proof.
  intros Hcreate Hparse Hhost Hvalid Hibuf Hwidth Hheight fuel.
  induction fuel as [|fuel IH]; intros w Htype Hparser Hws Hhs Hdst;
    cbn [nvp_cuvid_decode]; [reflexivity|].
  destruct (decode_submit_quiet ibuf ibuf_sz obuf width height w
              Hparse Hhost Htype Hvalid Hibuf Hparser)
    as (w1 & Hsubmit & Hnvp1).
  assert (Hmis : (wsrc (d (nvp w1)), hsrc (d (nvp w1)))
                 <> (wi (d (nvp w1)), hi (d (nvp w1)))
                 \/ (wdst (d (nvp w1)), hdst (d (nvp w1)))
                    <> (width, height))
    by (right; rewrite Hnvp1; exact Hdst).
  destruct (reconcile_mismatch_head obuf width height w1)
    as (w2 & Hrun & Hlog2 & Hnvp2);
    [rewrite Hnvp1; lia | rewrite Hnvp1; lia | exact Hmis |].
  assert (Hnull2 : decoder (nvp w2) = 0) by (rewrite Hnvp2; reflexivity).
  assert (Hcall : decode_call ibuf ibuf_sz obuf width height w
                  = (Done Resubmit,
                     with_diag (Msg L_ERR "decoder creation failed")
                       (with_hwlog
                          (CreateDecoder (wsrc (d (nvp w1)))
                                         (hsrc (d (nvp w1))) width height
                                         :: hwlog w2)
                          (with_nvp
                             (set_input_dims (wsrc (d (nvp w1)))
                                             (hsrc (d (nvp w1))) (nvp w2))
                             w2)))).
  { unfold decode_call. unfold bind at 1. rewrite Hsubmit, Hrun.
    unfold bind.
    rewrite (dec_initialize_create_fails _ _ _ _ w2);
      [reflexivity | rewrite Hnvp1; exact Hws | rewrite Hnvp1; exact Hhs
       | exact Hwidth | exact Hheight | exact Hnull2 | apply Hcreate]. }
  rewrite Hcall. apply IH; cbn [nvp with_diag with_hwlog with_nvp];
    rewrite Hnvp2, Hnvp1; cbn; assumption.
Qed.

(** An activation whose parse leaves all sizes matching goes to delivery. *)
Lemma decode_call_delivers
      (ibuf ibuf_sz obuf width height : Z) (w w1 : world) :
  decode_submit ibuf ibuf_sz obuf width height w = (Done None, w1) ->
  wsrc (d (nvp w1)) <> 0 -> hsrc (d (nvp w1)) <> 0 ->
  (wi (d (nvp w1)), hi (d (nvp w1)))
  = (wsrc (d (nvp w1)), hsrc (d (nvp w1))) ->
  (wdst (d (nvp w1)), hdst (d (nvp w1))) = (width, height) ->
  decode_call ibuf ibuf_sz obuf width height w
  = (e <- decode_deliver obuf width height ;; ret (Return e))
      (with_nvp (set_empty false (nvp w1)) w1).
Proof.
  intros Hsubmit Hws Hhs Hin Hout.
  injection Hin as Hin_w Hin_h. injection Hout as Hout_w Hout_h.
  unfold decode_call. unfold bind at 1. rewrite Hsubmit.
  unfold decode_reconcile.
  assert (E1 : (wsrc (d (nvp w1)) =? 0) || (hsrc (d (nvp w1)) =? 0) = false).
  { apply orb_false_iff. split; apply Z.eqb_neq; assumption. }
  assert (E2 : neqb (wsrc (d (nvp w1))) (wi (d (nvp w1)))
               || neqb (hsrc (d (nvp w1))) (hi (d (nvp w1)))
               || neqb (wdst (d (nvp w1))) width
               || neqb (hdst (d (nvp w1))) height = false).
  { repeat (apply orb_false_iff; split); apply neqb_false; congruence. }
  rewrite bind_get. rewrite E1. rewrite bind_modify. rewrite bind_get.
  cbn [nvp with_nvp set_empty d]. rewrite E2. reflexivity.
Qed.

Lemma decode_deliver_null (obuf width height : Z) (w : world) :
  decoder (nvp w) = 0 ->
  (NDEBUG = false -> decode_deliver obuf width height w = (Aborted, w))
  /\ (NDEBUG = true ->
      exists ops,
        hwlog (snd (decode_deliver obuf width height w))
        = ops ++ MapVideoFrame 0 (idx (nvp w)) :: hwlog w).
Proof.
  intro Hnull. split; intro Hnd.
  - unfold decode_deliver. rewrite bind_get.
    unfold bind, assert. rewrite Hnd, Hnull. reflexivity.
  - assert (A : NDEBUG || neqb (decoder (nvp w)) 0 = true)
      by (rewrite Hnd; reflexivity).
    assert (Hrest : forall (m : M nvp_err_t) (l : hw_log),
               maintains log_grows m ->
               exists ops, hwlog (snd (m (with_hwlog l w))) = ops ++ l).
    { intros m l Hm. destruct (Hm (with_hwlog l w)) as (ops & Hlog & _).
      exists ops. exact Hlog. }
    unfold decode_deliver. rewrite bind_get, bind_assert by exact A.
    rewrite bind_hw_call. rewrite Hnull. apply Hrest.
    unfold log_grows, reorganize, reorganize_sync, is_device_ptr.
    frame_calls fail ops_prim.
Qed.

(** X15.  A failed creation can make the sizes look reconciled.  On an
    initialized decoder, take a call whose parse reports a source size
    different from [(wi,hi)] while the requested size is the stored target
    size, and let [cuvidCreateDecoder] fail.  [(wi,hi)] has been overwritten
    all the same, so if the parse of the resubmission succeeds and reports
    the same source size, the second activation finds nothing to reconcile
    and goes to delivery with a null decoder handle: with assertions
    compiled in the process stops in [assert(nvp->decoder)], and with
    assertions compiled out [cuvidMapVideoFrame] is called on the null
    handle. *)
Theorem delivery_without_decoder
        (fuel : nat) (ibuf ibuf_sz obuf width height : Z) (w0 w1 w2 : world) :
  let n := nvp w1 in
  let destroy := if decoder n =? 0 then [] else [DestroyDecoder (decoder n)] in
  let create := CreateDecoder (wsrc (d n)) (hsrc (d n)) width height in
  let w1' := snd (decode_reconcile obuf width height w1) in
  let w2' := with_nvp (set_empty false (nvp w2)) w2 in
  initialized n = true ->
  decode_submit ibuf ibuf_sz obuf width height w0 = (Done None, w1) ->
  0 < wsrc (d n) -> 0 < hsrc (d n) -> 0 < width -> 0 < height ->
  (wsrc (d n), hsrc (d n)) <> (wi (d n), hi (d n)) ->
  (wdst (d n), hdst (d n)) = (width, height) ->
  fst (cuvidCreateDecoder hw (create :: destroy ++ hwlog w1)) <> CUDA_SUCCESS ->
  decode_submit ibuf ibuf_sz obuf width height w1' = (Done None, w2) ->
  (wsrc (d (nvp w2)), hsrc (d (nvp w2))) = (wsrc (d n), hsrc (d n)) ->
  decoder (nvp w2) = 0
  /\ (NDEBUG = false ->
      nvp_cuvid_decode (S (S fuel)) ibuf ibuf_sz obuf width height w0
      = Some (Aborted, w2'))
  /\ (NDEBUG = true ->
      exists o w' ops,
        nvp_cuvid_decode (S (S fuel)) ibuf ibuf_sz obuf width height w0
        = Some (o, w')
        /\ hwlog w' = ops ++ MapVideoFrame 0 (idx (nvp w2)) :: hwlog w2).
Proof.
  intros n destroy create w1' w2' Hinit Hsubmit Hws Hhs Hwidth Hheight
         Hin Hout Hfail Hsubmit2 Hsame.
  destruct (reconcile_create_fails obuf width height w1
              Hws Hhs Hwidth Hheight (or_introl Hin) Hfail)
    as (wr & Hrec & _ & Hnvp & _).
  fold n in Hnvp.
  assert (Hw1' : w1' = wr) by (subst w1'; rewrite Hrec; reflexivity).
  rewrite Hw1' in *. clear Hw1' w1'.
  assert (Hfirst : decode_call ibuf ibuf_sz obuf width height w0
                   = (Done Resubmit, wr)).
  { unfold decode_call. unfold bind at 1. rewrite Hsubmit. exact Hrec. }
  assert (Hinit_r : initialized (nvp wr) = true)
    by (rewrite Hnvp; exact Hinit).
  pose proof (decode_submit_settled ibuf ibuf_sz obuf width height wr Hinit_r)
    as Hkeep.
  rewrite Hsubmit2 in Hkeep. cbn [snd] in Hkeep.
  destruct Hkeep as (_ & Hin2 & Hout2 & Hdec2 & _).
  rewrite Hnvp in Hin2, Hout2, Hdec2.
  cbn [set_input_dims set_decoder set_empty set_d d wi hi wdst hdst decoder]
    in Hin2, Hout2, Hdec2.
  assert (Hsecond : decode_call ibuf ibuf_sz obuf width height wr
                    = (e <- decode_deliver obuf width height ;;
                       ret (Return e)) w2').
  { apply decode_call_delivers.
    - exact Hsubmit2.
    - injection Hsame as -> _. lia.
    - injection Hsame as _ ->. lia.
    - rewrite Hin2, Hsame. reflexivity.
    - rewrite Hout2. exact Hout. }
  assert (Hunroll :
            nvp_cuvid_decode (S (S fuel)) ibuf ibuf_sz obuf width height w0
            = match (e <- decode_deliver obuf width height ;;
                     ret (Return e)) w2' with
              | (Done (Return e), w') => Some (Done e, w')
              | (Done Resubmit, w') =>
                  nvp_cuvid_decode fuel ibuf ibuf_sz obuf width height w'
              | (Aborted, w') => Some (Aborted, w')
              | (Faulted, w') => Some (Faulted, w')
              end).
  { change (nvp_cuvid_decode (S (S fuel)) ibuf ibuf_sz obuf width height w0)
      with (match decode_call ibuf ibuf_sz obuf width height w0 with
            | (Done (Return e), w') => Some (Done e, w')
            | (Done Resubmit, w') =>
                nvp_cuvid_decode (S fuel) ibuf ibuf_sz obuf width height w'
            | (Aborted, w') => Some (Aborted, w')
            | (Faulted, w') => Some (Faulted, w')
            end).
    rewrite Hfirst. cbn [nvp_cuvid_decode]. rewrite Hsecond. reflexivity. }
  assert (Hnull : decoder (nvp w2') = 0) by exact Hdec2.
  destruct (decode_deliver_null obuf width height w2' Hnull)
    as [Habort Hmap].
  split; [exact Hdec2|]. split; intro Hnd.
  - rewrite Hunroll. unfold bind. rewrite (Habort Hnd). reflexivity.
  - destruct (Hmap Hnd) as (ops & Hlog).
    rewrite Hunroll. unfold bind, ret.
    destruct (decode_deliver obuf width height w2') as [[e| |] w3];
      cbn [snd] in Hlog; do 3 eexists; (split; [reflexivity | exact Hlog]).
Qed.

(** ** The conversion buffer *)

#[local] Instance keeps_buffer_sized_frame : Frame keeps_buffer_sized.
Proof.
  split; unfold keeps_buffer_sized.
  - intros w H. exact H.
  - intros a b c Hab Hbc Ha. exact (Hbc (Hab Ha)).
  - intros m w H. exact H.
Qed.

Ltac sized_prim := solve [intros ? H; exact H].

Lemma dec_initialize_keeps_buffer_sized (iw ih dw dh : Z) :
  maintains keeps_buffer_sized (dec_initialize iw ih dw dh).
Proof.
  intros w Hw. unfold buffer_sized in *.
  unfold dec_initialize, allocate_rgb. unfold_m. unfold emit, ret.
  cbn -[to_size_t Z.mul].
  repeat (match goal with
          | |- context [if ?c then _ else _] => destruct c eqn:?
          end; cbn -[to_size_t Z.mul]);
    try exact Hw;
    try (intro Hnz; exfalso; apply Hnz; reflexivity);
    intros _; eexists; (split; [reflexivity|]);
    match goal with
    | H : neqb cudaSuccess (fst ?m) = false |- ?m = _ =>
        apply neqb_false in H; destruct m as [st p]; cbn [fst snd] in *;
        rewrite <- H; reflexivity
    end.
Qed.

Lemma decode_call_keeps_buffer_sized (ibuf ibuf_sz obuf width height : Z) :
  maintains keeps_buffer_sized (decode_call ibuf ibuf_sz obuf width height).
Proof.
  apply decode_call_maintains; [typeclasses eauto | |].
  - unfold decode_submit, lazy_parser, initialize_parser, source_data,
      stage_copy, is_device_ptr.
    frame_calls
      ltac:(apply run_callbacks_maintains;
            [ typeclasses eauto
            | intro; unfold dec_sequence;
              frame_calls ltac:(apply dec_initialize_keeps_buffer_sized)
                          sized_prim
            | intro; unfold dec_ode; frame_calls fail sized_prim
            | intro; unfold dec_display; frame_calls fail sized_prim ])
      sized_prim.
  - unfold decode_reconcile, resize, decode_deliver, reorganize,
      reorganize_sync, is_device_ptr.
    frame_calls ltac:(apply dec_initialize_keeps_buffer_sized) sized_prim.
Qed.

(** X16.  The conversion buffer matches the stored target size.  Call the
    buffer well sized when, if its pointer is non-null, the most recent
    [cudaMalloc] in the log succeeded, returned that pointer, and asked for
    exactly [wdst*hdst*3] bytes.  A decoder whose buffer is well sized, a
    fresh one for instance, has a well sized buffer after any decode call,
    however the call ends. *)
Theorem conversion_buffer_stays_sized
        (fuel : nat) (ibuf ibuf_sz obuf width height : Z)
        (w w' : world) (o : outcome nvp_err_t) :
  buffer_sized w ->
  nvp_cuvid_decode fuel ibuf ibuf_sz obuf width height w = Some (o, w') ->
  buffer_sized w'.
Proof.
  intros Hw Hrun.
  exact (decode_whole keeps_buffer_sized ibuf ibuf_sz obuf width height
           (decode_call_keeps_buffer_sized ibuf ibuf_sz obuf width height)
           fuel w o w' Hrun Hw).
Qed.

(** ** Releases *)

(** As [frame_calls], keeping the condition of every branch taken. *)
Ltac frame_cases lem prim :=
  unfold ERR, WARN, TRACE, nvtxRangePush, nvtxRangePop, when;
  repeat first
    [ lem
    | apply maintains_ret; solve [typeclasses eauto]
    | apply maintains_get; solve [typeclasses eauto]
    | apply maintains_assert; solve [typeclasses eauto]
    | apply maintains_deref; solve [typeclasses eauto]
    | apply maintains_emit; solve [typeclasses eauto]
    | apply maintains_bind; [typeclasses eauto | | intro]
    | match goal with
      | |- maintains _ (if ?c then _ else _) => destruct c eqn:?
      | |- maintains _ (match ?c with _ => _ end) => destruct c eqn:?
      end
    | progress cbv zeta
    | prim ].

Ltac release_prim :=
  solve [ intro; exists []; split; reflexivity
        | intro; eexists [_]; split; [reflexivity |];
          cbn [forallb guarded_release];
          first [ reflexivity | rewrite andb_true_r; assumption ] ].

Lemma decode_call_guards_releases (ibuf ibuf_sz obuf width height : Z) :
  maintains (only_ops guarded_release)
            (decode_call ibuf ibuf_sz obuf width height).
Proof.
  assert (Hinit : forall iw ih dw dh,
             maintains (only_ops guarded_release)
                       (dec_initialize iw ih dw dh)).
  { intros. unfold dec_initialize, allocate_rgb.
    frame_cases fail release_prim. }
  apply decode_call_maintains; [typeclasses eauto | |].
  - unfold decode_submit, lazy_parser, initialize_parser, source_data,
      stage_copy, is_device_ptr.
    frame_cases
      ltac:(apply run_callbacks_maintains;
            [ typeclasses eauto
            | intro; unfold dec_sequence;
              frame_cases ltac:(apply Hinit) release_prim
            | intro; unfold dec_ode; frame_cases fail release_prim
            | intro; unfold dec_display; frame_cases fail release_prim ])
      release_prim.
  - unfold decode_reconcile, resize, decode_deliver, reorganize,
      reorganize_sync, is_device_ptr.
    frame_cases ltac:(apply Hinit) release_prim.
Qed.

(** X17.  A decode call releases only what exists: every
    [cuvidDestroyDecoder] it makes is on a non-null handle and every
    [cudaFree] on a non-null buffer, however the call ends. *)
Theorem decode_releases_only_what_exists
        (fuel : nat) (ibuf ibuf_sz obuf width height : Z)
        (w w' : world) (o : outcome nvp_err_t) :
  nvp_cuvid_decode fuel ibuf ibuf_sz obuf width height w = Some (o, w') ->
  exists ops,
    hwlog w' = ops ++ hwlog w
    /\ forall op, In op ops ->
                  (forall h, op = DestroyDecoder h -> h <> 0)
                  /\ (forall p, op = Free p -> p <> 0).
Proof.
  intro Hrun.
  destruct (decode_whole (only_ops guarded_release)
              ibuf ibuf_sz obuf width height
              (decode_call_guards_releases ibuf ibuf_sz obuf width height)
              fuel w o w' Hrun) as (ops & Hlog & Hall).
  exists ops. split; [exact Hlog|].
  intros op Hop. rewrite forallb_forall in Hall. specialize (Hall op Hop).
  split; intros x ->; cbn in Hall; apply neqb_true; exact Hall.
Qed.

(** ** Teardown *)

Lemma destroy_decoder_step (thw : teardown_hw) (s : teardown) :
  td_step (fun n => n)
          (if decoder (td_nvp s) =? 0 then []
           else [TdDestroyDecoder (decoder (td_nvp s))])
          s (destroy_decoder thw s).
Proof.
  unfold destroy_decoder, td_call, td_warn, neqb.
  destruct (decoder (td_nvp s) =? 0); cbn [negb].
  - split; [reflexivity|]. split; [reflexivity|].
    exists []. split; reflexivity.
  - destruct (negb (td_cuvidDestroyDecoder thw
                      (TdDestroyDecoder (decoder (td_nvp s)) :: td_log s)
                    =? CUDA_SUCCESS));
      (split; [reflexivity|]; split; [reflexivity|]);
      [eexists [_] | exists []]; split; reflexivity.
Qed.

Lemma destroy_parser_step (thw : teardown_hw) (s : teardown) :
  td_step (fun n => n)
          (if parser (td_nvp s) =? 0 then []
           else [TdDestroyVideoParser (parser (td_nvp s))])
          s (destroy_parser thw s).
Proof.
  unfold destroy_parser, td_call, td_warn, neqb.
  destruct (parser (td_nvp s) =? 0); cbn [negb].
  - split; [reflexivity|]. split; [reflexivity|].
    exists []. split; reflexivity.
  - destruct (negb (td_cuvidDestroyVideoParser thw
                      (TdDestroyVideoParser (parser (td_nvp s)) :: td_log s)
                    =? CUDA_SUCCESS));
      (split; [reflexivity|]; split; [reflexivity|]);
      [eexists [_] | exists []]; split; reflexivity.
Qed.

Lemma free_rgb_step (thw : teardown_hw) (s : teardown) :
  td_step (fun n => n) [TdFree (rgb (td_nvp s))] s (free_rgb thw s).
Proof.
  unfold free_rgb, td_call, td_warn, neqb.
  destruct (negb (cudaSuccess
                  =? td_cudaFree thw (TdFree (rgb (td_nvp s)) :: td_log s)));
    (split; [reflexivity|]; split; [reflexivity|]);
    [eexists [_] | exists []]; split; reflexivity.
Qed.

Lemma destroy_reorg_step (s : teardown) :
  td_step (set_reorg false)
          (if reorg (td_nvp s) then [TdReorgDestroy] else [])
          s (destroy_reorg s).
Proof.
  unfold destroy_reorg, td_set, td_do.
  destruct (reorg (td_nvp s)) eqn:Hreorg.
  - split; [reflexivity|]. split; [reflexivity|].
    exists []. split; reflexivity.
  - split.
    + destruct (td_nvp s). cbn in *. subst. reflexivity.
    + split; [reflexivity|]. exists []. split; reflexivity.
Qed.

Lemma destroy_event_step (thw : teardown_hw) (s : teardown) :
  td_step (fun n => n) [TdEventDestroy (ready (td_nvp s))] s
          (destroy_event thw s).
Proof.
  unfold destroy_event, td_call, td_warn, neqb.
  destruct (negb (cudaSuccess
                  =? td_cudaEventDestroy thw
                       (TdEventDestroy (ready (td_nvp s)) :: td_log s)));
    (split; [reflexivity|]; split; [reflexivity|]);
    [eexists [_] | exists []]; split; reflexivity.
Qed.

Lemma free_hbuf_step (s : teardown) :
  td_step (fun n => set_hbuf (hbuf n) 0 n) [TdHostFree (hbuf (td_nvp s))] s
          (free_hbuf s).
Proof.
  unfold free_hbuf, td_set, td_do.
  split; [reflexivity|]. split; [reflexivity|].
  exists []. split; reflexivity.
Qed.

(** X18.  Teardown is best effort and does not clear what it releases.  On
    a decoder object, [nvp_cuvid_destroy] always runs to its end, whatever
    the statuses it gets: it destroys the decode resource and the parser if
    their handles are non-null, frees the conversion buffer (null or not),
    destroys the reorganization object if there is one, destroys the event
    and frees the host buffer, in this order and each once (the log reads
    newest first); a failed step only adds a warning.  Afterwards [reorg] is
    null and [hbuf_sz] is 0, and every other field, the released handles and
    pointers included, is as before. *)
Theorem teardown_is_best_effort (thw : teardown_hw) (s : teardown) :
  let n := td_nvp s in
  let s' := snd (nvp_cuvid_destroy thw s) in
  NDEBUG || is_DECODER (impl_type n) = true ->
  fst (nvp_cuvid_destroy thw s) = Done tt
  /\ td_log s'
     = TdHostFree (hbuf n) :: TdEventDestroy (ready n)
       :: (if reorg n then [TdReorgDestroy] else [])
       ++ TdFree (rgb n)
       :: (if parser n =? 0 then [] else [TdDestroyVideoParser (parser n)])
       ++ (if decoder n =? 0 then [] else [TdDestroyDecoder (decoder n)])
       ++ td_log s
  /\ td_nvp s' = set_hbuf (hbuf n) 0 (set_reorg false n)
  /\ exists warnings,
      td_diag s' = warnings ++ td_diag s
      /\ forallb is_warning warnings = true.
Proof.
  intros n s' Htype. subst s'.
  assert (Htype' : NDEBUG || is_DECODER (impl_type (td_nvp s)) = true)
    by exact Htype.
  unfold nvp_cuvid_destroy. rewrite Htype'. cbn [fst snd].
  split; [reflexivity|].
  set (s1 := destroy_decoder thw s).
  set (s2 := destroy_parser thw s1).
  set (s3 := free_rgb thw s2).
  set (s4 := destroy_reorg s3).
  set (s5 := destroy_event thw s4).
  destruct (destroy_decoder_step thw s) as (Hn1 & Hl1 & ws1 & Hd1 & Hw1).
  destruct (destroy_parser_step thw s1) as (Hn2 & Hl2 & ws2 & Hd2 & Hw2).
  destruct (free_rgb_step thw s2) as (Hn3 & Hl3 & ws3 & Hd3 & Hw3).
  destruct (destroy_reorg_step s3) as (Hn4 & Hl4 & ws4 & Hd4 & Hw4).
  destruct (destroy_event_step thw s4) as (Hn5 & Hl5 & ws5 & Hd5 & Hw5).
  destruct (free_hbuf_step s5) as (Hn6 & Hl6 & ws6 & Hd6 & Hw6).
  fold s1 in Hn1, Hl1, Hd1. fold s2 in Hn2, Hl2, Hd2.
  fold s3 in Hn3, Hl3, Hd3. fold s4 in Hn4, Hl4, Hd4.
  fold s5 in Hn5, Hl5, Hd5.
  fold n in Hn1, Hl1. rewrite Hn1 in Hn2, Hl2. rewrite Hn2 in Hn3, Hl3.
  rewrite Hn3 in Hn4, Hl4.
  assert (Hready : ready (td_nvp s4) = ready n) by (rewrite Hn4; reflexivity).
  assert (Hhbuf : hbuf (td_nvp s5) = hbuf n)
    by (rewrite Hn5, Hn4; reflexivity).
  rewrite Hready in Hl5. rewrite Hhbuf in Hl6.
  split.
  { rewrite Hl6, Hl5, Hl4, Hl3, Hl2, Hl1. cbn [app].
    rewrite <- ?app_assoc. reflexivity. }
  split.
  { rewrite Hn6, Hn5, Hn4. reflexivity. }
  exists (ws6 ++ ws5 ++ ws4 ++ ws3 ++ ws2 ++ ws1). split.
  - rewrite Hd6, Hd5, Hd4, Hd3, Hd2, Hd1. rewrite <- !app_assoc. reflexivity.
  - rewrite !forallb_app, Hw1, Hw2, Hw3, Hw4, Hw5, Hw6. reflexivity.
Qed.

End Decode.

(** ** The theorems at work

    The theorems above are instantiated on the sample environments, with
    assertions compiled in and the status codes
    [NVPIPE_EINVAL = 1], [NVPIPE_ENOMEM = 2], [NVPIPE_EDECODE = 7]. *)

(** A 640x480 stream decoded at 640x480 on a fresh decoder succeeds, and the
    dimensions are reconciled. *)
Lemma decode_success_reconciles_witness :
  let w' := world_after (nvp_cuvid_decode false 1 2 7 hw_ok 5 100 10 200
                                          640 480 initial_world) in
  nvp_cuvid_decode false 1 2 7 hw_ok 5 100 10 200 640 480 initial_world
  = Some (Done NVPIPE_SUCCESS, w')
  /\ (wi (d (nvp w')), hi (d (nvp w'))) = (wsrc (d (nvp w')), hsrc (d (nvp w')))
  /\ (wdst (d (nvp w')), hdst (d (nvp w'))) = (640, 480).
Proof.
  cbv zeta. split; [vm_compute; reflexivity|].
  apply (decode_success_reconciles false 1 2 7 hw_ok 5 100 10 200 640 480
                                   initial_world).
  - discriminate.
  - discriminate.
  - discriminate.
  - vm_compute. reflexivity.
Defined.

(** A stream of metadata only: the first activation sets the flag and
    resubmits, the second returns invalid-argument. *)
Lemma metadata_only_recursion_witness :
  let w1 := snd (decode_submit false 1 2 7 hw_metadata 100 10 200 640 480
                               initial_world) in
  let w1' := with_nvp (set_empty true (nvp w1)) w1 in
  let w2 := snd (decode_submit false 1 2 7 hw_metadata 100 10 200 640 480
                               w1') in
  decode_submit false 1 2 7 hw_metadata 100 10 200 640 480 initial_world
  = (Done None, w1)
  /\ nvp_cuvid_decode false 1 2 7 hw_metadata 2 100 10 200 640 480
                      initial_world
     = Some (Done 1, with_diag (Msg L_ERR "Input is just stream metadata!") w2).
Proof.
  cbv zeta. split; [vm_compute; reflexivity|].
  destruct (metadata_only_recursion false 1 2 7 hw_metadata 0 100 10 200
              640 480 initial_world
              (snd (decode_submit false 1 2 7 hw_metadata 100 10 200 640 480
                                  initial_world)))
    as [Hzero _].
  - vm_compute. reflexivity.
  - destruct Hzero as [_ Hclear].
    + left. vm_compute. reflexivity.
    + destruct (Hclear eq_refl) as (_ & _ & Hsecond).
      apply Hsecond.
      * vm_compute. reflexivity.
      * left. vm_compute. reflexivity.
Defined.

(** C3.  The single destroy-and-recreate followed by one resubmission that
    the claim describes is lost when a re-creation fails, because [resize]
    drops the result of [dec_initialize].  With [hw_create_fails_once] (the
    second [cuvidCreateDecoder] of the session returns status 2), decode
    640x480 and then ask for 320x240.  The first activation of the second
    call destroys the decode resource and fails to create the new one, which
    leaves the handle null, and resubmits all the same.  The second
    activation still sees a mismatch (world [w3], after its parse) and
    resizes again: one more [cuvidCreateDecoder] and no
    [cuvidDestroyDecoder] at all.  Two activations do not end the call, the
    third returns: over the whole second call there are two creations for
    one destruction, and two resubmissions. *)
Lemma recreation_without_destroy :
  let decode := nvp_cuvid_decode false 1 2 7 hw_create_fails_once in
  let w1 := world_after (decode 5%nat 100 10 200 640 480 initial_world) in
  let w2 := snd (decode_call false 1 2 7 hw_create_fails_once
                             100 10 200 320 240 w1) in
  let w3 := snd (decode_submit false 1 2 7 hw_create_fails_once
                               100 10 200 320 240 w2) in
  let w4 := snd (decode_reconcile false 1 hw_create_fails_once
                                  200 320 240 w3) in
  let w5 := world_after (decode 3%nat 100 10 200 320 240 w1) in
  option_map fst (decode 5%nat 100 10 200 640 480 initial_world)
  = Some (Done NVPIPE_SUCCESS)
  /\ fst (decode_call false 1 2 7 hw_create_fails_once 100 10 200 320 240 w1)
     = Done Resubmit
  /\ decoder (nvp w2) = 0
  /\ (wdst (d (nvp w3)), hdst (d (nvp w3))) <> (320, 240)
  /\ fst (decode_reconcile false 1 hw_create_fails_once 200 320 240 w3)
     = Done Resubmit
  /\ count is_DestroyDecoder (hwlog w4) = count is_DestroyDecoder (hwlog w3)
  /\ count is_CreateDecoder (hwlog w4) = S (count is_CreateDecoder (hwlog w3))
  /\ decode 2%nat 100 10 200 320 240 w1 = None
  /\ decode 3%nat 100 10 200 320 240 w1 = Some (Done NVPIPE_SUCCESS, w5)
  /\ count is_DestroyDecoder (hwlog w5)
     = S (count is_DestroyDecoder (hwlog w1))
  /\ count is_CreateDecoder (hwlog w5)
     = S (S (count is_CreateDecoder (hwlog w1))).
Proof.
  cbv zeta. split; [vm_compute; reflexivity|].
  split; [vm_compute; reflexivity|].
  split; [vm_compute; reflexivity|].
  split; [vm_compute; discriminate|].
  split; [vm_compute; reflexivity|].
  split; [vm_compute; reflexivity|].
  split; [vm_compute; reflexivity|].
  split; [vm_compute; reflexivity|].
  split; [vm_compute; reflexivity|].
  split; vm_compute; reflexivity.
Qed.

(** Height 481 is odd. *)
Lemma decode_rejects_bad_arguments_witness :
  (10 = 0 \/ 640 = 0 \/ 481 = 0 \/ Z.odd 481 = true)
  /\ exists w',
      nvp_cuvid_decode false 1 2 7 hw_ok 1 100 10 200 640 481 initial_world
      = Some (Done 1, w')
      /\ hwlog w' = hwlog initial_world /\ nvp w' = nvp initial_world.
Proof.
  split.
  - right. right. right. reflexivity.
  - apply (decode_rejects_bad_arguments false 1 2 7 hw_ok 0 100 10 200
                                        640 481 initial_world).
    right. right. right. reflexivity.
Defined.



(** C6, counterexample.  Device input on a fresh decoder.  In the first
    environment [realloc] succeeds and the copy to the host fails with status
    3; in the second [realloc] fails.  The decode call makes one attempt in
    each and returns the same status, [NVPIPE_ENOMEM] (2 here): a failed copy
    is not reported as a condition of its own. *)
Lemma copy_failure_reported_as_out_of_memory :
  let copy_fails :=
    nvp_cuvid_decode false 1 2 7 (hw_device 64 3) 1 100 10 200 640 480
                     initial_world in
  let growth_fails :=
    nvp_cuvid_decode false 1 2 7 (hw_device 0 0) 1 100 10 200 640 480
                     initial_world in
  option_map fst copy_fails = Some (Done 2)
  /\ option_map fst growth_fails = Some (Done 2)
  /\ hwlog (world_after copy_fails)
     = [Memcpy 64 100 10; Realloc 0 10; PointerGetAttributes 100;
        CreateVideoParser]
  /\ hwlog (world_after growth_fails)
     = [Realloc 0 10; PointerGetAttributes 100; CreateVideoParser].
Proof.
  cbv zeta.
  split; [vm_compute; reflexivity|].
  split; [vm_compute; reflexivity|].
  split; vm_compute; reflexivity.
Qed.

(** Device input whose copy to the host fails: staging returns null and the
    call returns [NVPIPE_ENOMEM]. *)
Lemma staging_contract_witness :
  let hw := hw_device 64 3 in
  let w := snd (lazy_parser 7 hw initial_world) in
  fst (source_data false hw 100 10 w) = Done 0
  /\ nvp_cuvid_decode false 1 2 7 hw 1 100 10 200 640 480 initial_world
     = Some (Done 2, snd (source_data false hw 100 10 w)).
Proof.
  cbv zeta.
  destruct (staging_contract false 1 2 7 (hw_device 64 3) 100 10
              (snd (lazy_parser 7 (hw_device 64 3) initial_world)))
    as (_ & _ & Hcopy & _ & Hcall).
  assert (Hnull : fst (source_data false (hw_device 64 3) 100 10
                         (snd (lazy_parser 7 (hw_device 64 3) initial_world)))
                  = Done 0).
  { rewrite Hcopy.
    - reflexivity.
    - vm_compute. reflexivity.
    - intros _. vm_compute. discriminate.
    - vm_compute. discriminate. }
  split; [exact Hnull|].
  apply Hcall.
  - reflexivity.
  - discriminate.
  - discriminate.
  - discriminate.
  - reflexivity.
  - reflexivity.
  - vm_compute. reflexivity.
  - exact Hnull.
Defined.

(** The conversion kernel fails with status 9 and the unmap fails too: the
    call returns 9, its last external call is the unmap of the mapped frame,
    and its last diagnostic the warning about the unmap. *)
Lemma unmap_after_conversion_witness :
  exists w',
    nvp_cuvid_decode false 1 2 7 hw_convert_fails 1 100 10 200 640 480
                     initial_world
    = Some (Done 9, w')
    /\ hd_error (hwlog w') = Some (UnmapVideoFrame 7 8192)
    /\ hd_error (diag w') = Some (Msg L_WARN "Unmapping frame failed: %d").
Proof.
  eexists. split.
  - eapply (unmap_after_conversion false 1 2 7 hw_convert_fails 0
              100 10 200 640 480 initial_world
              (snd (decode_submit false 1 2 7 hw_convert_fails
                                  100 10 200 640 480 initial_world))
              _ 9).
    + vm_compute. reflexivity.
    + vm_compute. discriminate.
    + vm_compute. discriminate.
    + vm_compute. reflexivity.
    + vm_compute. reflexivity.
    + vm_compute. reflexivity.
    + vm_compute. reflexivity.
    + vm_compute. reflexivity.
    + vm_compute. reflexivity.
    + vm_compute. reflexivity.
  - split; vm_compute; reflexivity.
Defined.

(** A 40x30 macroblock picture: with decode resource 7 the picture is
    decoded and the source width becomes 640; on a null decode resource the
    decode fails and the object is untouched. *)
Lemma dec_ode_records_source_dims_witness :
  (fst (dec_ode hw_ok pic_640x480 running_world) = Done 1
   /\ wsrc (d (nvp (snd (dec_ode hw_ok pic_640x480 running_world)))) = 40 * 16)
  /\ (fst (dec_ode hw_ok pic_640x480 initial_world) = Done 0
      /\ nvp (snd (dec_ode hw_ok pic_640x480 initial_world))
         = nvp initial_world).
Proof.
  split.
  - destruct (dec_ode_records_source_dims hw_ok pic_640x480 running_world)
      as [Hok _].
    destruct (Hok eq_refl) as (Hret & _ & _ & _ & Hwidth & _).
    split; [exact Hret|]. apply Hwidth. split; [discriminate | reflexivity].
  - destruct (dec_ode_records_source_dims hw_ok pic_640x480 initial_world)
      as [_ Hfail].
    assert (Hst : cuvidDecodePicture hw_ok
                    (DecodePicture (decoder (nvp initial_world)) pic_640x480
                                   :: hwlog initial_world)
                  <> CUDA_SUCCESS) by discriminate.
    destruct (Hfail Hst) as (Hret & Hnvp & _).
    split; [exact Hret | exact Hnvp].
Defined.

(** C9, counterexample.  With assertions compiled in, neither entry point
    returns: both stop in [assert(false)], so the encode entry point does
    not return invalid-argument (1 here). *)
Lemma encode_stops_in_assertion :
  fst (nvp_cuvid_encode false 1 100 10 200 0 640 480 0 initial_world)
  = Aborted
  /\ fst (nvp_cuvid_bitrate false 1 1000 initial_world) = Aborted
  /\ fst (nvp_cuvid_encode false 1 100 10 200 0 640 480 0 initial_world)
     <> Done 1.
Proof.
  split; [reflexivity|]. split; [reflexivity | discriminate].
Qed.

(** An encoder object passed to the decode entry point. *)
Lemma decode_rejects_foreign_object_witness :
  impl_type (nvp foreign_world) <> DECODER
  /\ nvp_cuvid_decode false 1 2 7 hw_ok 1 0 0 0 0 0 foreign_world
     = Some (Done 1,
             with_diag (Msg L_ERR "backend implementation configuration error")
                       foreign_world).
Proof.
  split.
  - discriminate.
  - apply (decode_rejects_foreign_object false 1 2 7 hw_ok 0 0 0 0 0 0
                                         foreign_world).
    discriminate.
Defined.

(** ** Beyond the claims, at work *)

Lemma sample_request_valid (width height : Z) :
  width <> 0 -> height <> 0 -> Z.odd height = false ->
  valid_request false 100 10 200 width height.
Proof.
  intros Hw Hh Hodd. unfold valid_request.
  split; [discriminate|]. split; [exact Hw|]. split; [exact Hh|].
  split; [exact Hodd | reflexivity].
Qed.

(** A decode with a resize keeps tag, event and reorganization object. *)
Lemma decode_keeps_identity_witness :
  let r := nvp_cuvid_decode false 1 2 7 hw_ok 5 100 10 200 320 240
                            initial_world in
  r = Some (Done 0, world_after r)
  /\ impl_type (nvp (world_after r)) = impl_type (nvp initial_world)
  /\ ready (nvp (world_after r)) = ready (nvp initial_world)
  /\ reorg (nvp (world_after r)) = reorg (nvp initial_world).
Proof.
  cbv zeta. split; [vm_compute; reflexivity|].
  apply (decode_keeps_identity false 1 2 7 hw_ok 5 100 10 200 320 240
                               initial_world _ (Done 0)).
  vm_compute. reflexivity.
Defined.

(** Device input of 10 bytes: the staging buffer grows from 0 to 10. *)
Lemma staging_buffer_never_shrinks_witness :
  let r := nvp_cuvid_decode false 1 2 7 (hw_device 64 0) 5 100 10 200
                            640 480 initial_world in
  option_map snd r = Some (world_after r)
  /\ hbuf_sz (nvp initial_world) <= hbuf_sz (nvp (world_after r)).
Proof.
  cbv zeta. split; [vm_compute; reflexivity|].
  eapply (staging_buffer_never_shrinks false 1 2 7 (hw_device 64 0) 5
                                       100 10 200 640 480 initial_world).
  vm_compute. reflexivity.
Defined.

(** The second call of a session, with a resize, keeps parser 5. *)
Lemma parser_created_once_witness :
  let w1 := world_after (nvp_cuvid_decode false 1 2 7 hw_ok 5 100 10 200
                                          640 480 initial_world) in
  let r := nvp_cuvid_decode false 1 2 7 hw_ok 5 100 10 200 320 240 w1 in
  parser (nvp w1) <> 0
  /\ parser (nvp (world_after r)) = parser (nvp w1)
  /\ exists ops,
      hwlog (world_after r) = ops ++ hwlog w1
      /\ forallb not_CreateVideoParser ops = true.
Proof.
  cbv zeta.
  assert (Hp : parser
                 (nvp (world_after
                         (nvp_cuvid_decode false 1 2 7 hw_ok 5 100 10 200
                                           640 480 initial_world)))
               <> 0) by (vm_compute; discriminate).
  split; [exact Hp|].
  eapply (parser_created_once false 1 2 7 hw_ok 5 100 10 200 320 240).
  - exact Hp.
  - vm_compute. reflexivity.
Defined.

(** Parser creation fails on a fresh decoder. *)
Lemma parser_creation_failure_witness :
  nvp_cuvid_decode false 1 2 7 hw_no_parser 1 100 10 200 640 480
                   initial_world
  = Some (Done 7,
          with_diag (Msg L_ERR "failed creating video parser.")
                    (with_hwlog [CreateVideoParser] initial_world)).
Proof.
  apply (parser_creation_failure false 1 2 7 hw_no_parser 0 100 10 200
                                 640 480 initial_world).
  - reflexivity.
  - apply sample_request_valid; [discriminate | discriminate | reflexivity].
  - reflexivity.
  - discriminate.
  - vm_compute. discriminate.
Defined.

(** The parser rejects the packet. *)
Lemma parse_failure_witness :
  exists w',
    nvp_cuvid_decode false 1 2 7 hw_parse_fails 1 100 10 200 640 480
                     initial_world
    = Some (Done 7, w').
Proof.
  eexists.
  eapply (parse_failure false 1 2 7 hw_parse_fails 0 100 10 200 640 480
                        initial_world _ _ _ 100 1).
  - reflexivity.
  - apply sample_request_valid; [discriminate | discriminate | reflexivity].
  - vm_compute. reflexivity.
  - vm_compute. reflexivity.
  - discriminate.
  - vm_compute. reflexivity.
  - discriminate.
Defined.

(** A failed map, a failed event record after a successful map, and a
    delivery on a decoder whose reorganization object is gone. *)
Lemma deliver_failures_witness :
  (fst (decode_deliver false hw_map_fails 200 640 480 running_world) = Done 3
   /\ hwlog (snd (decode_deliver false hw_map_fails 200 640 480
                                 running_world))
      = [MapVideoFrame 7 0])
  /\ (fst (decode_deliver false hw_event_fails 200 640 480 running_world)
      = Done 4
      /\ hwlog (snd (decode_deliver false hw_event_fails 200 640 480
                                    running_world))
         = [EventRecord 1; MapVideoFrame 7 0])
  /\ (fst (decode_deliver false hw_ok 200 640 480 released_world) = Faulted
      /\ hwlog (snd (decode_deliver false hw_ok 200 640 480 released_world))
         = [EventRecord 1; MapVideoFrame 7 0]).
Proof.
  split; [|split].
  - destruct (deliver_failures false hw_map_fails 200 640 480 running_world
                               eq_refl) as (Hmap & _ & _).
    assert (H : fst (cuvidMapVideoFrame hw_map_fails
                       (MapVideoFrame (decoder (nvp running_world))
                                      (idx (nvp running_world))
                                      :: hwlog running_world))
                <> CUDA_SUCCESS) by (vm_compute; discriminate).
    rewrite (Hmap H). split; reflexivity.
  - destruct (deliver_failures false hw_event_fails 200 640 480 running_world
                               eq_refl) as (_ & Hrec & _).
    rewrite Hrec.
    + split; reflexivity.
    + reflexivity.
    + vm_compute. discriminate.
  - destruct (deliver_failures false hw_ok 200 640 480 released_world
                               eq_refl) as (_ & _ & _ & Hnull).
    rewrite (Hnull eq_refl eq_refl eq_refl). split; reflexivity.
Defined.

(** The kernel fails with status 9; on [hw_ok] the conversion succeeds; on
    a decoder whose reorganization object is gone the assertion stops the
    process, and with assertions compiled out the null pointer does. *)
Lemma reorganize_contract_witness :
  fst (reorganize false hw_convert_fails 8192 640 480 200 1024 running_world)
  = Done 9
  /\ fst (reorganize false hw_ok 8192 640 480 200 1024 running_world)
     = Done NVPIPE_SUCCESS
  /\ reorganize false hw_ok 8192 640 480 200 1024 released_world
     = (Aborted, with_hwlog [PointerGetAttributes 200] released_world)
  /\ reorganize true hw_ok 8192 640 480 200 1024 released_world
     = (Faulted, with_hwlog [PointerGetAttributes 200] released_world).
Proof.
  split; [|split; [|split]].
  - destruct (reorganize_contract false hw_convert_fails 8192 640 480 200
                                  1024 running_world)
      as (Hlive & _).
    destruct (Hlive eq_refl) as (Hsub & _).
    rewrite Hsub; [reflexivity | vm_compute; discriminate].
  - destruct (reorganize_contract false hw_ok 8192 640 480 200 1024
                                  running_world)
      as (Hlive & _).
    destruct (Hlive eq_refl) as (_ & _ & _ & Hok).
    rewrite Hok; reflexivity.
  - destruct (reorganize_contract false hw_ok 8192 640 480 200 1024
                                  released_world)
      as (_ & Hnull).
    exact (Hnull eq_refl).
  - destruct (reorganize_contract true hw_ok 8192 640 480 200 1024
                                  released_world)
      as (_ & Hnull).
    exact (Hnull eq_refl).
Defined.

(** The parse of a second call on an initialized decoder. *)
Lemma parse_keeps_resources_witness :
  let w := world_after (nvp_cuvid_decode false 1 2 7 hw_ok 5 100 10 200
                                         640 480 initial_world) in
  let w1 := snd (decode_submit false 1 2 7 hw_ok 100 10 200 320 240 w) in
  initialized (nvp w) = true
  /\ decoder (nvp w1) = decoder (nvp w)
  /\ rgb (nvp w1) = rgb (nvp w).
Proof.
  cbv zeta.
  assert (Hi : initialized
                 (nvp (world_after
                         (nvp_cuvid_decode false 1 2 7 hw_ok 5 100 10 200
                                           640 480 initial_world)))
               = true) by (vm_compute; reflexivity).
  split; [exact Hi|].
  destruct (parse_keeps_resources false 1 2 7 hw_ok 100 10 200 320 240 _ Hi)
    as (_ & _ & _ & Hd & Hr & _).
  split; [exact Hd | exact Hr].
Defined.

(** A second call at the same size. *)
Lemma stable_call_single_activation_witness :
  let w := world_after (nvp_cuvid_decode false 1 2 7 hw_ok 5 100 10 200
                                         640 480 initial_world) in
  exists o w',
    nvp_cuvid_decode false 1 2 7 hw_ok 1 100 10 200 640 480 w = Some (o, w')
    /\ d (nvp w') = d (nvp w).
Proof.
  cbv zeta.
  destruct (stable_call_single_activation
              false 1 2 7 hw_ok 0 100 10 200 640 480
              (world_after (nvp_cuvid_decode false 1 2 7 hw_ok 5 100 10 200
                                             640 480 initial_world))
              (snd (decode_submit false 1 2 7 hw_ok 100 10 200 640 480
                      (world_after
                         (nvp_cuvid_decode false 1 2 7 hw_ok 5 100 10 200
                                           640 480 initial_world)))))
    as (o & w' & Hrun & Hd & _).
  - vm_compute. reflexivity.
  - vm_compute. reflexivity.
  - vm_compute. reflexivity.
  - vm_compute. reflexivity.
  - vm_compute. reflexivity.
  - vm_compute. discriminate.
  - vm_compute. discriminate.
  - exists o, w'. split; [exact Hrun | exact Hd].
Defined.

(** Initialization of a fresh decoder at 640x480. *)
Lemma dec_initialize_outcome_witness :
  let w' := snd (dec_initialize false hw_ok 640 480 640 480 initial_world) in
  dec_initialize false hw_ok 640 480 640 480 initial_world = (Done true, w')
  /\ initialized (nvp w') = true
  /\ (wdst (d (nvp w')), hdst (d (nvp w'))) = (640, 480).
Proof.
  cbv zeta.
  assert (Hrun : dec_initialize false hw_ok 640 480 640 480 initial_world
                 = (Done true,
                    snd (dec_initialize false hw_ok 640 480 640 480
                                        initial_world)))
    by (vm_compute; reflexivity).
  split; [exact Hrun|].
  destruct (dec_initialize_outcome false hw_ok 640 480 640 480 initial_world
                                   _ true Hrun) as (_ & _ & Htrue & _).
  destruct (Htrue eq_refl) as (_ & _ & Hinit & Hdst).
  split; [exact Hinit | exact Hdst].
Defined.

(** The first sequence of the 640x480 stream. *)
Lemma first_sequence_initializes_witness :
  let w' := snd (dec_sequence false hw_ok fmt_640x480 initial_world) in
  dec_sequence false hw_ok fmt_640x480 initial_world = (Done 1, w')
  /\ initialized (nvp w') = true.
Proof.
  cbv zeta.
  assert (Hrun : dec_sequence false hw_ok fmt_640x480 initial_world
                 = (Done 1,
                    snd (dec_sequence false hw_ok fmt_640x480 initial_world)))
    by (vm_compute; reflexivity).
  split; [exact Hrun|].
  destruct (first_sequence_initializes false hw_ok fmt_640x480 initial_world
                                       _ 1 eq_refl eq_refl Hrun)
    as (_ & Hone & _).
  destruct (Hone eq_refl) as (Hinit & _). exact Hinit.
Defined.

(** A second call at 320x240: one resize, then delivery. *)
Lemma resize_then_deliver_witness :
  let w0 := world_after (nvp_cuvid_decode false 1 2 7 hw_ok 5 100 10 200
                                          640 480 initial_world) in
  exists o w',
    nvp_cuvid_decode false 1 2 7 hw_ok 2 100 10 200 320 240 w0 = Some (o, w')
    /\ (wdst (d (nvp w')), hdst (d (nvp w'))) = (320, 240).
Proof.
  cbv zeta.
  destruct (resize_then_deliver
              false 1 2 7 hw_ok 0 100 10 200 320 240
              (world_after (nvp_cuvid_decode false 1 2 7 hw_ok 5 100 10 200
                                             640 480 initial_world))
              (snd
                 ((decode_submit false 1 2 7 hw_ok 100 10 200 320 240
                          (world_after
                             (nvp_cuvid_decode false 1 2 7 hw_ok 5 100 10 200
                                               640 480 initial_world)))))
              (snd
                 ((decode_submit false 1 2 7 hw_ok 100 10 200 320 240
                          (snd (decode_reconcile false 1 hw_ok 200 320 240
                                  (snd
                                     ((decode_submit
                                              false 1 2 7 hw_ok 100 10 200
                                              320 240
                                              (world_after
                                                 (nvp_cuvid_decode
                                                    false 1 2 7 hw_ok 5 100
                                                    10 200 640 480
                                                    initial_world)))))))))))
    as (_ & o & w' & _ & _ & Hrun & _ & _ & _ & _ & _ & Hdst).
  - intros l. reflexivity.
  - intros l. reflexivity.
  - intros l. reflexivity.
  - vm_compute. reflexivity.
  - vm_compute. reflexivity.
  - vm_compute. reflexivity.
  - reflexivity.
  - reflexivity.
  - right. vm_compute. discriminate.
  - vm_compute. reflexivity.
  - vm_compute. reflexivity.
  - exists o, w'. split; [exact Hrun | exact Hdst].
Defined.

(** The creation of the second call's resize fails. *)
Lemma failed_creation_is_swallowed_witness :
  let w0 := world_after (nvp_cuvid_decode false 1 2 7 hw_create_fails_once 5
                                          100 10 200 640 480 initial_world) in
  let w := snd (decode_submit false 1 2 7 hw_create_fails_once 100 10 200
                              320 240 w0) in
  exists w',
    decode_reconcile false 1 hw_create_fails_once 200 320 240 w
    = (Done Resubmit, w')
    /\ decoder (nvp w') = 0.
Proof.
  cbv zeta.
  destruct (failed_creation_is_swallowed
              false 1 hw_create_fails_once 200 320 240
              (snd (decode_submit
                      false 1 2 7 hw_create_fails_once 100 10 200 320 240
                      (world_after
                         (nvp_cuvid_decode false 1 2 7 hw_create_fails_once 5
                                           100 10 200 640 480
                                           initial_world)))))
    as (w' & Hrun & _ & Hnvp & _).
  - vm_compute. reflexivity.
  - vm_compute. reflexivity.
  - reflexivity.
  - reflexivity.
  - right. vm_compute. discriminate.
  - vm_compute. discriminate.
  - exists w'. split; [exact Hrun|]. rewrite Hnvp. reflexivity.
Defined.

(** Every creation fails: the resize of a second call is retried without
    end, whatever the number of activations allowed. *)
Lemma creation_failure_never_returns_witness :
  let w0 := world_after (nvp_cuvid_decode false 1 2 7 hw_ok 5 100 10 200
                                          640 480 initial_world) in
  nvp_cuvid_decode false 1 2 7 hw_never_creates 1000 100 10 200 320 240 w0
  = None.
Proof.
  cbv zeta.
  apply (creation_failure_never_returns false 1 2 7 hw_never_creates
                                        100 10 200 320 240).
  - intros l. cbn. discriminate.
  - intros l. reflexivity.
  - intros l. destruct l as [|[] l]; reflexivity.
  - apply sample_request_valid; [discriminate | discriminate | reflexivity].
  - discriminate.
  - reflexivity.
  - reflexivity.
  - vm_compute. reflexivity.
  - vm_compute. discriminate.
  - vm_compute. reflexivity.
  - vm_compute. reflexivity.
  - vm_compute. discriminate.
Defined.

(** The stream grows to 1280x720 and the re-creation fails: with
    assertions compiled in, the call stops at the delivery's assertion. *)
Lemma delivery_without_decoder_witness :
  let w0 := world_after (nvp_cuvid_decode false 1 2 7 hw_ok 5 100 10 200
                                          640 480 initial_world) in
  option_map fst
    (nvp_cuvid_decode false 1 2 7 hw_stream_grows 2 100 10 200 640 480 w0)
  = Some Aborted.
Proof.
  cbv zeta.
  destruct (delivery_without_decoder
              false 1 2 7 hw_stream_grows 0 100 10 200 640 480
              (world_after (nvp_cuvid_decode false 1 2 7 hw_ok 5 100 10 200
                                             640 480 initial_world))
              (snd
                 ((decode_submit
                          false 1 2 7 hw_stream_grows 100 10 200 640 480
                          (world_after
                             (nvp_cuvid_decode false 1 2 7 hw_ok 5 100 10 200
                                               640 480 initial_world)))))
              (snd
                 ((decode_submit
                          false 1 2 7 hw_stream_grows 100 10 200 640 480
                          (snd (decode_reconcile
                                  false 1 hw_stream_grows 200 640 480
                                  (snd
                                     ((decode_submit
                                              false 1 2 7 hw_stream_grows
                                              100 10 200 640 480
                                              (world_after
                                                 (nvp_cuvid_decode
                                                    false 1 2 7 hw_ok 5 100
                                                    10 200 640 480
                                                    initial_world)))))))))))
    as (_ & Habort & _).
  - vm_compute. reflexivity.
  - vm_compute. reflexivity.
  - vm_compute. reflexivity.
  - vm_compute. reflexivity.
  - reflexivity.
  - reflexivity.
  - vm_compute. discriminate.
  - vm_compute. reflexivity.
  - vm_compute. discriminate.
  - vm_compute. reflexivity.
  - vm_compute. reflexivity.
  - rewrite (Habort eq_refl). reflexivity.
Defined.

(** A first call and a resizing second call keep the buffer sized. *)
Lemma conversion_buffer_stays_sized_witness :
  let w1 := world_after (nvp_cuvid_decode false 1 2 7 hw_ok 5 100 10 200
                                          640 480 initial_world) in
  let w2 := world_after (nvp_cuvid_decode false 1 2 7 hw_ok 5 100 10 200
                                          320 240 w1) in
  buffer_sized hw_ok initial_world
  /\ buffer_sized hw_ok w1
  /\ buffer_sized hw_ok w2.
Proof.
  cbv zeta.
  assert (H0 : buffer_sized hw_ok initial_world).
  { intros Hrgb. exfalso. apply Hrgb. reflexivity. }
  assert (H1 : buffer_sized hw_ok
                 (world_after (nvp_cuvid_decode false 1 2 7 hw_ok 5 100 10
                                                200 640 480 initial_world))).
  { eapply (conversion_buffer_stays_sized false 1 2 7 hw_ok 5 100 10 200
                                          640 480 initial_world).
    - exact H0.
    - vm_compute. reflexivity. }
  split; [exact H0|]. split; [exact H1|].
  eapply (conversion_buffer_stays_sized false 1 2 7 hw_ok 5 100 10 200
                                        320 240).
  - exact H1.
  - vm_compute. reflexivity.
Defined.

(** The resizing second call destroys decoder 7 and frees buffer 4096. *)
Lemma decode_releases_only_what_exists_witness :
  let w1 := world_after (nvp_cuvid_decode false 1 2 7 hw_ok 5 100 10 200
                                          640 480 initial_world) in
  let w2 := world_after (nvp_cuvid_decode false 1 2 7 hw_ok 5 100 10 200
                                          320 240 w1) in
  exists ops,
    hwlog w2 = ops ++ hwlog w1
    /\ forall op, In op ops ->
                  (forall h, op = DestroyDecoder h -> h <> 0)
                  /\ (forall p, op = Free p -> p <> 0).
Proof.
  cbv zeta.
  eapply (decode_releases_only_what_exists false 1 2 7 hw_ok 5 100 10 200
                                           320 240).
  vm_compute. reflexivity.
Defined.

(** Teardown of a decoder in use while every release fails. *)
Lemma teardown_is_best_effort_witness :
  fst (nvp_cuvid_destroy false td_hw_failing td_in_use) = Done tt
  /\ td_log (snd (nvp_cuvid_destroy false td_hw_failing td_in_use))
     = [TdHostFree 64; TdEventDestroy 1; TdReorgDestroy; TdFree 4096;
        TdDestroyVideoParser 5; TdDestroyDecoder 7].
Proof.
  destruct (teardown_is_best_effort false td_hw_failing td_in_use eq_refl)
    as (Hdone & Hlog & _).
  split; [exact Hdone|]. rewrite Hlog. reflexivity.
Defined.
